(** * seller-apis: stock and price reconciliation for the Ozon and
      Yandex.Market seller accounts

    A shallow embedding of [seller.py] and [market.py]:
    the Python built-ins the two files rely on ([str], [int], [str.split],
    [re.sub], [list.remove], [range], slicing), then the functions
    [create_stocks], [create_prices], [price_conversion] and [divide] of both
    modules, then the properties of the reconciliation engine.

    Conventions of the model.
    - A Python [str] is a [string] holding its UTF-8 encoding.  The
      characters the code inspects (['.'], ['0'..'9'], ['>'], ['_'], the
      signs and ASCII white space) are single bytes below 128 and every byte
      of a multi-byte UTF-8 sequence is at least 128, so splitting on ['.']
      and deleting [[^0-9]] act on bytes exactly as on code points.  [int],
      which also reads the white space and the decimal digits of other
      scripts, decodes the bytes first.
    - A record of the remnant spreadsheet is a Python [dict]; it is a
      [gmap string PyVal].  Cell values are [None], strings or integers
      (floats and dates of the spreadsheet are outside the model).
    - An exception is a value of [PyExc]; a computation that can raise
      returns a [result].
    - [create_stocks] mutates the list object it is given: the function
      returns the final contents of that object next to its result. *)

From stdpp Require Import gmap strings list pretty.
From Stdlib Require Import Ascii ZArith Lia.

Local Open Scope Z_scope.

(** ** Python values, exceptions *)

Inductive PyVal : Type :=
  | VNone
  | VStr (s : string)
  | VInt (n : Z).

Inductive PyExc : Type :=
  | ValueError
  | TypeError
  | AttributeError
  | IndexError.

Inductive result (A : Type) : Type :=
  | Ok (a : A)
  | Raise (e : PyExc).

Arguments Ok {A} a.
Arguments Raise {A} e.

Definition bind {A B : Type} (r : result A) (k : A → result B) : result B :=
  match r with
  | Ok a => k a
  | Raise e => Raise e
  end.

Notation "x ←! r ; k" := (bind r (λ x, k))
  (at level 20, r at level 100, k at level 200, right associativity,
   format "x  ←!  r ;  '/' k").

Definition is_Ok {A : Type} (r : result A) : Prop := ∃ a, r = Ok a.

Global Instance PyVal_eq_dec : EqDecision PyVal.
Proof. solve_decision. Defined.

Global Instance PyExc_eq_dec : EqDecision PyExc.
Proof. solve_decision. Defined.

(** ** Built-ins *)

Module Py.

(** Characters. *)
Definition code (c : ascii) : N := N_of_ascii c.

Definition is_digit (c : ascii) : bool :=
  ((48 <=? code c) && (code c <=? 57))%N.

(** [Py_ISSPACE]: tab, line feed, vertical tab, form feed, carriage
    return, space. *)
Definition is_space (c : ascii) : bool :=
  (((9 <=? code c) && (code c <=? 13)) || (code c =? 32))%N.

Definition digit_val (c : ascii) : Z := Z.of_N (code c) - 48.

(** [str(x)].  For a string it is the string itself, [None] prints as
    its name, an integer in decimal. *)
Definition str (x : PyVal) : string :=
  match x with
  | VNone => "None"
  | VStr s => s
  | VInt n => pretty n
  end.

(** *** [int(s)] for a string [s]

    A [str] is held here as its UTF-8 bytes.  [int] works in two steps.
    [PyLong_FromUnicodeObject] first rewrites the text to an ASCII
    buffer: a character below 127 stays, a Unicode white space becomes
    a blank, a Unicode decimal digit becomes its ASCII digit, and any
    other character ends the buffer with a ['?'].  [PyLong_FromString]
    then reads the buffer in base 10: leading white space, an optional
    sign, decimal digits where single underscores may separate digits,
    trailing white space; it refuses more than 4300 digits, the default
    limit of the interpreter.  The character tables are those of
    Unicode 14.0, the ones of CPython 3.11. *)

(** The six low bits of a continuation byte [10xxxxxx]. *)
Definition continuation (c : ascii) : option N :=
  if ((128 <=? code c) && (code c <? 192))%N then Some (code c - 128)%N
  else None.

(** The mark of a byte sequence that is no character. *)
Definition no_character : N := 1114112.

(** The characters of a text, decoded from UTF-8: one to four bytes
    each, no overlong form, no surrogate, nothing above [U+10FFFF].
    The decoding stops with [no_character] at the first bytes that are
    not a character; a [str] has none. *)
Fixpoint code_points (s : string) : list N :=
  match s with
  | EmptyString => []
  | String c0 s1 =>
      if (code c0 <? 128)%N then code c0 :: code_points s1
      else
        match s1 with
        | EmptyString => [no_character]
        | String c1 s2 =>
            match continuation c1 with
            | None => [no_character]
            | Some x1 =>
                if ((194 <=? code c0) && (code c0 <? 224))%N then
                  ((code c0 - 192) * 64 + x1)%N :: code_points s2
                else
                  match s2 with
                  | EmptyString => [no_character]
                  | String c2 s3 =>
                      match continuation c2 with
                      | None => [no_character]
                      | Some x2 =>
                          if ((224 <=? code c0) && (code c0 <? 240))%N then
                            let cp :=
                              ((code c0 - 224) * 4096 + x1 * 64 + x2)%N in
                            if ((2048 <=? cp)
                                && negb ((55296 <=? cp) && (cp <? 57344)))%N
                            then cp :: code_points s3
                            else [no_character]
                          else
                            match s3 with
                            | EmptyString => [no_character]
                            | String c3 s4 =>
                                match continuation c3 with
                                | None => [no_character]
                                | Some x3 =>
                                    let cp :=
                                      ((code c0 - 240) * 262144
                                       + x1 * 4096 + x2 * 64 + x3)%N in
                                    if ((240 <=? code c0) && (code c0 <? 245)
                                        && (65536 <=? cp)
                                        && (cp <? 1114112))%N
                                    then cp :: code_points s4
                                    else [no_character]
                                end
                            end
                      end
                  end
            end
        end
  end.

(** [Py_UNICODE_ISSPACE] above ASCII. *)
Definition unicode_space (cp : N) : bool :=
  bool_decide (cp ∈ [133; 160; 5760; 8232; 8233; 8239; 8287; 12288]%N)
  || ((8192 <=? cp) && (cp <=? 8202))%N.

(** The zero of every set of decimal digits above ASCII; the nine other
    digits of a set follow their zero. *)
Definition decimal_zeros : list N :=
  [1632; 1776; 1984; 2406; 2534; 2662; 2790; 2918; 3046; 3174; 3302; 3430;
   3558; 3664; 3792; 3872; 4160; 4240; 6112; 6160; 6470; 6608; 6784; 6800;
   6992; 7088; 7232; 7248; 42528; 43216; 43264; 43472; 43504; 43600; 44016;
   65296; 66720; 68912; 69734; 69872; 69942; 70096; 70384; 70736; 70864;
   71248; 71360; 71472; 71904; 72016; 72784; 73040; 73120; 92768; 92864;
   93008; 120782; 120792; 120802; 120812; 120822; 123200; 123632; 125264;
   130032]%N.

(** [Py_UNICODE_TODECIMAL]: the value of a decimal digit. *)
Definition to_decimal (cp : N) : option N :=
  (λ zero, cp - zero)%N
  <$> find (λ zero, (zero <=? cp) && (cp <? zero + 10))%N decimal_zeros.

(** [_PyUnicode_TransformDecimalAndSpaceToASCII]. *)
Fixpoint to_ascii (text : list N) : string :=
  match text with
  | [] => EmptyString
  | cp :: rest =>
      if (cp <? 127)%N then String (ascii_of_N cp) (to_ascii rest)
      else if unicode_space cp then String " " (to_ascii rest)
      else
        match to_decimal cp with
        | Some d => String (ascii_of_N (48 + d)) (to_ascii rest)
        | None => "?"
        end
  end.

Fixpoint all_space (s : string) : bool :=
  match s with
  | EmptyString => true
  | String c s' => is_space c && all_space s'
  end.

(** After at least one digit: [prev_us] tells that the previous
    character was an underscore, [acc] is the value read so far. *)
Fixpoint int_digits (prev_us : bool) (acc : Z) (s : string) : option Z :=
  match s with
  | EmptyString => if prev_us then None else Some acc
  | String c s' =>
      if is_digit c then int_digits false (10 * acc + digit_val c) s'
      else if bool_decide (c = "_"%char) then
        if prev_us then None else int_digits true acc s'
      else if is_space c then
        if prev_us then None
        else if all_space s' then Some acc else None
      else None
  end.

(** The digits must start with a digit. *)
Definition int_unsigned (s : string) : option Z :=
  match s with
  | String c s' =>
      if is_digit c then int_digits false (digit_val c) s' else None
  | EmptyString => None
  end.

Definition int_signed (s : string) : option Z :=
  match s with
  | String "+" s' => int_unsigned s'
  | String "-" s' => Z.opp <$> int_unsigned s'
  | _ => int_unsigned s
  end.

(** The literal of the ASCII buffer, whatever its length. *)
Fixpoint int_literal (s : string) : option Z :=
  match s with
  | String c s' => if is_space c then int_literal s' else int_signed s
  | EmptyString => None
  end.

(** The number of digits of a buffer, underscores and white space not
    counted. *)
Fixpoint count_digits (s : string) : Z :=
  match s with
  | EmptyString => 0
  | String c s' => (if is_digit c then 1 else 0) + count_digits s'
  end.

(** [sys.get_int_max_str_digits()], by default. *)
Definition max_str_digits : Z := 4300.

(** [int(s)] for the text [s]; [None] is its [ValueError]. *)
Definition int_of_string (s : string) : option Z :=
  let buffer := to_ascii (code_points s) in
  if bool_decide (count_digits buffer ≤ max_str_digits) then
    int_literal buffer
  else None.

(** [int(x)]: [TypeError] on [None], the integer itself on an integer,
    [ValueError] on a string that is not an integer literal or has too
    many digits. *)
Definition int (x : PyVal) : result Z :=
  match x with
  | VNone => Raise TypeError
  | VInt n => Ok n
  | VStr s =>
      match int_of_string s with
      | Some n => Ok n
      | None => Raise ValueError
      end
  end.

(** *** [s.split(sep)] for a one-character separator

    Every occurrence of [sep] cuts; the list is never empty. *)
Fixpoint split (sep : ascii) (s : string) : list string :=
  match s with
  | EmptyString => [EmptyString]
  | String c s' =>
      if bool_decide (c = sep) then EmptyString :: split sep s'
      else
        match split sep s' with
        | piece :: pieces => String c piece :: pieces
        | [] => [String c EmptyString]
        end
  end.

(** [l[0]]. *)
Definition index0 {A : Type} (l : list A) : result A :=
  match l with
  | x :: _ => Ok x
  | [] => Raise IndexError
  end.

(** [re.sub("[^0-9]", "", s)]: every character outside ['0'..'9'] is
    deleted. *)
Fixpoint sub_non_digits (s : string) : string :=
  match s with
  | EmptyString => EmptyString
  | String c s' =>
      if is_digit c then String c (sub_non_digits s') else sub_non_digits s'
  end.

(** [d.get(k)]: [None] when the key is absent. *)
Definition get (d : gmap string PyVal) (k : string) : PyVal :=
  default VNone (d !! k).

(** [l.remove(x)]: deletes the first occurrence; [ValueError] ([None]
    here) when there is none. *)
Fixpoint remove (x : string) (l : list string) : option (list string) :=
  match l with
  | [] => None
  | y :: l' =>
      if bool_decide (y = x) then Some l' else (y ::.) <$> remove x l'
  end.

(** [range(start, stop, step)] as the list of its elements.  The length
    is CPython's [compute_range_length]; a zero step is a [ValueError]. *)
Definition range (start stop step : Z) : result (list Z) :=
  if bool_decide (step = 0) then Raise ValueError
  else
    let len :=
      if bool_decide (0 < step) then
        if bool_decide (start < stop) then (stop - start - 1) / step + 1
        else 0
      else
        if bool_decide (stop < start) then (start - stop - 1) / (- step) + 1
        else 0 in
    Ok ((λ k : nat, start + Z.of_nat k * step) <$> seq 0 (Z.to_nat len)).

(** [l[lo:hi]]: a negative bound counts from the end, both bounds are
    clamped to [0 .. len(l)]. *)
Definition clamp {A : Type} (l : list A) (i : Z) : nat :=
  let n := Z.of_nat (length l) in
  let i' := if bool_decide (i < 0) then i + n else i in
  Z.to_nat (Z.max 0 (Z.min i' n)).

Definition slice {A : Type} (l : list A) (lo hi : Z) : list A :=
  drop (clamp l lo) (take (clamp l hi) l).

End Py.


(** A remnant record: one row of the spreadsheet as [download_stock]
    returns it, a [dict] from column title to cell. *)
Abbreviation remnant := (gmap string PyVal).

(** ** [seller.py]: the Ozon account *)

Module Seller.

(** [{"offer_id": ..., "stock": ...}] *)
Record stock_entry : Type := {
  offer_id : string;
  stock : Z
}.

(** The five-key [dict] of [create_prices]; its ["offer_id"] key is
    [price_offer_id] here. *)
Record price_entry : Type := {
  auto_action_enabled : string;
  currency_code : string;
  price_offer_id : string;
  old_price : string;
  price : string
}.

Global Instance stock_entry_eq_dec : EqDecision stock_entry.
Proof. solve_decision. Defined.

Global Instance price_entry_eq_dec : EqDecision price_entry.
Proof. solve_decision. Defined.

(** The [if]/[elif]/[else] of [create_stocks] that turns the quantity
    cell into [stock]: the test is on [str] of the cell, the conversion
    on the cell itself. *)
Definition stock_of (watch : remnant) : result Z :=
  let count := Py.str (Py.get watch "Количество") in
  if bool_decide (count = ">10") then Ok 100
  else if bool_decide (count = "1") then Ok 0
  else Py.int (Py.get watch "Количество").

(** The first loop of [create_stocks].  [stocks] is the local list being
    built; [offer_ids] is the caller's list object, returned with its
    contents at the end of the loop or at the exception. *)
Fixpoint stocks_loop (watch_remnants : list remnant)
    (stocks : list stock_entry) (offer_ids : list string)
  : result (list stock_entry) * list string :=
  match watch_remnants with
  | [] => (Ok stocks, offer_ids)
  | watch :: rest =>
      if bool_decide (Py.str (Py.get watch "Код") ∈ offer_ids) then
        match stock_of watch with
        | Raise e => (Raise e, offer_ids)
        | Ok stock =>
            let stocks' :=
              stocks ++ [{| offer_id := Py.str (Py.get watch "Код");
                            stock := stock |}] in
            match Py.remove (Py.str (Py.get watch "Код")) offer_ids with
            | None => (Raise ValueError, offer_ids)
            | Some offer_ids' => stocks_loop rest stocks' offer_ids'
            end
        end
      else stocks_loop rest stocks offer_ids
  end.

(** [create_stocks(watch_remnants, offer_ids)]: the result and the final
    contents of [offer_ids].  The second loop appends a zero entry for
    every id still in the list. *)
Definition create_stocks (watch_remnants : list remnant)
    (offer_ids : list string) : result (list stock_entry) * list string :=
  match stocks_loop watch_remnants [] offer_ids with
  | (Ok stocks, offer_ids') =>
      (Ok (stocks ++
           ((λ offer_id, {| offer_id := offer_id; stock := 0 |})
              <$> offer_ids')),
       offer_ids')
  | (Raise e, offer_ids') => (Raise e, offer_ids')
  end.

(** [price_conversion(price)]: [split] and [re.sub] exist on strings
    only. *)
Definition price_conversion (price : PyVal) : result string :=
  match price with
  | VStr s =>
      piece ←! Py.index0 (Py.split "." s);
      Ok (Py.sub_non_digits piece)
  | _ => Raise AttributeError
  end.

Fixpoint prices_loop (watch_remnants : list remnant)
    (prices : list price_entry) (offer_ids : list string)
  : result (list price_entry) :=
  match watch_remnants with
  | [] => Ok prices
  | watch :: rest =>
      if bool_decide (Py.str (Py.get watch "Код") ∈ offer_ids) then
        converted ←! price_conversion (Py.get watch "Цена");
        prices_loop rest
          (prices ++ [{| auto_action_enabled := "UNKNOWN";
                         currency_code := "RUB";
                         price_offer_id := Py.str (Py.get watch "Код");
                         old_price := "0";
                         price := converted |}])
          offer_ids
      else prices_loop rest prices offer_ids
  end.

(** [create_prices(watch_remnants, offer_ids)]; it only reads
    [offer_ids]. *)
Definition create_prices (watch_remnants : list remnant)
    (offer_ids : list string) : result (list price_entry) :=
  prices_loop watch_remnants [] offer_ids.

(** [divide(lst, n)], as the list of the chunks the generator yields
    when it is run to its end (every caller wraps it in [list(...)]);
    an exception of [range] surfaces at that point. *)
Definition divide {A : Type} (lst : list A) (n : Z)
  : result (list (list A)) :=
  starts ←! Py.range 0 (Z.of_nat (length lst)) n;
  Ok ((λ i, Py.slice lst i (i + n)) <$> starts).

(** The [try] block of [main], the network calls left out:
    [get_offer_ids] and [download_stock] supply the two arguments,
    every batch goes to [update_stocks] or [update_price].
    [create_prices] receives the list object [create_stocks] has
    already worked on. *)
Definition main (watch_remnants : list remnant) (offer_ids : list string)
  : result (list (list stock_entry) * list (list price_entry)) :=
  let '(stocks_result, offer_ids) := create_stocks watch_remnants offer_ids in
  stocks ←! stocks_result;
  stock_batches ←! divide stocks 100;
  prices ←! create_prices watch_remnants offer_ids;
  price_batches ←! divide prices 900;
  Ok (stock_batches, price_batches).

End Seller.

(** ** [market.py]: the Yandex.Market campaigns *)

Module Market.

(** One element of ["items"]. *)
Record item : Type := {
  count : Z;
  type : string;
  updatedAt : string
}.

Record stock_entry : Type := {
  sku : string;
  warehouseId : string;
  items : list item
}.

Record price_value : Type := {
  value : Z;
  currencyId : string
}.

Record price_entry : Type := {
  id : string;
  price : price_value
}.

Global Instance item_eq_dec : EqDecision item.
Proof. solve_decision. Defined.

Global Instance stock_entry_eq_dec : EqDecision stock_entry.
Proof. solve_decision. Defined.

Global Instance price_value_eq_dec : EqDecision price_value.
Proof. solve_decision. Defined.

Global Instance price_entry_eq_dec : EqDecision price_entry.
Proof. solve_decision. Defined.

Definition stock_of (watch : remnant) : result Z :=
  let count := Py.str (Py.get watch "Количество") in
  if bool_decide (count = ">10") then Ok 100
  else if bool_decide (count = "1") then Ok 0
  else Py.int (Py.get watch "Количество").

(** The first loop of [create_stocks].  [date] is the text
    [utcnow().replace(microsecond=0).isoformat() + "Z"] computed once
    before the loop: the reading of the clock is an input here. *)
Fixpoint stocks_loop (watch_remnants : list remnant)
    (warehouse_id date : string)
    (stocks : list stock_entry) (offer_ids : list string)
  : result (list stock_entry) * list string :=
  match watch_remnants with
  | [] => (Ok stocks, offer_ids)
  | watch :: rest =>
      if bool_decide (Py.str (Py.get watch "Код") ∈ offer_ids) then
        match stock_of watch with
        | Raise e => (Raise e, offer_ids)
        | Ok stock =>
            let stocks' :=
              stocks ++
              [{| sku := Py.str (Py.get watch "Код");
                  warehouseId := warehouse_id;
                  items := [{| count := stock; type := "FIT";
                               updatedAt := date |}] |}] in
            match Py.remove (Py.str (Py.get watch "Код")) offer_ids with
            | None => (Raise ValueError, offer_ids)
            | Some offer_ids' =>
                stocks_loop rest warehouse_id date stocks' offer_ids'
            end
        end
      else stocks_loop rest warehouse_id date stocks offer_ids
  end.

Definition create_stocks (watch_remnants : list remnant)
    (offer_ids : list string) (warehouse_id : string) (date : string)
  : result (list stock_entry) * list string :=
  match stocks_loop watch_remnants warehouse_id date [] offer_ids with
  | (Ok stocks, offer_ids') =>
      (Ok (stocks ++
           ((λ offer_id,
               {| sku := offer_id;
                  warehouseId := warehouse_id;
                  items := [{| count := 0; type := "FIT";
                               updatedAt := date |}] |})
              <$> offer_ids')),
       offer_ids')
  | (Raise e, offer_ids') => (Raise e, offer_ids')
  end.

(** [int(price_conversion(watch.get("Цена")))], the ["value"] of
    [create_prices]: [price_conversion] is the one of [seller.py]. *)
Definition value_of (watch : remnant) : result Z :=
  converted ←! Seller.price_conversion (Py.get watch "Цена");
  Py.int (VStr converted).

Fixpoint prices_loop (watch_remnants : list remnant)
    (prices : list price_entry) (offer_ids : list string)
  : result (list price_entry) :=
  match watch_remnants with
  | [] => Ok prices
  | watch :: rest =>
      if bool_decide (Py.str (Py.get watch "Код") ∈ offer_ids) then
        value ←! value_of watch;
        prices_loop rest
          (prices ++ [{| id := Py.str (Py.get watch "Код");
                         price := {| value := value;
                                     currencyId := "RUR" |} |}])
          offer_ids
      else prices_loop rest prices offer_ids
  end.

Definition create_prices (watch_remnants : list remnant)
    (offer_ids : list string) : result (list price_entry) :=
  prices_loop watch_remnants [] offer_ids.

End Market.

(** ** The design document's vocabulary *)

Module Spec.

(** The substring before the first occurrence of [sep]; the whole
    string when [sep] does not occur. *)
Fixpoint before_first (sep : ascii) (s : string) : string :=
  match s with
  | EmptyString => EmptyString
  | String c s' =>
      if bool_decide (c = sep) then EmptyString
      else String c (before_first sep s')
  end.

Fixpoint has_digit (s : string) : bool :=
  match s with
  | EmptyString => false
  | String c s' => Py.is_digit c || has_digit s'
  end.

Fixpoint all_digits (s : string) : bool :=
  match s with
  | EmptyString => true
  | String c s' => Py.is_digit c && all_digits s'
  end.

(** A base-10 integer, as the design document's "parse the descriptor
    as a base-10 integer" reads: an optional sign, then decimal digits,
    at least one, and nothing else.  [digits_value] reads the digits
    from the left, [acc] being the value of those already read. *)
Fixpoint digits_value (acc : Z) (s : string) : option Z :=
  match s with
  | EmptyString => Some acc
  | String c s' =>
      if Py.is_digit c then digits_value (10 * acc + Py.digit_val c) s'
      else None
  end.

Definition numeral (s : string) : option Z :=
  match s with
  | EmptyString => None
  | _ => digits_value 0 s
  end.

Definition base10 (s : string) : option Z :=
  match s with
  | String "+" s' => numeral s'
  | String "-" s' => Z.opp <$> numeral s'
  | _ => numeral s
  end.

(** QuantityMapper, from the rules of the design document, checked in
    order; [None] is its [InvalidQuantityError]. *)
Definition QuantityMapper (descriptor : string) : option Z :=
  if bool_decide (descriptor = ">10") then Some 100
  else if bool_decide (descriptor = "1") then Some 0
  else base10 descriptor.

(** The quantity the code gives a text descriptor: the same two special
    cases, then [int] of the text. *)
Definition mapped_quantity (descriptor : string) : option Z :=
  if bool_decide (descriptor = ">10") then Some 100
  else if bool_decide (descriptor = "1") then Some 0
  else Py.int_of_string descriptor.

(** The remnant record [{code, quantityDescriptor, priceText}] of the
    design document as the [dict] the code reads. *)
Definition record (code quantityDescriptor priceText : string) : remnant :=
  <["Код" := VStr code]>
    (<["Количество" := VStr quantityDescriptor]>
       (<["Цена" := VStr priceText]> ∅)).

(** The code of a remnant as the two passes compare it with the
    catalog. *)
Definition code_of (watch : remnant) : string :=
  Py.str (Py.get watch "Код").

(** The precondition on a quantity cell: a string that is [">10"],
    ["1"] or a text [int] converts. *)
Definition valid_quantity (watch : remnant) : Prop :=
  ∃ d, Py.get watch "Количество" = VStr d
       ∧ (d = ">10" ∨ d = "1" ∨ is_Some (Py.int_of_string d)).


(** The precondition on a price cell: a string with a digit before its
    first ['.'], and no more digits there than [int] takes. *)
Definition valid_price (watch : remnant) : Prop :=
  ∃ s, Py.get watch "Цена" = VStr s
       ∧ has_digit (before_first "." s) = true
       ∧ Py.count_digits (before_first "." s) ≤ Py.max_str_digits.

(** The remnants whose code is in the catalog, in remnant order. *)
Definition matching (R : list remnant) (C : list string) : list remnant :=
  filter (λ w, code_of w ∈ C) R.

(** A price cell that holds text. *)
Definition text_price (watch : remnant) : Prop :=
  ∃ s, Py.get watch "Цена" = VStr s.


End Spec.

(** ** Views shared by the two modules *)

Definition result_map {A B : Type} (f : A → B) (r : result A) : result B :=
  x ←! r; Ok (f x).

(** The Ozon entry [{offer_id, stock}] written the Yandex.Market way for a
    warehouse and a reading of the clock. *)
Definition to_market (warehouse_id date : string) (e : Seller.stock_entry)
  : Market.stock_entry :=
  {| Market.sku := Seller.offer_id e;
     Market.warehouseId := warehouse_id;
     Market.items := [{| Market.count := Seller.stock e;
                         Market.type := "FIT";
                         Market.updatedAt := date |}] |}.

(** A Yandex.Market entry without its time stamps. *)
Definition undated (e : Market.stock_entry) : Market.stock_entry :=
  {| Market.sku := Market.sku e;
     Market.warehouseId := Market.warehouseId e;
     Market.items :=
       (λ i, {| Market.count := Market.count i;
                Market.type := Market.type i;
                Market.updatedAt := EmptyString |}) <$> Market.items e |}.

(** ** Scenarios *)

Module Scenario.

(** The end-to-end scenario of the design document: remnants [A] and [B],
    catalog [A], [B], [C]. *)
Definition remnants : list remnant :=
  [Spec.record "A" ">10" "100.00"; Spec.record "B" "1" "50.00"].

Definition catalog : list string := ["A"; "B"; "C"].



(** A numeral of 4301 digits. *)
Definition long_numeral : string :=
  Nat.iter 4301 (String "7") EmptyString.

End Scenario.

(** ** Runs *)

Module Run.

(** One reconciliation the way [seller.main] does it: [create_stocks],
    then [create_prices] on the same list object.  The outputs and the
    final contents of the object. *)
Definition seller (R : list remnant) (offer_ids : list string)
  : result (list Seller.stock_entry * list Seller.price_entry)
    * list string :=
  let '(stocks_result, offer_ids) := Seller.create_stocks R offer_ids in
  (stocks ←! stocks_result;
   prices ←! Seller.create_prices R offer_ids;
   Ok (stocks, prices),
   offer_ids).

(** Two reconciliations in a row with the same two arguments: the same
    remnants, the same list object. *)
Definition seller_twice (R : list remnant) (offer_ids : list string)
  : result (list Seller.stock_entry * list Seller.price_entry)
    * result (list Seller.stock_entry * list Seller.price_entry) :=
  let '(first, offer_ids) := seller R offer_ids in
  let '(second, _) := seller R offer_ids in
  (first, second).

End Run.

(** ** Entries, said in closed form *)

Module Closed.

(** The value of a string of decimal digits, read from the left; [acc] is
    the value of the digits already read. *)
Fixpoint decimal (acc : Z) (s : string) : Z :=
  match s with
  | EmptyString => acc
  | String c s' => decimal (10 * acc + Py.digit_val c) s'
  end.

(** The digits of a price cell: those before the first ['.'] of a text
    cell. *)
Definition price_digits (watch : remnant) : string :=
  match Py.get watch "Цена" with
  | VStr s => Py.sub_non_digits (Spec.before_first "." s)
  | _ => EmptyString
  end.

(** The price entry of a remnant, the Ozon way and the Yandex.Market
    way. *)
Definition seller_price (watch : remnant) : Seller.price_entry :=
  {| Seller.auto_action_enabled := "UNKNOWN";
     Seller.currency_code := "RUB";
     Seller.price_offer_id := Spec.code_of watch;
     Seller.old_price := "0";
     Seller.price := price_digits watch |}.

Definition market_price (watch : remnant) : Market.price_entry :=
  {| Market.id := Spec.code_of watch;
     Market.price := {| Market.value := decimal 0 (price_digits watch);
                        Market.currencyId := "RUR" |} |}.

End Closed.

(** ** The network

    The marketplace is known to the client by the replies to its
    requests.  A world holds the replies the coming requests will
    receive, in order, and the requests made so far; a request takes the
    first reply and is logged.  When no reply is left the client waits in
    its request.  A computation returns, raises or is left waiting. *)

Module Net.

(** What [requests] raises without an answer. *)
Inductive failure : Type :=
  | ReadTimeout
  | ConnectionError.

(** The exceptions of the networked code: those of the interpreter, the
    [HTTPError] of [raise_for_status], those of the transport, and any
    other class derived from [Exception], by its name. *)
Inductive exn : Type :=
  | Builtin (e : PyExc)
  | HTTPError (status : Z)
  | Transport (f : failure)
  | Other (name : string).

Inductive reply (B : Type) : Type :=
  | Answer (status : Z) (body : B)
  | NoAnswer (f : failure).

Arguments Answer {B} status body.
Arguments NoAnswer {B} f.

Record world (B Q : Type) : Type := {
  replies : list (reply B);
  sent : list Q
}.

Arguments replies {B Q} w.
Arguments sent {B Q} w.

Inductive run (W A : Type) : Type :=
  | Done (a : A) (w : W)
  | Throw (e : exn) (w : W)
  | Wait (w : W).

Arguments Done {W A} a w.
Arguments Throw {W A} e w.
Arguments Wait {W A} w.

Definition M (W A : Type) : Type := W → run W A.

Definition ret {W A : Type} (a : A) : M W A := λ w, Done a w.

Definition throw {W A : Type} (e : exn) : M W A := λ w, Throw e w.

Definition bind {W A B : Type} (m : M W A) (k : A → M W B) : M W B :=
  λ w,
    match m w with
    | Done a w' => k a w'
    | Throw e w' => Throw e w'
    | Wait w' => Wait w'
    end.

(** A computation of the pure part, with its exception if it raises. *)
Definition lift {W A : Type} (r : result A) : M W A :=
  match r with
  | Ok a => ret a
  | Raise e => throw (Builtin e)
  end.

(** [requests.get], [requests.post], [requests.put]: the status and the
    body of the answer. *)
Definition send {B Q : Type} (q : Q) : M (world B Q) (Z * B) :=
  λ w,
    let w' rest := {| replies := rest; sent := sent w ++ [q] |} in
    match replies w with
    | [] => Wait (w' [])
    | Answer status body :: rest => Done (status, body) (w' rest)
    | NoAnswer f :: rest => Throw (Transport f) (w' rest)
    end.

(** [response.raise_for_status()]: client and server errors raise. *)
Definition raise_for_status {W : Type} (status : Z) : M W unit :=
  if bool_decide (400 ≤ status < 600) then throw (HTTPError status)
  else ret tt.

(** [for x in xs: f(x)]. *)
Fixpoint for_each {W A : Type} (f : A → M W unit) (xs : list A) : M W unit :=
  match xs with
  | [] => ret tt
  | x :: xs' => bind (f x) (λ _, for_each f xs')
  end.

(** The world a run ends in. *)
Definition world_of {W A : Type} (r : run W A) : W :=
  match r with
  | Done _ w => w
  | Throw _ w => w
  | Wait w => w
  end.

(** The exception of a reply that makes the request or
    [raise_for_status] raise. *)
Definition refusal {B : Type} (r : reply B) : option exn :=
  match r with
  | NoAnswer f => Some (Transport f)
  | Answer status _ =>
      if bool_decide (400 ≤ status < 600) then Some (HTTPError status)
      else None
  end.

End Net.

Notation "x ←$ m ; k" := (Net.bind m (λ x, k))
  (at level 20, m at level 100, k at level 200, right associativity,
   format "x  ←$  m ;  '/' k").

(** ** [seller.py] on the network *)

Module Ozon.

(** A product of a product list answer, by the one key the code reads.
    Products without a text ["offer_id"] are outside the model. *)
Record product : Type := {
  offer_id : string
}.

(** The ["result"] of a product list answer as [get_offer_ids] reads it:
    ["items"], when the key holds a list; ["total"]; ["last_id"]. *)
Record page : Type := {
  items : option (list product);
  total : PyVal;
  last_id : PyVal
}.

(** The requests of [seller.py], by what they carry besides the
    credentials: ["last_id"] of the product list payload, the ["stocks"]
    and the ["prices"] of the imports. *)
Inductive request : Type :=
  | ProductList (last_id : PyVal)
  | ImportStocks (stocks : list Seller.stock_entry)
  | ImportPrices (prices : list Seller.price_entry).

(** What [main] prints. *)
Inductive printed : Type :=
  | Nothing
  | TimeoutMessage
  | ConnectionMessage
  | Error2 (e : Net.exn).

(** The body of an answer: the ["result"] member of its JSON object, if
    any. *)
Abbreviation world := (Net.world (option page) request).

Definition get_product_list (last_id : PyVal) : Net.M world (option page) :=
  response ←$ Net.send (ProductList last_id);
  checked ←$ Net.raise_for_status response.1;
  Net.ret response.2.

(** [total == len(product_list)]: an integer equal to the length. *)
Definition total_reached (total : PyVal) (product_list : list product)
  : bool :=
  match total with
  | VInt n => bool_decide (n = Z.of_nat (length product_list))
  | _ => false
  end.

(** The [while True] of [get_offer_ids].  Each turn makes one request, so
    the loop is given one turn more than the world has replies. *)
Fixpoint get_offer_ids_loop (turns : nat) (last_id : PyVal)
    (product_list : list product) : Net.M world (list product) :=
  match turns with
  | O => Net.Wait
  | S turns' =>
      some_prod ←$ get_product_list last_id;
      match some_prod with
      | None => Net.throw (Net.Builtin AttributeError)
      | Some some_prod =>
          match items some_prod with
          | None => Net.throw (Net.Builtin TypeError)
          | Some its =>
              let product_list := product_list ++ its in
              if total_reached (total some_prod) product_list
              then Net.ret product_list
              else get_offer_ids_loop turns' (Ozon.last_id some_prod)
                     product_list
          end
      end
  end.

Definition get_offer_ids : Net.M world (list string) :=
  λ w,
    (product_list ←$ get_offer_ids_loop (S (length (Net.replies w)))
                       (VStr EmptyString) [];
     Net.ret (offer_id <$> product_list)) w.

Definition update_price (prices : list Seller.price_entry)
  : Net.M world unit :=
  response ←$ Net.send (ImportPrices prices);
  Net.raise_for_status response.1.

Definition update_stocks (stocks : list Seller.stock_entry)
  : Net.M world unit :=
  response ←$ Net.send (ImportStocks stocks);
  Net.raise_for_status response.1.

(** The body of the coroutine [upload_prices]. *)
Definition upload_prices (watch_remnants : list remnant)
  : Net.M world (list Seller.price_entry) :=
  offer_ids ←$ get_offer_ids;
  prices ←$ Net.lift (Seller.create_prices watch_remnants offer_ids);
  batches ←$ Net.lift (Seller.divide prices 1000);
  sent ←$ Net.for_each update_price batches;
  Net.ret prices.

(** The body of the coroutine [upload_stocks]: it returns the entries
    with a stock other than zero, and all the entries. *)
Definition upload_stocks (watch_remnants : list remnant)
  : Net.M world (list Seller.stock_entry * list Seller.stock_entry) :=
  offer_ids ←$ get_offer_ids;
  stocks ←$ Net.lift (Seller.create_stocks watch_remnants offer_ids).1;
  batches ←$ Net.lift (Seller.divide stocks 100);
  sent ←$ Net.for_each update_stocks batches;
  let not_empty := filter (λ stock, Seller.stock stock ≠ 0) stocks in
  Net.ret (not_empty, stocks).

(** The [try] block of [main]; [watch_remnants] is what [download_stock]
    returns.  [create_prices] works on the list [create_stocks] has
    worked on. *)
Definition main_try (watch_remnants : list remnant) : Net.M world unit :=
  offer_ids ←$ get_offer_ids;
  let '(stocks_result, offer_ids) :=
    Seller.create_stocks watch_remnants offer_ids in
  stocks ←$ Net.lift stocks_result;
  stock_batches ←$ Net.lift (Seller.divide stocks 100);
  sent ←$ Net.for_each update_stocks stock_batches;
  prices ←$ Net.lift (Seller.create_prices watch_remnants offer_ids);
  price_batches ←$ Net.lift (Seller.divide prices 900);
  Net.for_each update_price price_batches.

(** [main]: the three [except] clauses catch every exception of the
    block and print. *)
Definition main (watch_remnants : list remnant) : Net.M world printed :=
  λ w,
    match main_try watch_remnants w with
    | Net.Done _ w' => Net.Done Nothing w'
    | Net.Throw (Net.Transport Net.ReadTimeout) w' =>
        Net.Done TimeoutMessage w'
    | Net.Throw (Net.Transport Net.ConnectionError) w' =>
        Net.Done ConnectionMessage w'
    | Net.Throw e w' => Net.Done (Error2 e) w'
    | Net.Wait w' => Net.Wait w'
    end.

End Ozon.

(** ** [market.py] on the network *)

Module Yandex.

(** ["offer"] of an offer mapping entry, by the one key the code reads. *)
Record offer : Type := {
  shopSku : string
}.

(** An offer mapping entry: its ["offer"], if it has one. *)
Record entry : Type := {
  entry_offer : option offer
}.

Record paging : Type := {
  nextPageToken : PyVal
}.

(** The ["result"] of an answer as [get_offer_ids] reads it. *)
Record page : Type := {
  offerMappingEntries : option (list entry);
  page_paging : option paging
}.

(** The requests of [market.py]: the campaign and the ["page_token"],
    the ["skus"], the ["offers"]. *)
Inductive request : Type :=
  | OfferMappingEntries (campaign_id : string) (page_token : PyVal)
  | PutStocks (campaign_id : string) (skus : list Market.stock_entry)
  | PostPrices (campaign_id : string) (offers : list Market.price_entry).

Inductive printed : Type :=
  | Nothing
  | TimeoutMessage
  | ConnectionMessage
  | Error2 (e : Net.exn).

Abbreviation world := (Net.world (option page) request).

Definition get_product_list (page : PyVal) (campaign_id : string)
  : Net.M world (option Yandex.page) :=
  response ←$ Net.send (OfferMappingEntries campaign_id page);
  checked ←$ Net.raise_for_status response.1;
  Net.ret response.2.

Definition update_stocks (stocks : list Market.stock_entry)
    (campaign_id : string) : Net.M world unit :=
  response ←$ Net.send (PutStocks campaign_id stocks);
  Net.raise_for_status response.1.

Definition update_price (prices : list Market.price_entry)
    (campaign_id : string) : Net.M world unit :=
  response ←$ Net.send (PostPrices campaign_id prices);
  Net.raise_for_status response.1.

(** [not page]: [None], the empty string and zero are false. *)
Definition falsy (x : PyVal) : bool :=
  match x with
  | VNone => true
  | VStr s => bool_decide (s = EmptyString)
  | VInt n => bool_decide (n = 0)
  end.

(** The [while True] of [get_offer_ids]. *)
Fixpoint get_offer_ids_loop (turns : nat) (page : PyVal)
    (campaign_id : string) (product_list : list entry)
  : Net.M world (list entry) :=
  match turns with
  | O => Net.Wait
  | S turns' =>
      some_prod ←$ get_product_list page campaign_id;
      match some_prod with
      | None => Net.throw (Net.Builtin AttributeError)
      | Some some_prod =>
          match offerMappingEntries some_prod with
          | None => Net.throw (Net.Builtin TypeError)
          | Some entries =>
              let product_list := product_list ++ entries in
              match page_paging some_prod with
              | None => Net.throw (Net.Builtin AttributeError)
              | Some paging =>
                  let page := nextPageToken paging in
                  if falsy page then Net.ret product_list
                  else get_offer_ids_loop turns' page campaign_id
                         product_list
              end
          end
      end
  end.

(** The second loop of [get_offer_ids]:
    [product.get("offer").get("shopSku")] for every entry. *)
Fixpoint shop_skus (product_list : list entry) (offer_ids : list string)
  : result (list string) :=
  match product_list with
  | [] => Ok offer_ids
  | product :: rest =>
      match entry_offer product with
      | None => Raise AttributeError
      | Some offer => shop_skus rest (offer_ids ++ [shopSku offer])
      end
  end.

Definition get_offer_ids (campaign_id : string) : Net.M world (list string) :=
  λ w,
    (product_list ←$ get_offer_ids_loop (S (length (Net.replies w)))
                       (VStr EmptyString) campaign_id [];
     Net.lift (shop_skus product_list [])) w.

(** The body of the coroutine [upload_prices]. *)
Definition upload_prices (watch_remnants : list remnant)
    (campaign_id : string) : Net.M world (list Market.price_entry) :=
  offer_ids ←$ get_offer_ids campaign_id;
  prices ←$ Net.lift (Market.create_prices watch_remnants offer_ids);
  batches ←$ Net.lift (Seller.divide prices 500);
  sent ←$ Net.for_each (λ some_prices, update_price some_prices campaign_id)
            batches;
  Net.ret prices.

(** [stock.get("items")[0].get("count") != 0], the test of the filter of
    [upload_stocks]. *)
Fixpoint not_empty (stocks : list Market.stock_entry)
  : result (list Market.stock_entry) :=
  match stocks with
  | [] => Ok []
  | stock :: rest =>
      first ←! Py.index0 (Market.items stock);
      kept ←! not_empty rest;
      Ok (if bool_decide (Market.count first ≠ 0) then stock :: kept
          else kept)
  end.

(** The body of the coroutine [upload_stocks]; [date] is the reading of
    the clock in [create_stocks]. *)
Definition upload_stocks (watch_remnants : list remnant)
    (campaign_id warehouse_id date : string)
  : Net.M world (list Market.stock_entry * list Market.stock_entry) :=
  offer_ids ←$ get_offer_ids campaign_id;
  stocks ←$ Net.lift
              (Market.create_stocks watch_remnants offer_ids warehouse_id
                 date).1;
  batches ←$ Net.lift (Seller.divide stocks 2000);
  sent ←$ Net.for_each (λ some_stock, update_stocks some_stock campaign_id)
            batches;
  kept ←$ Net.lift (not_empty stocks);
  Net.ret (kept, stocks).

(** One campaign of the [try] block of [main].  The call of
    [upload_prices] is not awaited: it makes the coroutine and leaves it
    there, its body does not run. *)
Definition main_campaign (watch_remnants : list remnant)
    (campaign_id warehouse_id date : string) : Net.M world unit :=
  offer_ids ←$ get_offer_ids campaign_id;
  stocks ←$ Net.lift
              (Market.create_stocks watch_remnants offer_ids warehouse_id
                 date).1;
  batches ←$ Net.lift (Seller.divide stocks 2000);
  sent ←$ Net.for_each (λ some_stock, update_stocks some_stock campaign_id)
            batches;
  coroutine ←$ Net.ret (upload_prices watch_remnants campaign_id);
  Net.ret tt.

(** The [try] block of [main]: the FBS campaign, then the DBS campaign;
    [date_fbs] and [date_dbs] are the two readings of the clock. *)
Definition main_try (watch_remnants : list remnant)
    (campaign_fbs_id campaign_dbs_id warehouse_fbs_id warehouse_dbs_id
       date_fbs date_dbs : string) : Net.M world unit :=
  fbs ←$ main_campaign watch_remnants campaign_fbs_id warehouse_fbs_id
           date_fbs;
  main_campaign watch_remnants campaign_dbs_id warehouse_dbs_id date_dbs.

(** The [try] statement of [main] with its three handlers. *)
Definition main_guarded (watch_remnants : list remnant)
    (campaign_fbs_id campaign_dbs_id warehouse_fbs_id warehouse_dbs_id
       date_fbs date_dbs : string) : Net.M world printed :=
  λ w,
    match main_try watch_remnants campaign_fbs_id campaign_dbs_id
            warehouse_fbs_id warehouse_dbs_id date_fbs date_dbs w with
    | Net.Done _ w' => Net.Done Nothing w'
    | Net.Throw (Net.Transport Net.ReadTimeout) w' =>
        Net.Done TimeoutMessage w'
    | Net.Throw (Net.Transport Net.ConnectionError) w' =>
        Net.Done ConnectionMessage w'
    | Net.Throw e w' => Net.Done (Error2 e) w'
    | Net.Wait w' => Net.Wait w'
    end.

(** The four settings [main] reads from the environment. *)
Record settings : Type := {
  campaign_fbs_id : string;
  campaign_dbs_id : string;
  warehouse_fbs_id : string;
  warehouse_dbs_id : string
}.

(** What comes before the [try] of [main]: the settings are read with
    [env.str], then [download_stock] fetches the remnants.  Either
    gives its values or raises, and nothing catches what it raises. *)
Inductive prelude : Type :=
  | Ready (env : settings) (watch_remnants : list remnant)
  | Raised (e : Net.exn).

(** [main()]; [date_fbs] and [date_dbs] are the two readings of the
    clock. *)
Definition main (before : prelude) (date_fbs date_dbs : string)
  : Net.M world printed :=
  match before with
  | Raised e => Net.throw e
  | Ready env watch_remnants =>
      main_guarded watch_remnants (campaign_fbs_id env)
        (campaign_dbs_id env) (warehouse_fbs_id env) (warehouse_dbs_id env)
        date_fbs date_dbs
  end.

End Yandex.

(** ** Scripts: what a server answers, page after page *)

Module Script.

(** A status [raise_for_status] lets through. *)
Definition passes (status : Z) : Prop := ¬ (400 ≤ status < 600).

(** The answer that carries a page as its ["result"]. *)
Definition ozon_answer (a : Z * Ozon.page) : Net.reply (option Ozon.page) :=
  Net.Answer a.1 (Some a.2).

(** The pages carry their items and none of them ends the enumeration of
    [seller.get_offer_ids]: after each page the total differs from the
    number of products received so far, [product_list] being those
    received before. *)
Fixpoint ozon_going (product_list : list Ozon.product)
    (pages : list Ozon.page) : bool :=
  match pages with
  | [] => true
  | p :: ps =>
      match Ozon.items p with
      | None => false
      | Some its =>
          negb (Ozon.total_reached (Ozon.total p) (product_list ++ its))
          && ozon_going (product_list ++ its) ps
      end
  end.

(** The products of the pages, in order. *)
Definition ozon_products (pages : list Ozon.page) : list Ozon.product :=
  concat ((λ p, default [] (Ozon.items p)) <$> pages).

(** The requests that fetch the pages one after the other, the first with
    [cursor], each next one with the ["last_id"] of the page before. *)
Fixpoint ozon_requests (cursor : PyVal) (pages : list Ozon.page)
  : list Ozon.request :=
  match pages with
  | [] => []
  | p :: ps => Ozon.ProductList cursor :: ozon_requests (Ozon.last_id p) ps
  end.

(** The cursor after the pages. *)
Definition ozon_cursor (cursor : PyVal) (pages : list Ozon.page) : PyVal :=
  foldl (λ _ p, Ozon.last_id p) cursor pages.

Definition yandex_answer (a : Z * Yandex.page)
  : Net.reply (option Yandex.page) :=
  Net.Answer a.1 (Some a.2).

(** The ["nextPageToken"] of a page; [None] stands for a page without
    ["paging"]. *)
Definition yandex_token (p : Yandex.page) : PyVal :=
  match Yandex.page_paging p with
  | Some paging => Yandex.nextPageToken paging
  | None => VNone
  end.

(** The pages carry their entries and a token that is not false: none of
    them ends the enumeration of [market.get_offer_ids]. *)
Definition yandex_going (pages : list Yandex.page) : bool :=
  forallb
    (λ p, match Yandex.offerMappingEntries p, Yandex.page_paging p with
          | Some _, Some paging => negb (Yandex.falsy (Yandex.nextPageToken paging))
          | _, _ => false
          end)
    pages.

Definition yandex_entries (pages : list Yandex.page) : list Yandex.entry :=
  concat ((λ p, default [] (Yandex.offerMappingEntries p)) <$> pages).

Fixpoint yandex_requests (campaign_id : string) (token : PyVal)
    (pages : list Yandex.page) : list Yandex.request :=
  match pages with
  | [] => []
  | p :: ps =>
      Yandex.OfferMappingEntries campaign_id token
      :: yandex_requests campaign_id (yandex_token p) ps
  end.

Definition yandex_cursor (token : PyVal) (pages : list Yandex.page) : PyVal :=
  foldl (λ _ p, yandex_token p) token pages.

(** The ["shopSku"] of the entries that have an ["offer"]. *)
Definition yandex_skus (entries : list Yandex.entry) : list string :=
  omap (λ e, Yandex.shopSku <$> Yandex.entry_offer e) entries.

(** The requests [main] of [market.py] makes for a campaign when it
    updates stocks: the offer mapping entries and the stocks of that
    campaign, no prices. *)
Definition yandex_stock_traffic (campaign_id : string) (q : Yandex.request)
  : Prop :=
  match q with
  | Yandex.OfferMappingEntries c _ => c = campaign_id
  | Yandex.PutStocks c _ => c = campaign_id
  | Yandex.PostPrices _ _ => False
  end.

End Script.

(** ** Built-ins: lemmas *)

Section builtins.

Lemma split_first (sep : ascii) (s : string) :
  Py.index0 (Py.split sep s) = Ok (Spec.before_first sep s).
Proof.
  induction s as [|c s IH]; simpl; [done|].
  case_bool_decide; [done|].
  destruct (Py.split sep s) as [|piece pieces]; simpl in *; [done|].
  by inversion IH.
Qed.

Lemma sub_non_digits_all_digits (s : string) :
  Spec.all_digits (Py.sub_non_digits s) = true.
Proof.
  induction s as [|c s IH]; simpl; [done|].
  destruct (Py.is_digit c) eqn:Hc; simpl; [by rewrite Hc|done].
Qed.

Lemma sub_non_digits_empty (s : string) :
  Py.sub_non_digits s = EmptyString ↔ Spec.has_digit s = false.
Proof.
  induction s as [|c s IH]; simpl; [done|].
  destruct (Py.is_digit c); simpl; [split; discriminate|done].
Qed.

Lemma remove_Some (x : string) (l : list string) :
  x ∈ l → ∃ l', Py.remove x l = Some l'.
Proof.
  induction l as [|y l IH]; intros Hx; [by apply elem_of_nil in Hx|].
  simpl. case_bool_decide; [eauto|].
  apply elem_of_cons in Hx as [->|Hx]; [done|].
  destruct (IH Hx) as [l' ->]. eauto.
Qed.

Lemma remove_Permutation (x : string) (l l' : list string) :
  Py.remove x l = Some l' → l ≡ₚ x :: l'.
Proof.
  revert l'. induction l as [|y l IH]; intros l'; simpl; [done|].
  case_bool_decide as Hy.
  - intros [= <-]. by subst.
  - destruct (Py.remove x l) as [k|]; simpl; [|done].
    intros [= <-]. rewrite (IH k eq_refl). apply Permutation_swap.
Qed.

Lemma remove_NoDup (x : string) (l l' : list string) :
  NoDup l → Py.remove x l = Some l' → NoDup l' ∧ x ∉ l'.
Proof.
  intros Hnd Hrm. apply remove_Permutation in Hrm.
  rewrite Hrm in Hnd. by apply NoDup_cons in Hnd as [? ?].
Qed.

Lemma remove_subseteq (x : string) (l l' : list string) :
  Py.remove x l = Some l' → l' ⊆ l.
Proof.
  intros Hrm y Hy. rewrite (remove_Permutation _ _ _ Hrm).
  by apply elem_of_cons; right.
Qed.

End builtins.

(** ** The stock pass *)

Section stock_pass.

Local Abbreviation code_of watch := (Py.str (Py.get watch "Код")).

(** What the loop appends: one entry per consumed id, each carrying the
    quantity of the remnant that consumed it; appended ids and left
    ids together are the ids the loop started from. *)
Lemma stocks_loop_shape (R : list remnant) :
  ∀ (acc : list Seller.stock_entry) (ids : list string) st ids',
    Seller.stocks_loop R acc ids = (Ok st, ids') →
    ∃ new,
      st = acc ++ new
      ∧ (Seller.offer_id <$> new) ++ ids' ≡ₚ ids
      ∧ Forall (λ e, ∃ w, w ∈ R ∧ code_of w = Seller.offer_id e
                       ∧ Seller.stock_of w = Ok (Seller.stock e)) new.
Proof.
  induction R as [|w R IH]; intros acc ids st ids'; simpl.
  - intros [= <- <-]. exists []. by rewrite app_nil_r.
  - case_bool_decide as Hin.
    + destruct (Seller.stock_of w) as [q|] eqn:Hq; [|done].
      destruct (Py.remove _ ids) as [ids1|] eqn:Hrm; [|done].
      intros Hloop. apply IH in Hloop as (new & -> & Hperm & Hall).
      eexists (_ :: new). split; [by rewrite <-app_assoc|]. split.
      * simpl. rewrite Hperm. symmetry. by apply remove_Permutation.
      * constructor.
        -- exists w. split; [by left|done].
        -- eapply Forall_impl; [exact Hall|].
           intros e (w' & ? & ?). exists w'. split; [by right|done].
    + intros Hloop. apply IH in Hloop as (new & -> & Hperm & Hall).
      exists new. split; [done|]. split; [done|].
      eapply Forall_impl; [exact Hall|].
      intros e (w' & ? & ?). exists w'. split; [by right|done].
Qed.

(** The loop ends normally when every remnant it can match has a
    quantity that converts. *)
Lemma stocks_loop_Ok (R : list remnant) :
  ∀ (acc : list Seller.stock_entry) (ids : list string),
    (∀ w, w ∈ R → code_of w ∈ ids → is_Ok (Seller.stock_of w)) →
    ∃ st ids', Seller.stocks_loop R acc ids = (Ok st, ids').
Proof.
  induction R as [|w R IH]; intros acc ids Hvalid; simpl; [eauto|].
  case_bool_decide as Hin.
  - destruct (Hvalid w) as [q ->]; [by left|done|].
    destruct (remove_Some _ _ Hin) as [ids1 Hrm]. rewrite Hrm.
    apply IH. intros w' Hw' Hin'. apply Hvalid; [by right|].
    by eapply remove_subseteq.
  - apply IH. intros w' Hw' Hin'. apply Hvalid; [by right|done].
Qed.

(** With distinct ids the first remnant that carries an id decides its
    entry, and an id no remnant carries stays in the list. *)
Lemma stocks_loop_first (R : list remnant) :
  ∀ (acc new : list Seller.stock_entry) (ids ids' : list string),
    NoDup ids →
    Seller.stocks_loop R acc ids = (Ok (acc ++ new), ids') →
    ∀ id, id ∈ ids →
      match find (λ w, bool_decide (code_of w = id)) R with
      | Some w =>
          ∃ q, Seller.stock_of w = Ok q
               ∧ {| Seller.offer_id := id; Seller.stock := q |} ∈ new
               ∧ id ∉ ids'
      | None => id ∈ ids'
      end.
Proof.
  induction R as [|w R IH]; intros acc new ids ids' Hnd; simpl.
  - intros [= Hnew <-] id Hid. done.
  - case_bool_decide as Hin.
    + destruct (Seller.stock_of w) as [q|] eqn:Hq; [|done].
      destruct (Py.remove _ ids) as [ids1|] eqn:Hrm; [|done].
      intros Hloop id Hid.
      destruct (remove_NoDup _ _ _ Hnd Hrm) as [Hnd1 Hnotin].
      destruct (stocks_loop_shape _ _ _ _ _ Hloop) as (new1 & Hst & Hperm & _).
      rewrite <-app_assoc in Hst. apply app_inv_head in Hst. subst new.
      rewrite app_assoc in Hloop.
      case_bool_decide as Hid'.
      * exists q. split; [done|]. subst id. split; [by left|].
        intros Hbad. apply Hnotin. rewrite <-Hperm.
        apply elem_of_app. by right.
      * assert (id ∈ ids1) as Hid1.
        { apply remove_Permutation in Hrm. rewrite Hrm in Hid.
          apply elem_of_cons in Hid as [?|?]; [congruence|done]. }
        specialize (IH _ _ _ _ Hnd1 Hloop id Hid1).
        destruct (find _ R); [|done].
        destruct IH as (q' & ? & ? & ?). exists q'.
        split; [done|]. split; [by right|done].
    + intros Hloop id Hid.
      case_bool_decide as Hid'; [congruence|].
      by apply (IH _ _ _ _ Hnd Hloop).
Qed.

End stock_pass.

(** ** When the stock pass fails *)

Section failures.

(** The loop over a concatenation: the second part runs on what the first
    part leaves, unless the first part has raised. *)
Lemma stocks_loop_app (R1 R2 : list remnant) :
  ∀ (acc : list Seller.stock_entry) (ids : list string),
    Seller.stocks_loop (R1 ++ R2) acc ids
    = match Seller.stocks_loop R1 acc ids with
      | (Ok st, ids1) => Seller.stocks_loop R2 st ids1
      | (Raise e, ids1) => (Raise e, ids1)
      end.
Proof.
  induction R1 as [|w R1 IH]; intros acc ids; simpl; [done|].
  case_bool_decide; [|apply IH].
  destruct (Seller.stock_of w); [|done].
  destruct (Py.remove _ ids); [apply IH|done].
Qed.



End failures.

(** ** The two stock passes agree *)

Section market_stock_pass.

Lemma market_stocks_loop (wh date : string) (R : list remnant) :
  ∀ (acc : list Seller.stock_entry) (ids : list string),
    Market.stocks_loop R wh date (to_market wh date <$> acc) ids
    = (result_map (fmap (to_market wh date))
         (Seller.stocks_loop R acc ids).1,
       (Seller.stocks_loop R acc ids).2).
Proof.
  induction R as [|w R IH]; intros acc ids; simpl; [done|].
  case_bool_decide; [|apply IH].
  change (Market.stock_of w) with (Seller.stock_of w).
  destruct (Seller.stock_of w) as [q|]; [|done].
  destruct (Py.remove _ ids) as [ids1|]; [|done].
  rewrite <-IH. by rewrite fmap_app.
Qed.

Lemma market_create_stocks (wh date : string) (R : list remnant)
    (ids : list string) :
  Market.create_stocks R ids wh date
  = (result_map (fmap (to_market wh date)) (Seller.create_stocks R ids).1,
     (Seller.create_stocks R ids).2).
Proof.
  unfold Market.create_stocks, Seller.create_stocks.
  pose proof (market_stocks_loop wh date R [] ids) as Hloop.
  simpl in Hloop. rewrite Hloop. clear Hloop.
  destruct (Seller.stocks_loop R [] ids) as [[st|e] ids']; simpl; [|done].
  by rewrite fmap_app, <-list_fmap_compose.
Qed.

End market_stock_pass.

Section counting.

Context {A : Type} (f : A → string).


End counting.

(** ** Quantities *)

Section quantities.

Lemma stock_of_string (w : remnant) (d : string) :
  Py.get w "Количество" = VStr d →
  Seller.stock_of w
  = match Spec.mapped_quantity d with
    | Some q => Ok q
    | None => Raise ValueError
    end.
Proof.
  intros Hd. unfold Seller.stock_of, Spec.mapped_quantity. rewrite Hd. simpl.
  by repeat case_bool_decide.
Qed.

Lemma valid_quantity_stock_of (w : remnant) :
  Spec.valid_quantity w →
  ∃ d q, Py.get w "Количество" = VStr d
         ∧ Spec.mapped_quantity d = Some q
         ∧ Seller.stock_of w = Ok q.
Proof.
  intros (d & Hd & Hcase). exists d.
  rewrite (stock_of_string w d Hd). unfold Spec.mapped_quantity.
  repeat case_bool_decide; eauto.
  destruct Hcase as [?|[?|[q Hq]]]; [done..|]. exists q. by rewrite Hq.
Qed.

End quantities.

(** ** Stock entries cover the catalog *)


Lemma scenario_well_formed :
  NoDup Scenario.catalog
  ∧ (∀ w, w ∈ Scenario.remnants → Spec.code_of w ∈ Scenario.catalog →
          Spec.valid_quantity w).
Proof.
  split.
  - apply (bool_decide_unpack _). vm_compute. exact I.
  - intros w Hw _. unfold Scenario.remnants in Hw.
    apply elem_of_cons in Hw as [->|Hw].
    + exists ">10". split; [reflexivity|by left].
    + apply elem_of_cons in Hw as [->|Hw].
      * exists "1". split; [reflexivity|by right; left].
      * by apply elem_of_nil in Hw.
Defined.


(** ** Prices *)

Section prices.

Lemma is_digit_code (c : ascii) :
  Py.is_digit c = true → (48 ≤ Py.code c ≤ 57)%N.
Proof.
  unfold Py.is_digit. intros [H1 H2]%andb_prop.
  apply N.leb_le in H1, H2. lia.
Qed.

Lemma code_points_low (c : ascii) (s : string) :
  (Py.code c < 128)%N →
  Py.code_points (String c s) = Py.code c :: Py.code_points s.
Proof.
  intros Hc. apply N.ltb_lt in Hc. cbn [Py.code_points]. by rewrite Hc.
Qed.

Lemma to_ascii_low (cp : N) (text : list N) :
  (cp < 127)%N →
  Py.to_ascii (cp :: text) = String (ascii_of_N cp) (Py.to_ascii text).
Proof.
  intros Hc. apply N.ltb_lt in Hc. cbn [Py.to_ascii]. by rewrite Hc.
Qed.

(** The rewriting to ASCII leaves a text of ASCII digits as it is. *)
Lemma to_ascii_digits (s : string) :
  Spec.all_digits s = true → Py.to_ascii (Py.code_points s) = s.
Proof.
  induction s as [|c s IH]; [done|]. cbn [Spec.all_digits].
  intros [Hc Hs]%andb_prop. apply is_digit_code in Hc.
  rewrite code_points_low, to_ascii_low by lia.
  unfold Py.code. rewrite ascii_N_embedding. f_equal. by apply IH.
Qed.

Lemma count_digits_all_digits (s : string) :
  Spec.all_digits s = true →
  Py.count_digits s = Z.of_nat (String.length s).
Proof.
  induction s as [|c s IH]; [done|]. cbn [Spec.all_digits].
  intros [Hc Hs]%andb_prop. cbn [Py.count_digits String.length].
  rewrite Hc, IH by done. lia.
Qed.

Lemma count_digits_sub_non_digits (s : string) :
  Py.count_digits (Py.sub_non_digits s) = Py.count_digits s.
Proof.
  induction s as [|c s IH]; [done|]. cbn [Py.sub_non_digits Py.count_digits].
  destruct (Py.is_digit c) eqn:Hc; [|lia].
  cbn [Py.count_digits]. rewrite Hc. lia.
Qed.

Lemma int_literal_digit_head (c : ascii) (s : string) :
  Py.is_digit c = true →
  Py.int_literal (String c s) = Py.int_digits false (Py.digit_val c) s.
Proof.
  intros Hc.
  destruct c as [[] [] [] [] [] [] [] []];
    try (cbv in Hc; discriminate Hc); reflexivity.
Qed.

(** [int] on a text of ASCII digits: the literal as it stands, when it
    is not too long. *)
Lemma int_of_string_all_digits (s : string) :
  Spec.all_digits s = true →
  Py.int_of_string s
  = if bool_decide (Py.count_digits s ≤ Py.max_str_digits)
    then Py.int_literal s else None.
Proof.
  intros Hs. unfold Py.int_of_string.
  by rewrite (to_ascii_digits s Hs).
Qed.

Lemma int_digits_decimal (s : string) :
  ∀ acc, Spec.all_digits s = true →
         Py.int_digits false acc s = Some (Closed.decimal acc s).
Proof.
  induction s as [|c s IH]; intros acc; simpl; [done|].
  intros [Hc Hs]%andb_prop. rewrite Hc. by apply IH.
Qed.

Lemma int_digits_all_digits (s : string) :
  ∀ acc, Spec.all_digits s = true → is_Some (Py.int_digits false acc s).
Proof.
  induction s as [|c s IH]; intros acc; simpl; [by eauto|].
  intros [Hc Hs]%andb_prop. rewrite Hc. by apply IH.
Qed.

(** [int] accepts every non-empty string of digits that is not too
    long, and no other string of digits. *)
Lemma int_all_digits (s : string) :
  Spec.all_digits s = true → s ≠ EmptyString →
  Py.count_digits s ≤ Py.max_str_digits →
  ∃ n, Py.int (VStr s) = Ok n.
Proof.
  intros Hall Hne Hlen. unfold Py.int.
  rewrite (int_of_string_all_digits s Hall), bool_decide_eq_true_2 by done.
  destruct s as [|c s]; [done|].
  cbn [Spec.all_digits] in Hall. apply andb_prop in Hall as [Hc Hs].
  rewrite (int_literal_digit_head c s Hc).
  destruct (int_digits_all_digits s (Py.digit_val c) Hs) as [n ->]. eauto.
Qed.

Lemma int_too_long (s : string) :
  Spec.all_digits s = true →
  Py.max_str_digits < Py.count_digits s →
  Py.int (VStr s) = Raise ValueError.
Proof.
  intros Hall Hlen. unfold Py.int.
  by rewrite (int_of_string_all_digits s Hall), bool_decide_eq_false_2
    by lia.
Qed.

Lemma price_conversion_string (s : string) :
  Seller.price_conversion (VStr s)
  = Ok (Py.sub_non_digits (Spec.before_first "." s)).
Proof. unfold Seller.price_conversion. by rewrite split_first. Qed.

(** [int(price_conversion(...))] on a price text: a value when a digit
    stands before the first ['.'] and the digits there are not too
    many, [ValueError] otherwise. *)
Lemma value_of_string (w : remnant) (s : string) :
  Py.get w "Цена" = VStr s →
  if Spec.has_digit (Spec.before_first "." s)
     && bool_decide (Py.count_digits (Spec.before_first "." s)
                     ≤ Py.max_str_digits)
  then ∃ n, Market.value_of w = Ok n
  else Market.value_of w = Raise ValueError.
Proof.
  intros Hs. unfold Market.value_of. rewrite Hs, price_conversion_string.
  cbn [bind]. destruct (Spec.has_digit _) eqn:Hd; cbn [andb].
  - case_bool_decide as Hlen.
    + apply int_all_digits; [apply sub_non_digits_all_digits| |].
      * intros Hempty%sub_non_digits_empty. congruence.
      * by rewrite count_digits_sub_non_digits.
    + apply int_too_long; [apply sub_non_digits_all_digits|].
      rewrite count_digits_sub_non_digits. lia.
  - apply sub_non_digits_empty in Hd. by rewrite Hd.
Qed.

Lemma seller_prices_loop (R : list remnant) (ids : list string) :
  (∀ w, w ∈ R → Spec.code_of w ∈ ids →
        is_Ok (Seller.price_conversion (Py.get w "Цена"))) →
  ∀ acc, ∃ new,
    Seller.prices_loop R acc ids = Ok (acc ++ new)
    ∧ Seller.price_offer_id <$> new
      = Spec.code_of <$> filter (λ w, Spec.code_of w ∈ ids) R.
Proof.
  unfold Spec.code_of.
  induction R as [|w R IH]; intros Hok acc; simpl.
  - exists []. by rewrite app_nil_r.
  - rewrite filter_cons. case_bool_decide as Hin.
    + destruct (Hok w) as [p ->]; [by left|done|]. simpl.
      destruct IH with (acc := acc ++ [{|
          Seller.auto_action_enabled := "UNKNOWN";
          Seller.currency_code := "RUB";
          Seller.price_offer_id := Py.str (Py.get w "Код");
          Seller.old_price := "0";
          Seller.price := p |}]) as (new & -> & Hnew).
      { intros w' Hw'. apply Hok. by right. }
      eexists (_ :: new). split; [by rewrite <-app_assoc|].
      rewrite decide_True by done. rewrite !fmap_cons. by rewrite Hnew.
    + rewrite decide_False by done. apply IH.
      intros w' Hw'. apply Hok. by right.
Qed.

End prices.

Section counting_keys.

Context {A : Type} (f : A → string).


End counting_keys.



(** [market.create_prices] on text prices: either every matching remnant
    gets its entry, or a matching price without digits stops the loop with
    [ValueError]. *)
Lemma market_prices_loop_cases (R : list remnant) (ids : list string) :
  (∀ w, w ∈ R → Spec.code_of w ∈ ids → Spec.text_price w) →
  ∀ acc,
    (∃ new, Market.prices_loop R acc ids = Ok (acc ++ new)
            ∧ Market.id <$> new = Spec.code_of <$> Spec.matching R ids)
    ∨ (Market.prices_loop R acc ids = Raise ValueError
       ∧ ∃ w, w ∈ Spec.matching R ids ∧ ¬ Spec.valid_price w).
Proof.
  unfold Spec.matching.
  induction R as [|w R IH]; intros Htext acc.
  - left. exists []. by rewrite app_nil_r.
  - assert (∀ w', w' ∈ R → Spec.code_of w' ∈ ids → Spec.text_price w')
      as Htext' by (intros w' Hw'; apply Htext; by right).
    simpl. rewrite filter_cons. fold (Spec.code_of w).
    case_bool_decide as Hin.
    + rewrite decide_True by done.
      destruct (Htext w) as [s Hs]; [by left|done|].
      pose proof (value_of_string w s Hs) as Hvalue.
      destruct (Spec.has_digit _ && bool_decide _) eqn:Hdigit.
      * destruct Hvalue as [v ->]. simpl.
        destruct (IH Htext' (acc ++ [{|
            Market.id := Spec.code_of w;
            Market.price := {| Market.value := v;
                               Market.currencyId := "RUR" |} |}]))
          as [(new & Hloop & Hnew)|(Hloop & w' & Hw' & Hbad)].
        -- left. eexists (_ :: new). unfold Spec.code_of in *.
           rewrite Hloop. split; [by rewrite <-app_assoc|].
           rewrite !fmap_cons. by rewrite Hnew.
        -- right. unfold Spec.code_of in *. rewrite Hloop.
           split; [done|]. exists w'. split; [by right|done].
      * right. rewrite Hvalue. split; [done|]. exists w.
        split; [by left|]. intros (s' & Hs' & Hdigit' & Hlen).
        rewrite Hs in Hs'. injection Hs' as <-.
        by rewrite Hdigit', bool_decide_eq_true_2 in Hdigit.
    + rewrite decide_False by done.
      destruct (IH Htext' acc) as [Hok|Hraise]; [by left|by right].
Qed.

(** ** Price entries in closed form *)

Section closed_prices.

(** On a non-empty string of digits that is not too long [int] is the
    decimal value. *)
Lemma int_decimal (s : string) :
  Spec.all_digits s = true → s ≠ EmptyString →
  Py.count_digits s ≤ Py.max_str_digits →
  Py.int (VStr s) = Ok (Closed.decimal 0 s).
Proof.
  intros Hall Hne Hlen. unfold Py.int.
  rewrite (int_of_string_all_digits s Hall), bool_decide_eq_true_2 by done.
  destruct s as [|c s]; [done|].
  cbn [Spec.all_digits] in Hall. apply andb_prop in Hall as [Hc Hs].
  rewrite (int_literal_digit_head c s Hc).
  by rewrite (int_digits_decimal s _ Hs).
Qed.

Lemma digit_val_nonneg (c : ascii) : Py.is_digit c = true → 0 ≤ Py.digit_val c.
Proof.
  unfold Py.is_digit, Py.digit_val. intros [H48 _]%andb_prop.
  apply N.leb_le in H48. lia.
Qed.

Lemma decimal_nonneg (s : string) :
  ∀ acc, Spec.all_digits s = true → 0 ≤ acc → 0 ≤ Closed.decimal acc s.
Proof.
  induction s as [|c s IH]; intros acc; simpl; [done|].
  intros [Hc Hs]%andb_prop Hacc. apply IH; [done|].
  pose proof (digit_val_nonneg c Hc). lia.
Qed.

Lemma value_of_decimal (w : remnant) :
  Spec.valid_price w →
  Market.value_of w = Ok (Closed.decimal 0 (Closed.price_digits w)).
Proof.
  intros (s & Hs & Hdigit & Hlen).
  unfold Market.value_of, Closed.price_digits.
  rewrite Hs, price_conversion_string. cbn [bind].
  apply int_decimal; [apply sub_non_digits_all_digits| |].
  - intros Hempty%sub_non_digits_empty. congruence.
  - by rewrite count_digits_sub_non_digits.
Qed.

Lemma value_of_invalid (w : remnant) :
  ¬ Spec.valid_price w →
  Market.value_of w = Raise AttributeError
  ∨ Market.value_of w = Raise ValueError.
Proof.
  intros Hbad. unfold Market.value_of.
  destruct (Py.get w "Цена") as [|s|n] eqn:Hs; simpl; [by left| |by left].
  right. pose proof (value_of_string w s Hs) as Hvalue.
  destruct (Spec.has_digit _) eqn:Hdigit; cbn [andb] in Hvalue.
  - case_bool_decide as Hlen.
    + destruct Hbad. by exists s.
    + unfold Market.value_of in Hvalue. by rewrite Hs in Hvalue.
  - unfold Market.value_of in Hvalue. by rewrite Hs in Hvalue.
Qed.

Lemma seller_prices_loop_closed (R : list remnant) (ids : list string) :
  ∀ acc,
    match Seller.prices_loop R acc ids with
    | Ok prices =>
        prices = acc ++ (Closed.seller_price <$> Spec.matching R ids)
        ∧ Forall Spec.text_price (Spec.matching R ids)
    | Raise e =>
        e = AttributeError
        ∧ ∃ w, w ∈ Spec.matching R ids ∧ ¬ Spec.text_price w
    end.
Proof.
  unfold Spec.matching.
  induction R as [|w R IH]; intros acc; simpl.
  - by rewrite app_nil_r.
  - rewrite filter_cons. fold (Spec.code_of w). case_bool_decide as Hin.
    + rewrite decide_True by done.
      destruct (Py.get w "Цена") as [|s|n] eqn:Hs; simpl.
      * split; [done|]. exists w. split; [by left|].
        intros [s Hs']. congruence.
      * rewrite split_first. simpl.
        specialize (IH (acc ++ [Closed.seller_price w])).
        unfold Closed.seller_price at 1, Closed.price_digits in IH.
        rewrite Hs in IH. unfold Spec.code_of in IH at 1.
        destruct (Seller.prices_loop R _ ids) as [prices|e].
        -- destruct IH as [-> Hall]. split.
           ++ by rewrite <-app_assoc.
           ++ constructor; [by exists s|done].
        -- destruct IH as (-> & w' & Hw' & Hbad). split; [done|].
           exists w'. split; [by right|done].
      * split; [done|]. exists w. split; [by left|].
        intros [s Hs']. congruence.
    + rewrite decide_False by done. apply IH.
Qed.

Lemma market_prices_loop_closed (R : list remnant) (ids : list string) :
  ∀ acc,
    match Market.prices_loop R acc ids with
    | Ok prices =>
        prices = acc ++ (Closed.market_price <$> Spec.matching R ids)
        ∧ Forall Spec.valid_price (Spec.matching R ids)
    | Raise e =>
        (e = AttributeError ∨ e = ValueError)
        ∧ ∃ w, w ∈ Spec.matching R ids ∧ ¬ Spec.valid_price w
                ∧ Market.value_of w = Raise e
    end.
Proof.
  unfold Spec.matching.
  induction R as [|w R IH]; intros acc; simpl.
  - by rewrite app_nil_r.
  - rewrite filter_cons. fold (Spec.code_of w). case_bool_decide as Hin.
    + rewrite decide_True by done.
      destruct (Market.value_of w) as [v|e] eqn:Hv; simpl.
      * assert (Spec.valid_price w) as Hvalid.
        { destruct (Py.get w "Цена") as [|s|n] eqn:Hs;
            [by unfold Market.value_of in Hv; rewrite Hs in Hv| |
             by unfold Market.value_of in Hv; rewrite Hs in Hv].
          exists s. split; [done|].
          pose proof (value_of_string w s Hs) as Hvalue.
          destruct (Spec.has_digit _); cbn [andb] in Hvalue; [|congruence].
          case_bool_decide; [done|congruence]. }
        rewrite (value_of_decimal w Hvalid) in Hv. injection Hv as <-.
        specialize (IH (acc ++ [Closed.market_price w])).
        unfold Closed.market_price at 1 in IH.
        unfold Spec.code_of in IH at 1.
        destruct (Market.prices_loop R _ ids) as [prices|e].
        -- destruct IH as [-> Hall]. split.
           ++ by rewrite <-app_assoc.
           ++ by constructor.
        -- destruct IH as (He & w' & Hw' & Hbad). split; [done|].
           exists w'. split; [by right|done].
      * assert (¬ Spec.valid_price w) as Hbad.
        { intros Hvalid. by rewrite (value_of_decimal w Hvalid) in Hv. }
        split.
        -- destruct (value_of_invalid w Hbad) as [He|He];
             rewrite He in Hv; injection Hv as <-; [by left|by right].
        -- exists w. split; [by left|done].
    + rewrite decide_False by done. apply IH.
Qed.

End closed_prices.

Section consumption.

Lemma filter_key_absent (x : string) (l : list string) :
  x ∉ l → filter (λ y, y = x) l = [].
Proof.
  induction l as [|y l IH]; [done|].
  intros [Hy Hl]%not_elem_of_cons. rewrite filter_cons.
  rewrite decide_False by congruence. by apply IH.
Qed.

(** [remove] takes one occurrence of its argument, and nothing of the
    other ids. *)
Lemma remove_count (x id : string) (l l' : list string) :
  Py.remove x l = Some l' →
  length (filter (λ y, y = id) l)
  = (length (filter (λ y, y = id) l') + (if decide (x = id) then 1 else 0))%nat.
Proof.
  intros Hperm%remove_Permutation. rewrite Hperm, filter_cons.
  destruct (decide (x = id)); simpl; lia.
Qed.

(** The stock pass takes from the list one occurrence of an id for
    every remnant that carries it, as long as there is one to take. *)
Lemma stocks_loop_consumes (R : list remnant) :
  ∀ (acc : list Seller.stock_entry) (ids : list string) st ids',
    Seller.stocks_loop R acc ids = (Ok st, ids') →
    ∀ id,
      length (filter (λ y, y = id) ids')
      = (length (filter (λ y, y = id) ids)
         - length (filter (λ w, Spec.code_of w = id) R))%nat.
Proof.
  unfold Spec.code_of.
  induction R as [|w R IH]; intros acc ids st ids'; simpl.
  - intros [= <- <-] id. lia.
  - case_bool_decide as Hin.
    + destruct (Seller.stock_of w) as [q|] eqn:Hq; [|done].
      destruct (Py.remove _ ids) as [ids1|] eqn:Hrm; [|done].
      intros Hloop id. rewrite (IH _ _ _ _ Hloop id).
      rewrite (remove_count _ id _ _ Hrm), filter_cons.
      destruct (decide (Py.str (Py.get w "Код") = id)); simpl; lia.
    + intros Hloop id. rewrite (IH _ _ _ _ Hloop id), filter_cons.
      destruct (decide (Py.str (Py.get w "Код") = id)) as [<-|]; [|done].
      rewrite (filter_key_absent _ ids Hin). simpl. lia.
Qed.

End consumption.



(** ** The quantity mapping *)

Lemma create_stocks_single (w : remnant) :
  (Seller.create_stocks [w] [Spec.code_of w]).1
  = q ←! Seller.stock_of w;
    Ok [{| Seller.offer_id := Spec.code_of w; Seller.stock := q |}].
Proof.
  unfold Seller.create_stocks, Spec.code_of. simpl.
  rewrite bool_decide_eq_true_2 by (by left).
  destruct (Seller.stock_of w); simpl; [|done].
  by rewrite bool_decide_eq_true_2.
Qed.

Section reference.

Lemma digits_value_decimal (s : string) :
  ∀ acc v, Spec.digits_value acc s = Some v →
           Spec.all_digits s = true ∧ v = Closed.decimal acc s.
Proof.
  induction s as [|c s IH]; intros acc v; cbn [Spec.digits_value].
  - by intros [= <-].
  - destruct (Py.is_digit c) eqn:Hc; [|done].
    intros [Hs ->]%IH. cbn [Spec.all_digits]. by rewrite Hc, Hs.
Qed.

(** A numeral of the design document is a literal of [int], with the
    same value. *)
Lemma numeral_int_unsigned (s : string) (v : Z) :
  Spec.numeral s = Some v →
  Spec.all_digits s = true ∧ Py.int_unsigned s = Some v.
Proof.
  destruct s as [|c s]; [done|]. cbn [Spec.numeral Spec.digits_value].
  destruct (Py.is_digit c) eqn:Hc; [|done].
  intros [Hs ->]%digits_value_decimal. split.
  - cbn [Spec.all_digits]. by rewrite Hc, Hs.
  - cbn [Py.int_unsigned]. by rewrite Hc, (int_digits_decimal s _ Hs).
Qed.

Lemma base10_cases (d : string) :
  (∃ d', d = String "+" d' ∧ Spec.base10 d = Spec.numeral d')
  ∨ (∃ d', d = String "-" d' ∧ Spec.base10 d = Z.opp <$> Spec.numeral d')
  ∨ Spec.base10 d = Spec.numeral d.
Proof.
  destruct d as [|c d']; [by right; right|].
  destruct c as [[] [] [] [] [] [] [] []];
    try (right; right; reflexivity);
    [left|right; left]; by exists d'.
Qed.

Lemma int_signed_digit (c : ascii) (s : string) :
  Py.is_digit c = true →
  Py.int_signed (String c s) = Py.int_unsigned (String c s).
Proof.
  intros Hc.
  destruct c as [[] [] [] [] [] [] [] []];
    try (cbv in Hc; discriminate Hc); reflexivity.
Qed.

Lemma int_literal_signed (c : ascii) (s : string) :
  Py.is_space c = false →
  Py.int_literal (String c s) = Py.int_signed (String c s).
Proof. intros Hc. cbn [Py.int_literal]. by rewrite Hc. Qed.

(** [int] on a sign followed by ASCII digits. *)
Lemma int_of_string_sign (c : ascii) (d : string) :
  c = "+"%char ∨ c = "-"%char →
  Spec.all_digits d = true →
  Py.int_of_string (String c d)
  = if bool_decide (Py.count_digits d ≤ Py.max_str_digits)
    then Py.int_signed (String c d) else None.
Proof.
  intros Hc Hd. unfold Py.int_of_string.
  assert (Py.code c < 127)%N as Hlow by (by destruct Hc as [->| ->]).
  rewrite code_points_low, to_ascii_low by lia.
  unfold Py.code. rewrite ascii_N_embedding, (to_ascii_digits d Hd).
  assert (Py.is_digit c = false) as Hnd by (by destruct Hc as [->| ->]).
  assert (Py.is_space c = false) as Hns by (by destruct Hc as [->| ->]).
  cbn [Py.count_digits]. rewrite Hnd, Z.add_0_l.
  by rewrite (int_literal_signed c d Hns).
Qed.

(** Where the design document's parse gives a value, [int] gives the
    same one, unless the digits are too many. *)
Lemma base10_int_of_string (d : string) (q : Z) :
  Spec.base10 d = Some q →
  Py.count_digits d ≤ Py.max_str_digits →
  Py.int_of_string d = Some q.
Proof.
  intros Hq Hlen.
  destruct (base10_cases d) as [(d' & -> & Hb)|[(d' & -> & Hb)|Hb]];
    rewrite Hb in Hq.
  - apply numeral_int_unsigned in Hq as [Hd' Hq].
    rewrite int_of_string_sign by (done || by left).
    cbn [Py.count_digits] in Hlen.
    by rewrite bool_decide_eq_true_2 by (simpl in Hlen; lia).
  - destruct (Spec.numeral d') as [v|] eqn:Hv; [|done].
    injection Hq as <-.
    apply numeral_int_unsigned in Hv as [Hd' Hv].
    rewrite int_of_string_sign by (done || by right).
    cbn [Py.count_digits] in Hlen.
    rewrite bool_decide_eq_true_2 by (simpl in Hlen; lia).
    cbn [Py.int_signed]. by rewrite Hv.
  - apply numeral_int_unsigned in Hq as [Hd Hq].
    rewrite (int_of_string_all_digits d Hd), bool_decide_eq_true_2 by done.
    destruct d as [|c d']; [done|].
    cbn [Spec.all_digits] in Hd. apply andb_prop in Hd as [Hc Hd'].
    rewrite int_literal_signed, int_signed_digit; [done|done|].
    destruct c as [[] [] [] [] [] [] [] []];
      try (cbv in Hc; discriminate Hc); reflexivity.
Qed.

End reference.

(** C5.  On a quantity cell that holds the string [d], the mapping
    [create_stocks] applies tests [">10"] and ["1"] and passes any other
    [d] to [int].  It agrees with the QuantityMapper of the design
    document wherever that one gives a value, a signed decimal numeral
    being read the same way, as long as [d] has no more than 4300
    digits; and when it fails, with [ValueError], the QuantityMapper
    fails as well or the digits are too many.  The converse does not
    hold: [int] reads more texts than a base-10 numeral.  A
    reconciliation of the one record against its own code returns the
    mapped entry. *)
Theorem stock_of_QuantityMapper (w : remnant) (d : string) :
  Py.get w "Количество" = VStr d →
  Market.stock_of w = Seller.stock_of w
  ∧ (∀ q, Spec.QuantityMapper d = Some q →
          Py.count_digits d ≤ Py.max_str_digits →
          Seller.stock_of w = Ok q
          ∧ (Seller.create_stocks [w] [Spec.code_of w]).1
            = Ok [{| Seller.offer_id := Spec.code_of w;
                     Seller.stock := q |}])
  ∧ (∀ e, Seller.stock_of w = Raise e →
          e = ValueError
          ∧ (Seller.create_stocks [w] [Spec.code_of w]).1 = Raise ValueError
          ∧ (Spec.QuantityMapper d = None
             ∨ Py.max_str_digits < Py.count_digits d))
  ∧ (Seller.stock_of w = Raise ValueError
     ↔ d ≠ ">10" ∧ d ≠ "1" ∧ Py.int_of_string d = None).
Proof.
  intros Hd. pose proof (stock_of_string w d Hd) as Hstock.
  assert (∀ q, Spec.QuantityMapper d = Some q →
               Py.count_digits d ≤ Py.max_str_digits →
               Seller.stock_of w = Ok q) as Hagree.
  { intros q Hq Hlen. rewrite Hstock.
    unfold Spec.QuantityMapper in Hq. unfold Spec.mapped_quantity.
    case_bool_decide; [by injection Hq as <-|].
    case_bool_decide; [by injection Hq as <-|].
    by rewrite (base10_int_of_string d q Hq Hlen). }
  split; [done|]. split; [|split].
  - intros q Hq Hlen. split; [by apply Hagree|].
    by rewrite create_stocks_single, (Hagree q Hq Hlen).
  - intros e He.
    assert (e = ValueError) as ->.
    { rewrite Hstock in He. destruct (Spec.mapped_quantity d); congruence. }
    split; [done|]. split; [by rewrite create_stocks_single, He|].
    destruct (Spec.QuantityMapper d) as [q|] eqn:Hq; [|by left].
    right. destruct (decide (Py.count_digits d ≤ Py.max_str_digits))
      as [Hlen|Hlen]; [|lia].
    by rewrite (Hagree q eq_refl Hlen) in He.
  - rewrite Hstock. unfold Spec.mapped_quantity.
    case_bool_decide as H10; [by split; [|intros [? _]]|].
    case_bool_decide as H1; [by split; [|intros (_ & ? & _)]|].
    destruct (Py.int_of_string d); [by split; [|intros (_ & _ & ?)]|done].
Qed.

Lemma stock_of_QuantityMapper_witness :
  Py.get (Spec.record "A" "7" "1.00") "Количество" = VStr "7"
  ∧ Spec.QuantityMapper "7" = Some 7
  ∧ Seller.stock_of (Spec.record "A" "7" "1.00") = Ok 7
  ∧ Market.stock_of (Spec.record "A" "7" "1.00") = Ok 7
  ∧ Spec.QuantityMapper ">10" = Some 100
  ∧ Spec.QuantityMapper "1" = Some 0
  ∧ Spec.QuantityMapper "abc" = None
  ∧ Seller.stock_of (Spec.record "A" "abc" "1.00") = Raise ValueError.
Proof.
  destruct (stock_of_QuantityMapper (Spec.record "A" "7" "1.00") "7"
              eq_refl) as (Hmarket & Hagree & _ & _).
  destruct (Hagree 7) as [Hstock _]; [reflexivity|by vm_compute|].
  rewrite Hmarket, Hstock.
  destruct (stock_of_QuantityMapper (Spec.record "A" "abc" "1.00") "abc"
              eq_refl) as (_ & _ & _ & Hfail).
  repeat (split; [reflexivity|]).
  apply Hfail. by vm_compute.
Defined.

(** The mapping of the code is not the QuantityMapper on every string:
    [int] takes white space around the digits, single underscores
    between them and the decimal digits of other scripts, none of which
    is a base-10 numeral; and it refuses a numeral of 4301 digits. *)
Lemma quantity_outside_base10 :
  Spec.QuantityMapper " 7" = None
  ∧ Seller.stock_of (Spec.record "A" " 7" "1.00") = Ok 7
  ∧ Spec.QuantityMapper "1_0" = None
  ∧ Seller.stock_of (Spec.record "A" "1_0" "1.00") = Ok 10
  ∧ Spec.QuantityMapper "٣" = None
  ∧ Seller.stock_of (Spec.record "A" "٣" "1.00") = Ok 3
  ∧ is_Some (Spec.QuantityMapper Scenario.long_numeral)
  ∧ Seller.stock_of (Spec.record "A" Scenario.long_numeral "1.00")
    = Raise ValueError.
Proof.
  do 6 (split; [by vm_compute|]).
  split; [|by vm_compute].
  vm_compute. eexists. reflexivity.
Qed.

(** ** The price mapping *)

Lemma record_get (c q p : string) :
  Py.get (Spec.record c q p) "Код" = VStr c
  ∧ Py.get (Spec.record c q p) "Количество" = VStr q
  ∧ Py.get (Spec.record c q p) "Цена" = VStr p.
Proof.
  split; [|split]; reflexivity.
Qed.

(** C10.  On every string [price_conversion] returns, and what it returns
    is a string of decimal digits: the digits that stand before the first
    ['.'], hence the empty string exactly when there are none.  The
    callers receive that string: [seller.create_prices] stores it as it
    is, [market.create_prices] passes it to [int]. *)
Theorem price_conversion_total (s : string) :
  ∃ digits,
    Seller.price_conversion (VStr s) = Ok digits
    ∧ digits = Py.sub_non_digits (Spec.before_first "." s)
    ∧ Spec.all_digits digits = true
    ∧ (digits = EmptyString
       ↔ Spec.has_digit (Spec.before_first "." s) = false)
    ∧ Seller.create_prices [Spec.record "A" "1" s] ["A"]
      = Ok [{| Seller.auto_action_enabled := "UNKNOWN";
               Seller.currency_code := "RUB";
               Seller.price_offer_id := "A";
               Seller.old_price := "0";
               Seller.price := digits |}]
    ∧ Market.value_of (Spec.record "A" "1" s) = Py.int (VStr digits).
Proof.
  exists (Py.sub_non_digits (Spec.before_first "." s)).
  destruct (record_get "A" "1" s) as (Hc & _ & Hp).
  split; [apply price_conversion_string|]. split; [done|].
  split; [apply sub_non_digits_all_digits|].
  split; [apply sub_non_digits_empty|]. split.
  - unfold Seller.create_prices. simpl. rewrite Hc, Hp. simpl.
    by rewrite split_first.
  - unfold Market.value_of. by rewrite Hp, price_conversion_string.
Qed.

Lemma market_prices_loop_raises (w : remnant) (C : list string)
    (R1 R2 : list remnant) :
  Spec.code_of w ∈ C →
  (∃ e, Market.value_of w = Raise e) →
  ∀ acc, ∃ e, Market.prices_loop (R1 ++ w :: R2) acc C = Raise e.
Proof.
  unfold Spec.code_of. intros Hin [e He].
  induction R1 as [|w1 R1 IH]; intros acc; simpl.
  - rewrite bool_decide_eq_true_2 by done. rewrite He. by exists e.
  - case_bool_decide; [|apply IH].
    destruct (Market.value_of w1) as [v|e1]; simpl; [apply IH|by exists e1].
Qed.

(** C3.  When no digit stands before the first ['.'] of a price text, the
    cleaned substring is empty and the price mapping,
    [int(price_conversion(...))] of [market.create_prices], fails with
    [ValueError]; so does [market.create_prices] on every remnant list
    that holds such a record with a code of the catalog. *)
Theorem market_price_fails_without_digits (w : remnant) (s : string) :
  Py.get w "Цена" = VStr s →
  Spec.has_digit (Spec.before_first "." s) = false →
  Market.value_of w = Raise ValueError
  ∧ Seller.price_conversion (VStr s) = Ok EmptyString
  ∧ ∀ (R1 R2 : list remnant) (C : list string),
      Spec.code_of w ∈ C →
      ∃ e, Market.create_prices (R1 ++ w :: R2) C = Raise e.
Proof.
  intros Hs Hdigit.
  pose proof (value_of_string w s Hs) as Hvalue. rewrite Hdigit in Hvalue.
  split; [done|]. split.
  - rewrite price_conversion_string. f_equal. by apply sub_non_digits_empty.
  - intros R1 R2 C Hin. apply market_prices_loop_raises; [done|].
    by exists ValueError.
Qed.

Lemma market_price_fails_without_digits_witness :
  Py.get (Spec.record "A" "1" "no digits") "Цена" = VStr "no digits"
  ∧ Spec.has_digit (Spec.before_first "." "no digits") = false
  ∧ Market.value_of (Spec.record "A" "1" "no digits") = Raise ValueError.
Proof.
  split; [reflexivity|]. split; [reflexivity|].
  exact (proj1 (market_price_fails_without_digits
                  (Spec.record "A" "1" "no digits") "no digits"
                  eq_refl eq_refl)).
Defined.

(** [seller.create_prices] does not pass the digits to [int]: on
    ["no digits"] [price_conversion] returns the empty string and the
    entry is emitted with it. *)
Lemma price_conversion_no_digits_returns :
  Spec.has_digit (Spec.before_first "." "no digits") = false
  ∧ Seller.price_conversion (VStr "no digits") = Ok EmptyString
  ∧ Seller.create_prices [Spec.record "A" "1" "no digits"] ["A"]
    = Ok [{| Seller.auto_action_enabled := "UNKNOWN";
             Seller.currency_code := "RUB";
             Seller.price_offer_id := "A";
             Seller.old_price := "0";
             Seller.price := EmptyString |}]
  ∧ ¬ (∀ s, Spec.has_digit (Spec.before_first "." s) = false →
            ∃ e, Seller.price_conversion (VStr s) = Raise e).
Proof.
  split; [reflexivity|]. split; [reflexivity|]. split; [reflexivity|].
  intros Hclaim. destruct (Hclaim "no digits" eq_refl) as [e He].
  discriminate He.
Qed.

(** ** The end-to-end scenario *)

(** C4, as the code has it.  On remnants [A] ([">10"], ["100.00"]) and [B]
    (["1"], ["50.00"]) and the catalog [A], [B], [C] the stock entries
    are [A] 100, [B] 0, [C] 0 in this order, and [create_prices] on the
    catalog gives [A] 100 and [B] 50, nothing for [C]: the price is the
    text before the decimal point, in whole currency units. *)
Theorem scenario_reconciliation :
  Seller.create_stocks Scenario.remnants Scenario.catalog
  = (Ok [{| Seller.offer_id := "A"; Seller.stock := 100 |};
         {| Seller.offer_id := "B"; Seller.stock := 0 |};
         {| Seller.offer_id := "C"; Seller.stock := 0 |}],
     ["C"])
  ∧ Seller.create_prices Scenario.remnants Scenario.catalog
    = Ok [{| Seller.auto_action_enabled := "UNKNOWN";
             Seller.currency_code := "RUB";
             Seller.price_offer_id := "A";
             Seller.old_price := "0";
             Seller.price := "100" |};
          {| Seller.auto_action_enabled := "UNKNOWN";
             Seller.currency_code := "RUB";
             Seller.price_offer_id := "B";
             Seller.old_price := "0";
             Seller.price := "50" |}]
  ∧ (Market.create_stocks Scenario.remnants Scenario.catalog "WH001"
       "2024-01-01T00:00:00Z").1
    = Ok (to_market "WH001" "2024-01-01T00:00:00Z"
            <$> [{| Seller.offer_id := "A"; Seller.stock := 100 |};
                 {| Seller.offer_id := "B"; Seller.stock := 0 |};
                 {| Seller.offer_id := "C"; Seller.stock := 0 |}])
  ∧ Market.create_prices Scenario.remnants Scenario.catalog
    = Ok [{| Market.id := "A";
             Market.price := {| Market.value := 100;
                                Market.currencyId := "RUR" |} |};
          {| Market.id := "B";
             Market.price := {| Market.value := 50;
                                Market.currencyId := "RUR" |} |}].
Proof. repeat split; vm_compute; reflexivity. Qed.

(** C4 as stated fails: the scenario's prices are 100 and 50, not 10000
    and 5000. *)
Lemma scenario_prices_not_minor_units :
  (Market.price <$>
     default [] (match Market.create_prices Scenario.remnants
                         Scenario.catalog with
                 | Ok prices => Some prices
                 | Raise _ => None
                 end))
  = [{| Market.value := 100; Market.currencyId := "RUR" |};
     {| Market.value := 50; Market.currencyId := "RUR" |}]
  ∧ Market.create_prices Scenario.remnants Scenario.catalog
    ≠ Ok [{| Market.id := "A";
             Market.price := {| Market.value := 10000;
                                Market.currencyId := "RUR" |} |};
          {| Market.id := "B";
             Market.price := {| Market.value := 5000;
                                Market.currencyId := "RUR" |} |}]
  ∧ ∀ prices,
      Seller.create_prices Scenario.remnants Scenario.catalog = Ok prices →
      Seller.price <$> prices = ["100"; "50"]
      ∧ Seller.price <$> prices ≠ ["10000"; "5000"].
Proof.
  split; [by vm_compute|]. split.
  - vm_compute. discriminate.
  - intros prices. vm_compute. intros [= <-]. split; [done|discriminate].
Qed.

(** ** Batches *)

(** C7 on the code: a zero size raises, on the first request for a chunk;
    a negative size raises nothing and yields no chunk at all, against the
    docstring of [divide]. *)
Theorem divide_nonpositive_size :
  Seller.divide [1; 2; 3; 4] (-1) = Ok []
  ∧ Seller.divide [1; 2; 3; 4] 0 = Raise ValueError
  ∧ (∀ (L : list Z) (k : positive), Seller.divide L (Z.neg k) = Ok [])
  ∧ (∀ L : list Z, Seller.divide L 0 = Raise ValueError).
Proof.
  split; [reflexivity|]. split; [reflexivity|]. split; [|done].
  intros L k. unfold Seller.divide, Py.range.
  rewrite bool_decide_eq_false_2 by lia.
  rewrite (bool_decide_eq_false_2 (0 < Z.neg k)) by lia.
  rewrite bool_decide_eq_false_2 by lia. done.
Qed.

Section chunks.

Context {A : Type}.

Lemma clamp_nonneg (L : list A) (i : Z) :
  0 ≤ i → Py.clamp L i = (Z.to_nat i `min` length L)%nat.
Proof.
  intros Hi. unfold Py.clamp. rewrite bool_decide_eq_false_2 by lia. lia.
Qed.

(** A slice with non-negative bounds takes after dropping. *)
Lemma slice_take_drop (L : list A) (a b : nat) :
  Py.slice L (Z.of_nat a) (Z.of_nat a + Z.of_nat b) = take b (drop a L).
Proof.
  unfold Py.slice. rewrite !clamp_nonneg by lia.
  replace (Z.to_nat (Z.of_nat a + Z.of_nat b)) with (a + b)%nat by lia.
  rewrite Nat2Z.id, take_drop_commute.
  rewrite <-(take_take L (a + b) (length L)), (take_ge L (length L)) by lia.
  destruct (decide (a ≤ length L)%nat) as [Hle|Hgt].
  - by rewrite Nat.min_l.
  - rewrite !drop_ge; [done| |]; rewrite length_take; lia.
Qed.

(** The chunks [range] and the slices produce for a positive size. *)
Lemma divide_positive (L : list A) (n : nat) :
  (1 ≤ n)%nat →
  Seller.divide L (Z.of_nat n)
  = Ok ((λ k : nat, take n (drop (k * n) L))
          <$> seq 0 (Z.to_nat
                       (if bool_decide (0 < Z.of_nat (length L))
                        then (Z.of_nat (length L) - 0 - 1) / Z.of_nat n + 1
                        else 0))).
Proof.
  intros Hn. unfold Seller.divide, Py.range.
  rewrite bool_decide_eq_false_2 by lia.
  rewrite (bool_decide_eq_true_2 (0 < Z.of_nat n)) by lia.
  simpl. f_equal. rewrite <-list_fmap_compose.
  apply list_fmap_ext. intros _ k _. simpl.
  replace (Z.of_nat k * Z.of_nat n) with (Z.of_nat (k * n)) by lia.
  apply slice_take_drop.
Qed.

Lemma concat_takes (L : list A) (n m : nat) :
  concat ((λ k : nat, take n (drop (k * n) L)) <$> seq 0 m) = take (m * n) L.
Proof.
  induction m as [|m IH]; [done|].
  rewrite seq_S, fmap_app, concat_app, IH. simpl.
  rewrite app_nil_r, take_take_drop. f_equal. lia.
Qed.

End chunks.

(** For a size of at least one [divide] returns: the chunks make up the
    list, none is empty, none is longer than the size, and they number
    the length divided by the size, rounded up. *)
Lemma divide_batches {A : Type} (L : list A) (n : Z) :
  1 ≤ n →
  ∃ chunks,
    Seller.divide L n = Ok chunks
    ∧ concat chunks = L
    ∧ Forall (λ c, 1 ≤ Z.of_nat (length c) ≤ n) chunks
    ∧ Z.of_nat (length chunks) = (Z.of_nat (length L) + n - 1) / n.
Proof.
  intros Hn.
  assert (∃ n', n = Z.of_nat n' ∧ (1 ≤ n')%nat) as (n' & -> & Hn').
  { exists (Z.to_nat n). lia. }
  rewrite divide_positive by done.
  set (len := length L). set (cnt := Z.to_nat _).
  assert (Z.of_nat cnt = (Z.of_nat len + Z.of_nat n' - 1) / Z.of_nat n')
    as Hcnt.
  { unfold cnt. case_bool_decide as Hlen.
    - replace (Z.of_nat len + Z.of_nat n' - 1)
        with (Z.of_nat len - 0 - 1 + 1 * Z.of_nat n') by lia.
      rewrite Z.div_add by lia.
      pose proof (Z.div_pos (Z.of_nat len - 0 - 1) (Z.of_nat n')). lia.
    - rewrite Z.div_small by lia. done. }
  assert ((len ≤ cnt * n')%nat ∧ ((0 < cnt)%nat → ((cnt - 1) * n' < len)%nat))
    as [Hupper Hlower].
  { pose proof (Z.mul_div_le (Z.of_nat len + Z.of_nat n' - 1) (Z.of_nat n'))
      as Hle.
    pose proof (Z.mul_succ_div_gt (Z.of_nat len + Z.of_nat n' - 1)
                  (Z.of_nat n')) as Hgt.
    split; [nia|intros Hpos; nia]. }
  eexists. split; [done|]. split; [|split].
  - rewrite concat_takes. apply take_ge. fold len. lia.
  - apply Forall_fmap, Forall_forall. intros k Hk.
    apply elem_of_seq in Hk. simpl.
    rewrite length_take, length_drop. fold len. nia.
  - by rewrite length_fmap, length_seq.
Qed.

(** C6.  For a size [n] of at least one [divide] returns chunks whose
    concatenation is the list; every chunk but the last has [n] elements,
    the last has between one and [n], and a non-empty list gives at least
    one chunk. *)
Theorem divide_chunks {A : Type} (L : list A) (n : Z) :
  1 ≤ n →
  ∃ chunks,
    Seller.divide L n = Ok chunks
    ∧ concat chunks = L
    ∧ (∀ (i : nat) c, chunks !! i = Some c → (S i < length chunks)%nat →
         Z.of_nat (length c) = n)
    ∧ (∀ c, last chunks = Some c → 1 ≤ Z.of_nat (length c) ≤ n)
    ∧ (L ≠ [] → chunks ≠ []).
Proof.
  intros Hn.
  assert (∃ n', n = Z.of_nat n' ∧ (1 ≤ n')%nat) as (n' & -> & Hn').
  { exists (Z.to_nat n). lia. }
  rewrite divide_positive by done.
  set (len := length L).
  set (cnt := Z.to_nat _).
  assert ((len ≤ cnt * n')%nat
          ∧ ((0 < cnt)%nat → ((cnt - 1) * n' < len)%nat)
          ∧ ((0 < len)%nat → (0 < cnt)%nat)) as (Hupper & Hlower & Hpos).
  { unfold cnt. case_bool_decide as Hlen; [|lia].
    pose proof (Z.mul_div_le (Z.of_nat len - 0 - 1) (Z.of_nat n')) as Hle.
    pose proof (Z.mul_succ_div_gt (Z.of_nat len - 0 - 1) (Z.of_nat n')) as Hgt.
    pose proof (Z.div_pos (Z.of_nat len - 0 - 1) (Z.of_nat n')) as Hq.
    set (q := (Z.of_nat len - 0 - 1) / Z.of_nat n') in *.
    assert (Z.to_nat (q + 1) = S (Z.to_nat q)) as -> by lia.
    split; [|split]; [nia|intros _; simpl; nia|lia]. }
  eexists. split; [done|]. split; [|split; [|split]].
  - rewrite concat_takes. apply take_ge. fold len. lia.
  - intros i c Hc Hi. rewrite length_fmap, length_seq in Hi.
    rewrite list_lookup_fmap, lookup_seq_lt in Hc by lia.
    simpl in Hc. injection Hc as <-.
    rewrite length_take, length_drop. fold len. nia.
  - intros c. rewrite last_lookup, length_fmap, length_seq.
    intros Hc.
    destruct (decide (cnt = 0%nat)) as [Hz|Hnz].
    { rewrite Hz in Hc. done. }
    rewrite list_lookup_fmap, lookup_seq_lt in Hc by lia.
    simpl in Hc. injection Hc as <-.
    rewrite length_take, length_drop. fold len.
    replace (Init.Nat.pred cnt) with (cnt - 1)%nat by lia.
    specialize (Hlower ltac:(lia)). lia.
  - intros HL Hnil. apply fmap_nil_inv in Hnil.
    assert (0 < len)%nat as Hlen.
    { unfold len. destruct L; [done|simpl; lia]. }
    specialize (Hpos Hlen). destruct cnt; [lia|done].
Qed.

Lemma divide_chunks_witness :
  1 ≤ 2
  ∧ ∃ chunks,
      Seller.divide [1; 2; 3; 4; 5] 2 = Ok chunks
      ∧ concat chunks = [1; 2; 3; 4; 5]
      ∧ (∀ (i : nat) c, chunks !! i = Some c → (S i < length chunks)%nat →
           Z.of_nat (length c) = 2)
      ∧ (∀ c, last chunks = Some c → 1 ≤ Z.of_nat (length c) ≤ 2)
      ∧ ([1; 2; 3; 4; 5] ≠ [] → chunks ≠ []).
Proof.
  split; [lia|]. apply (divide_chunks [1; 2; 3; 4; 5] 2). lia.
Defined.

(** ** The caller's list after the stock pass *)

Section aliasing.

Lemma remove_sublist (x : string) (l l' : list string) :
  Py.remove x l = Some l' → l' `sublist_of` l.
Proof.
  revert l'. induction l as [|y l IH]; intros l'; simpl; [done|].
  case_bool_decide.
  - intros [= <-]. by apply sublist_cons.
  - destruct (Py.remove x l) as [k|]; simpl; [|done].
    intros [= <-]. apply sublist_skip. by apply IH.
Qed.

(** Whatever the outcome, the loop only deletes from the list. *)
Lemma stocks_loop_sublist (R : list remnant) :
  ∀ (acc : list Seller.stock_entry) (ids : list string),
    (Seller.stocks_loop R acc ids).2 `sublist_of` ids.
Proof.
  induction R as [|w R IH]; intros acc ids; simpl; [done|].
  case_bool_decide; [|apply IH].
  destruct (Seller.stock_of w); [|done].
  destruct (Py.remove _ ids) as [ids1|] eqn:Hrm; [|done].
  etrans; [apply IH|]. by eapply remove_sublist.
Qed.

Lemma prices_loop_shape (R : list remnant) (ids : list string) :
  ∀ acc prices,
    Seller.prices_loop R acc ids = Ok prices →
    ∃ new, prices = acc ++ new
           ∧ Seller.price_offer_id <$> new
             = Spec.code_of <$> Spec.matching R ids.
Proof.
  unfold Spec.matching, Spec.code_of.
  induction R as [|w R IH]; intros acc prices; simpl.
  - intros [= <-]. exists []. by rewrite app_nil_r.
  - rewrite filter_cons. case_bool_decide as Hin.
    + destruct (Seller.price_conversion _) as [p|]; simpl; [|done].
      intros (new & -> & Hnew)%IH.
      eexists (_ :: new). split; [by rewrite <-app_assoc|].
      rewrite decide_True by done. rewrite !fmap_cons. by rewrite Hnew.
    + rewrite decide_False by done. apply IH.
Qed.

(** No remnant matches: no price entry, whatever the price cells hold. *)
Lemma create_prices_no_match (R : list remnant) (ids : list string) :
  (∀ w, w ∈ R → Spec.code_of w ∉ ids) →
  Seller.create_prices R ids = Ok [].
Proof.
  unfold Seller.create_prices, Spec.code_of. generalize (@nil Seller.price_entry).
  induction R as [|w R IH]; intros acc Hno; simpl; [done|].
  rewrite bool_decide_eq_false_2 by (apply Hno; by left).
  apply IH. intros w' Hw'. apply Hno. by right.
Qed.

End aliasing.

(** C9.  [create_stocks] works on the caller's list: when it returns, the
    list holds the occurrences of ids that were not consumed, in their
    order, and these are the ids of the zero entries; an id has lost one
    occurrence per remnant that carries it, as long as it had one;
    consumed ids and left ids together are the ids the caller passed.
    [create_prices] run afterwards on the same list, as [main] does,
    gives entries only for codes still in it.  With distinct catalog ids
    the list is left with the ids no remnant carries, and [main] sends
    no price at all. *)
Theorem create_stocks_consumes_offer_ids (R : list remnant)
    (C C' : list string) (stocks : list Seller.stock_entry)
    (warehouse_id date : string) :
  Seller.create_stocks R C = (Ok stocks, C') →
  ∃ matched,
    stocks
    = matched ++ ((λ id, {| Seller.offer_id := id; Seller.stock := 0 |})
                    <$> C')
    ∧ (Market.create_stocks R C warehouse_id date).2 = C'
    ∧ (Seller.offer_id <$> matched) ++ C' ≡ₚ C
    ∧ Forall (λ e, ∃ w, w ∈ R ∧ Spec.code_of w = Seller.offer_id e
                        ∧ Seller.stock_of w = Ok (Seller.stock e)) matched
    ∧ C' `sublist_of` C
    ∧ (∀ id,
         length (filter (λ x, x = id) C')
         = (length (filter (λ x, x = id) C)
            - length (filter (λ w, Spec.code_of w = id) R))%nat)
    ∧ (∀ prices, Seller.create_prices R C' = Ok prices →
         ∀ e, e ∈ prices → Seller.price_offer_id e ∈ C')
    ∧ (NoDup C →
         (∀ id, id ∈ C' ↔ id ∈ C ∧ id ∉ Spec.code_of <$> R)
         ∧ Seller.create_prices R C' = Ok []
         ∧ ∃ batches, Seller.main R C = Ok (batches, [])).
Proof.
  intros Hseller.
  assert (∃ st, Seller.stocks_loop R [] C = (Ok st, C')
                ∧ stocks
                  = st ++ ((λ id, {| Seller.offer_id := id;
                                     Seller.stock := 0 |}) <$> C'))
    as (st & Hloop & ->).
  { unfold Seller.create_stocks in Hseller.
    destruct (Seller.stocks_loop R [] C) as [[st|e] C''] eqn:Hloop; [|done].
    injection Hseller as <- <-. by exists st. }
  destruct (stocks_loop_shape R [] C st C' Hloop) as (new & -> & Hperm & Hall).
  simpl in Hloop, Hseller.
  exists new. split; [done|]. split.
  { by rewrite market_create_stocks, Hseller. }
  split; [done|]. split; [done|]. split.
  { pose proof (stocks_loop_sublist R [] C) as Hsub. by rewrite Hloop in Hsub. }
  split; [by apply (stocks_loop_consumes R [] C new C')|].
  split.
  { intros prices (ps & -> & Hkeys)%prices_loop_shape e He. simpl in He.
    apply (list_elem_of_fmap_2 Seller.price_offer_id) in He.
    rewrite Hkeys in He. apply list_elem_of_fmap in He as (w & -> & Hw).
    unfold Spec.matching in Hw. by apply list_elem_of_filter in Hw as [? _]. }
  intros Hnd.
  assert (∀ id, id ∈ C' ↔ id ∈ C ∧ id ∉ Spec.code_of <$> R) as Hleft.
  { intros id. split.
    - intros Hid.
      assert (id ∈ C) as HidC.
      { rewrite <-Hperm. apply elem_of_app. by right. }
      split; [done|]. intros (w & -> & Hw)%list_elem_of_fmap.
      pose proof (stocks_loop_first R [] new C C' Hnd Hloop _ HidC) as Hfirst.
      destruct (find _ R) as [w'|] eqn:Hfind.
      + by destruct Hfirst as (_ & _ & _ & ?).
      + apply list_elem_of_In in Hw.
        apply (find_none _ _ Hfind) in Hw.
        by apply bool_decide_eq_false in Hw.
    - intros [HidC Hno].
      pose proof (stocks_loop_first R [] new C C' Hnd Hloop _ HidC) as Hfirst.
      destruct (find _ R) as [w'|] eqn:Hfind; [|done].
      apply find_some in Hfind as [Hw' Hcode].
      apply list_elem_of_In in Hw'. apply bool_decide_eq_true in Hcode.
      destruct Hno. rewrite <-Hcode.
      by apply (list_elem_of_fmap_2 Spec.code_of). }
  assert (Seller.create_prices R C' = Ok []) as Hprices.
  { apply create_prices_no_match. intros w Hw Hin.
    apply Hleft in Hin as [_ Hno]. apply Hno.
    by apply (list_elem_of_fmap_2 Spec.code_of). }
  split; [done|]. split; [done|].
  destruct (divide_batches
              (new ++ ((λ id, {| Seller.offer_id := id; Seller.stock := 0 |})
                         <$> C')) 100) as (batches & Hbatches & _); [lia|].
  exists batches. unfold Seller.main. rewrite Hseller.
  unfold bind. cbv beta iota. rewrite Hbatches, Hprices. reflexivity.
Qed.

Lemma create_stocks_consumes_offer_ids_witness :
  Seller.create_stocks Scenario.remnants Scenario.catalog
  = (Ok [{| Seller.offer_id := "A"; Seller.stock := 100 |};
         {| Seller.offer_id := "B"; Seller.stock := 0 |};
         {| Seller.offer_id := "C"; Seller.stock := 0 |}], ["C"])
  ∧ NoDup Scenario.catalog
  ∧ ∃ batches, Seller.main Scenario.remnants Scenario.catalog
               = Ok (batches, []).
Proof.
  destruct scenario_well_formed as (Hnd & _).
  split; [reflexivity|]. split; [exact Hnd|].
  destruct (create_stocks_consumes_offer_ids Scenario.remnants
              Scenario.catalog ["C"]
              [{| Seller.offer_id := "A"; Seller.stock := 100 |};
               {| Seller.offer_id := "B"; Seller.stock := 0 |};
               {| Seller.offer_id := "C"; Seller.stock := 0 |}]
              "WH001" "2024-01-01T00:00:00Z" eq_refl)
    as (matched & _ & _ & _ & _ & _ & _ & _ & Hdistinct).
  destruct (Hdistinct Hnd) as (_ & _ & Hmain). exact Hmain.
Defined.

(** With a catalog that lists an id twice, [main] does send a price for
    a code the stock pass has matched: the one remnant consumes the
    first ["A"], the second stays in the list, and [create_prices] finds
    it there. *)
Lemma main_prices_a_matched_code :
  Seller.create_stocks [Spec.record "A" "5" "10.00"] ["A"; "A"]
  = (Ok [{| Seller.offer_id := "A"; Seller.stock := 5 |};
         {| Seller.offer_id := "A"; Seller.stock := 0 |}], ["A"])
  ∧ Seller.main [Spec.record "A" "5" "10.00"] ["A"; "A"]
    = Ok ([[{| Seller.offer_id := "A"; Seller.stock := 5 |};
            {| Seller.offer_id := "A"; Seller.stock := 0 |}]],
          [[{| Seller.auto_action_enabled := "UNKNOWN";
               Seller.currency_code := "RUB";
               Seller.price_offer_id := "A";
               Seller.old_price := "0";
               Seller.price := "10" |}]]).
Proof. split; reflexivity. Qed.

(** ** Runs, the clock and the caller's list *)

Section runs.

(** With distinct ids no remnant code is left in the list. *)
Lemma stocks_loop_leftover (R : list remnant) (ids ids' : list string)
    (st : list Seller.stock_entry) :
  NoDup ids →
  Seller.stocks_loop R [] ids = (Ok st, ids') →
  ∀ w, w ∈ R → Spec.code_of w ∉ ids'.
Proof.
  intros Hnd Hloop w Hw Hin.
  destruct (stocks_loop_shape R [] ids st ids' Hloop) as (new & -> & Hperm & _).
  assert (Spec.code_of w ∈ ids) as Hids.
  { rewrite <-Hperm. apply elem_of_app. by right. }
  pose proof (stocks_loop_first R [] new ids ids' Hnd Hloop _ Hids) as Hfirst.
  destruct (find _ R) as [w'|] eqn:Hfind.
  - by destruct Hfirst as (_ & _ & _ & ?).
  - apply list_elem_of_In in Hw. apply (find_none _ _ Hfind) in Hw.
    by apply bool_decide_eq_false in Hw.
Qed.

Lemma stocks_loop_no_match (R : list remnant) (ids : list string) :
  (∀ w, w ∈ R → Spec.code_of w ∉ ids) →
  ∀ acc, Seller.stocks_loop R acc ids = (Ok acc, ids).
Proof.
  unfold Spec.code_of.
  induction R as [|w R IH]; intros Hno acc; simpl; [done|].
  rewrite bool_decide_eq_false_2 by (apply Hno; by left).
  apply IH. intros w' Hw'. apply Hno. by right.
Qed.

Lemma undated_to_market (wh d1 d2 : string) (e : Seller.stock_entry) :
  undated (to_market wh d1 e) = undated (to_market wh d2 e).
Proof. done. Qed.

End runs.

(** C8, as the code has it.  The outputs are functions of the remnants,
    the contents of the list at the call, the warehouse and the reading of
    the clock.  The clock reaches the Yandex.Market stock entries only:
    at two readings the list is left the same and the entries agree, in
    order, once their [updatedAt] is blanked; they are the Ozon entries
    stamped with the date.  The list is not left as it was: with distinct
    ids, once [create_stocks] has returned, a second call on the same list
    returns the zero entries of the ids the first call left. *)
Theorem reconciliation_clock_and_list (R : list remnant) (C : list string)
    (warehouse_id date1 date2 : string) :
  (Market.create_stocks R C warehouse_id date1).2
  = (Market.create_stocks R C warehouse_id date2).2
  ∧ result_map (fmap undated) (Market.create_stocks R C warehouse_id date1).1
    = result_map (fmap undated)
        (Market.create_stocks R C warehouse_id date2).1
  ∧ (Market.create_stocks R C warehouse_id date1).1
    = result_map (fmap (to_market warehouse_id date1))
        (Seller.create_stocks R C).1
  ∧ (NoDup C → ∀ stocks C',
       Seller.create_stocks R C = (Ok stocks, C') →
       Seller.create_stocks R C'
       = (Ok ((λ id, {| Seller.offer_id := id; Seller.stock := 0 |}) <$> C'),
          C')
       ∧ (Run.seller_twice R C).2
         = Ok ((λ id, {| Seller.offer_id := id; Seller.stock := 0 |}) <$> C',
               [])).
Proof.
  rewrite !market_create_stocks. simpl.
  split; [done|]. split; [|split; [done|]].
  - destruct (Seller.create_stocks R C).1 as [st|e]; simpl; [|done].
    f_equal. rewrite <-!list_fmap_compose. apply list_fmap_ext.
    intros _ e _. apply undated_to_market.
  - intros Hnd stocks C' Hfirst.
    unfold Seller.create_stocks in Hfirst.
    destruct (Seller.stocks_loop R [] C) as [[st|e] ids] eqn:Hloop; [|done].
    injection Hfirst as <- <-.
    pose proof (stocks_loop_leftover R C ids st Hnd Hloop) as Hno.
    assert (Seller.create_stocks R ids
            = (Ok ((λ id, {| Seller.offer_id := id; Seller.stock := 0 |})
                     <$> ids), ids)) as Hsecond.
    { unfold Seller.create_stocks. by rewrite stocks_loop_no_match. }
    split; [done|].
    unfold Run.seller_twice, Run.seller, Seller.create_stocks.
    rewrite Hloop. fold (Seller.create_stocks R ids). rewrite Hsecond.
    rewrite (create_prices_no_match R ids Hno). done.
Qed.

(** C8 as stated fails.  A second reconciliation with the same arguments
    differs from the first, since the first emptied the list; and the
    Yandex.Market stock entries change with the clock. *)
Lemma second_run_differs :
  Run.seller_twice [Spec.record "A" "5" "10.00"] ["A"]
  = (Ok ([{| Seller.offer_id := "A"; Seller.stock := 5 |}], []),
     Ok ([], []))
  ∧ (Run.seller_twice [Spec.record "A" "5" "10.00"] ["A"]).1
    ≠ (Run.seller_twice [Spec.record "A" "5" "10.00"] ["A"]).2
  ∧ Market.create_stocks [Spec.record "A" "5" "10.00"] ["A"] "WH001"
      "2024-01-01T00:00:00Z"
    ≠ Market.create_stocks [Spec.record "A" "5" "10.00"] ["A"] "WH001"
        "2024-01-01T00:00:01Z".
Proof.
  split; [by vm_compute|]. split; vm_compute; discriminate.
Qed.

(** ** Remnants outside the catalog *)

Section unlisted.

Lemma stocks_loop_unlisted (w : remnant) (R1 R2 : list remnant) :
  ∀ (acc : list Seller.stock_entry) (ids : list string),
    Spec.code_of w ∉ ids →
    Seller.stocks_loop (R1 ++ w :: R2) acc ids
    = Seller.stocks_loop (R1 ++ R2) acc ids.
Proof.
  unfold Spec.code_of.
  induction R1 as [|w1 R1 IH]; intros acc ids Hout; simpl.
  - by rewrite bool_decide_eq_false_2.
  - case_bool_decide; [|by apply IH].
    destruct (Seller.stock_of w1); [|done].
    destruct (Py.remove _ ids) as [ids1|] eqn:Hrm; [|done].
    apply IH. intros Hin. apply Hout. by eapply remove_subseteq.
Qed.

Lemma seller_prices_loop_unlisted (w : remnant) (R1 R2 : list remnant)
    (ids : list string) :
  Spec.code_of w ∉ ids →
  ∀ acc, Seller.prices_loop (R1 ++ w :: R2) acc ids
         = Seller.prices_loop (R1 ++ R2) acc ids.
Proof.
  unfold Spec.code_of. intros Hout.
  induction R1 as [|w1 R1 IH]; intros acc; simpl.
  - by rewrite bool_decide_eq_false_2.
  - case_bool_decide; [|by apply IH].
    destruct (Seller.price_conversion _); simpl; [apply IH|done].
Qed.

Lemma market_prices_loop_unlisted (w : remnant) (R1 R2 : list remnant)
    (ids : list string) :
  Spec.code_of w ∉ ids →
  ∀ acc, Market.prices_loop (R1 ++ w :: R2) acc ids
         = Market.prices_loop (R1 ++ R2) acc ids.
Proof.
  unfold Spec.code_of. intros Hout.
  induction R1 as [|w1 R1 IH]; intros acc; simpl.
  - by rewrite bool_decide_eq_false_2.
  - case_bool_decide; [|by apply IH].
    destruct (Market.value_of _); simpl; [apply IH|done].
Qed.

End unlisted.

(** X1.  A remnant whose code is not in the catalog has no effect on the
    stock and price passes of either module, whatever its quantity and
    price cells hold: the outcome, the entries and the list left to the
    caller are those of the run without it. *)
Theorem unlisted_remnant_ignored (w : remnant) (R1 R2 : list remnant)
    (C : list string) (warehouse_id date : string) :
  Spec.code_of w ∉ C →
  Seller.create_stocks (R1 ++ w :: R2) C = Seller.create_stocks (R1 ++ R2) C
  ∧ Market.create_stocks (R1 ++ w :: R2) C warehouse_id date
    = Market.create_stocks (R1 ++ R2) C warehouse_id date
  ∧ Seller.create_prices (R1 ++ w :: R2) C = Seller.create_prices (R1 ++ R2) C
  ∧ Market.create_prices (R1 ++ w :: R2) C
    = Market.create_prices (R1 ++ R2) C.
Proof.
  intros Hout.
  assert (Seller.create_stocks (R1 ++ w :: R2) C
          = Seller.create_stocks (R1 ++ R2) C) as Hstocks.
  { unfold Seller.create_stocks. by rewrite stocks_loop_unlisted. }
  split; [done|]. split; [by rewrite !market_create_stocks, Hstocks|].
  split.
  - by apply seller_prices_loop_unlisted.
  - by apply market_prices_loop_unlisted.
Qed.

Lemma unlisted_remnant_ignored_witness :
  (Spec.code_of (Spec.record "Z" "abc" "free") ∉ Scenario.catalog)
  ∧ Seller.create_stocks
      (Spec.record "Z" "abc" "free" :: Scenario.remnants) Scenario.catalog
    = Seller.create_stocks Scenario.remnants Scenario.catalog
  ∧ Market.create_prices
      (Spec.record "Z" "abc" "free" :: Scenario.remnants) Scenario.catalog
    = Market.create_prices Scenario.remnants Scenario.catalog.
Proof.
  assert (Spec.code_of (Spec.record "Z" "abc" "free") ∉ Scenario.catalog)
    as Hout.
  { apply (bool_decide_unpack _). vm_compute. exact I. }
  split; [exact Hout|].
  destruct (unlisted_remnant_ignored (Spec.record "Z" "abc" "free") []
              Scenario.remnants Scenario.catalog "WH001" "now" Hout)
    as (Hstocks & _ & _ & Hprices).
  split; [exact Hstocks|exact Hprices].
Defined.



(** ** Cells that are not text *)

Section cells.




End cells.


(** ** Price entries in closed form: the two modules *)

(** X4.  [seller.create_prices] in closed form: it returns the price
    entries of the remnants whose code is in the catalog, in remnant
    order, each with the digits of its price text before the first ['.'],
    exactly when the price cell of every such remnant is text; otherwise
    it raises [AttributeError], and nothing else. *)
Theorem seller_create_prices_closed (R : list remnant) (C : list string) :
  match Seller.create_prices R C with
  | Ok prices =>
      prices = Closed.seller_price <$> Spec.matching R C
      ∧ Forall Spec.text_price (Spec.matching R C)
  | Raise e =>
      e = AttributeError
      ∧ ∃ w, w ∈ Spec.matching R C ∧ ¬ Spec.text_price w
  end.
Proof. apply (seller_prices_loop_closed R C []). Qed.

(** X5.  [market.create_prices] in closed form: it returns the price
    entries of the remnants whose code is in the catalog, in remnant
    order, each with the decimal value of the digits of its price text
    before the first ['.'], never a negative value, exactly when every
    such price cell is text with a digit there, and no more than 4300 of
    them; otherwise it raises the [AttributeError] or [ValueError] of a
    matching remnant whose price does not convert. *)
Theorem market_create_prices_closed (R : list remnant) (C : list string) :
  match Market.create_prices R C with
  | Ok prices =>
      prices = Closed.market_price <$> Spec.matching R C
      ∧ Forall Spec.valid_price (Spec.matching R C)
      ∧ Forall (λ e, 0 ≤ Market.value (Market.price e)) prices
  | Raise e =>
      (e = AttributeError ∨ e = ValueError)
      ∧ ∃ w, w ∈ Spec.matching R C ∧ ¬ Spec.valid_price w
              ∧ Market.value_of w = Raise e
  end.
Proof.
  pose proof (market_prices_loop_closed R C []) as Hloop.
  fold (Market.create_prices R C) in Hloop.
  destruct (Market.create_prices R C) as [prices|e]; [|done].
  destruct Hloop as [-> Hvalid]. simpl. split; [done|]. split; [done|].
  apply Forall_fmap. eapply Forall_impl; [exact Hvalid|].
  intros w (s & Hs & _). simpl. unfold Closed.price_digits. rewrite Hs.
  apply decimal_nonneg; [apply sub_non_digits_all_digits|done].
Qed.

(** ** Digits in, digits out *)

Section digits.

Lemma all_digits_before_first (d : string) :
  Spec.all_digits d = true →
  ∀ rest, Spec.before_first "." (d +:+ rest) = d +:+ Spec.before_first "." rest.
Proof.
  induction d as [|c d IH]; simpl; [done|].
  intros [Hc Hd]%andb_prop rest.
  rewrite bool_decide_eq_false_2; [by rewrite IH|].
  intros ->. done.
Qed.

Lemma all_digits_no_dot (d : string) :
  Spec.all_digits d = true → Spec.before_first "." d = d.
Proof.
  induction d as [|c d IH]; simpl; [done|].
  intros [Hc Hd]%andb_prop.
  rewrite bool_decide_eq_false_2; [by rewrite IH|].
  intros ->. done.
Qed.

Lemma all_digits_sub_non_digits (d : string) :
  Spec.all_digits d = true → Py.sub_non_digits d = d.
Proof.
  induction d as [|c d IH]; simpl; [done|].
  intros [Hc Hd]%andb_prop. by rewrite Hc, IH.
Qed.

Lemma all_digits_price_conversion (d : string) :
  Spec.all_digits d = true → Seller.price_conversion (VStr d) = Ok d.
Proof.
  intros Hd. rewrite price_conversion_string.
  by rewrite all_digits_no_dot, all_digits_sub_non_digits.
Qed.

End digits.

(** X6.  [price_conversion] leaves a string of digits as it is; applied
    to its own result it returns that result. *)
Theorem price_conversion_idempotent (s : string) :
  ∃ digits,
    Seller.price_conversion (VStr s) = Ok digits
    ∧ Seller.price_conversion (VStr digits) = Ok digits.
Proof.
  exists (Py.sub_non_digits (Spec.before_first "." s)).
  split; [apply price_conversion_string|].
  apply all_digits_price_conversion, sub_non_digits_all_digits.
Qed.

(** ** Amounts written in decimal *)

Section amounts.

Lemma pretty_N_char_digit (x : N) :
  (x < 10)%N →
  Py.is_digit (pretty_N_char x) = true
  ∧ Py.digit_val (pretty_N_char x) = Z.of_N x.
Proof.
  intros Hx.
  assert (x = 0 ∨ x = 1 ∨ x = 2 ∨ x = 3 ∨ x = 4 ∨ x = 5 ∨ x = 6 ∨ x = 7
          ∨ x = 8 ∨ x = 9)%N as Hcases by lia.
  repeat (destruct Hcases as [->|Hcases]; [by vm_compute|]).
  subst x. by vm_compute.
Qed.

Lemma pretty_N_go_decimal (x : N) :
  ∀ s, Spec.all_digits s = true →
       Spec.all_digits (pretty_N_go x s) = true
       ∧ Closed.decimal 0 (pretty_N_go x s) = Closed.decimal (Z.of_N x) s.
Proof.
  induction (N.lt_wf_0 x) as [x _ IH]; intros s Hs.
  assert (x = 0 ∨ 0 < x)%N as [->|Hx] by lia.
  - by rewrite pretty_N_go_0.
  - rewrite pretty_N_go_step by done.
    destruct (pretty_N_char_digit (x `mod` 10)) as [Hdigit Hval].
    { by apply N.mod_lt. }
    destruct (IH (x `div` 10)%N) with
      (s := String (pretty_N_char (x `mod` 10)) s) as [Hall Hdec].
    { by apply N.div_lt. }
    { simpl. by rewrite Hdigit, Hs. }
    split; [done|]. rewrite Hdec. simpl. rewrite Hval. f_equal.
    rewrite (N.div_mod x 10) at 3 by done. lia.
Qed.

(** The decimal text of a natural number is made of digits and has the
    number as its value. *)
Lemma pretty_N_decimal (x : N) :
  Spec.all_digits (pretty x) = true
  ∧ Closed.decimal 0 (pretty x) = Z.of_N x
  ∧ pretty x ≠ EmptyString.
Proof.
  unfold pretty, pretty_N. case_decide as Hx; [by subst x|].
  destruct (pretty_N_go_decimal x EmptyString eq_refl) as [Hall Hdec].
  split; [done|]. split; [done|].
  intros Hempty. rewrite Hempty in Hdec. simpl in Hdec. lia.
Qed.

Lemma before_first_digits_dot (d rest : string) :
  Spec.all_digits d = true →
  Spec.before_first "." (d +:+ String "." rest) = d.
Proof.
  induction d as [|c d IH]; simpl; [done|].
  intros [Hc Hd]%andb_prop.
  rewrite bool_decide_eq_false_2; [by rewrite IH|].
  intros ->. done.
Qed.

(** The digits [price_conversion] keeps of an amount written in decimal
    and followed by a ['.']: the decimal text of its absolute value. *)
Lemma amount_digits (n : Z) (rest : string) :
  Py.sub_non_digits (Spec.before_first "." (pretty n +:+ String "." rest))
  = pretty (Z.abs n)
  ∧ Spec.all_digits (pretty (Z.abs n)) = true
  ∧ Closed.decimal 0 (pretty (Z.abs n)) = Z.abs n
  ∧ pretty (Z.abs n) ≠ EmptyString.
Proof.
  assert (∀ p : positive,
            Spec.all_digits (pretty (Zpos p)) = true
            ∧ Closed.decimal 0 (pretty (Zpos p)) = Zpos p
            ∧ pretty (Zpos p) ≠ EmptyString) as Hpos.
  { intros p. apply (pretty_N_decimal (Npos p)). }
  destruct n as [|p|p]; simpl Z.abs.
  - by vm_compute.
  - destruct (Hpos p) as (Hall & Hdec & Hne).
    rewrite before_first_digits_dot, all_digits_sub_non_digits by done.
    done.
  - destruct (Hpos p) as (Hall & Hdec & Hne).
    change (pretty (Z.neg p)) with (String "-" (pretty (Z.pos p))).
    simpl. rewrite before_first_digits_dot, all_digits_sub_non_digits by done.
    done.
Qed.

End amounts.

(** X7.  An amount written in decimal, followed by a ['.'] and any
    text, maps back to the amount: [price_conversion] returns its decimal
    text, and [market.create_prices] its value as long as the amount has
    no more than 4300 digits; beyond that [int] refuses the text and
    [create_prices] raises [ValueError].  The sign is not kept: a
    negative amount comes back as its absolute value. *)
Theorem amount_round_trip (n : Z) (rest code quantity : string) :
  Seller.price_conversion (VStr (pretty n +:+ String "." rest))
  = Ok (pretty (Z.abs n))
  ∧ Market.value_of
      (Spec.record code quantity (pretty n +:+ String "." rest))
    = (if bool_decide (Z.of_nat (String.length (pretty (Z.abs n)))
                       ≤ Py.max_str_digits)
       then Ok (Z.abs n) else Raise ValueError)
  ∧ Market.create_prices
      [Spec.record code quantity (pretty n +:+ String "." rest)] [code]
    = (if bool_decide (Z.of_nat (String.length (pretty (Z.abs n)))
                       ≤ Py.max_str_digits)
       then Ok [{| Market.id := code;
                   Market.price := {| Market.value := Z.abs n;
                                      Market.currencyId := "RUR" |} |}]
       else Raise ValueError).
Proof.
  destruct (amount_digits n rest) as (Hdigits & Hall & Hdec & Hne).
  destruct (record_get code quantity (pretty n +:+ String "." rest))
    as (Hcode & _ & Hprice).
  assert (Market.value_of
            (Spec.record code quantity (pretty n +:+ String "." rest))
          = (if bool_decide (Z.of_nat (String.length (pretty (Z.abs n)))
                             ≤ Py.max_str_digits)
             then Ok (Z.abs n) else Raise ValueError)) as Hvalue.
  { unfold Market.value_of.
    rewrite Hprice, price_conversion_string, Hdigits. cbn [bind].
    rewrite <-(count_digits_all_digits _ Hall).
    case_bool_decide as Hlen.
    - by rewrite int_decimal, Hdec.
    - apply int_too_long; [done|lia]. }
  split; [by rewrite price_conversion_string, Hdigits|].
  split; [done|].
  unfold Market.create_prices. cbn [Market.prices_loop].
  rewrite Hcode. cbn [Py.str].
  rewrite bool_decide_eq_true_2 by (by left). rewrite Hvalue.
  by case_bool_decide.
Qed.

(** ** The number of batches *)

(** X8.  For a size [n] of at least one [divide] yields
    [(len + n - 1) / n] chunks, [len] being the length of the list, so
    none for the empty list; the chunk of index [i] is the [n] elements
    found after the first [i * n] of the list, or what is left of them. *)
Theorem divide_count {A : Type} (L : list A) (n : Z) :
  1 ≤ n →
  ∃ chunks,
    Seller.divide L n = Ok chunks
    ∧ Z.of_nat (length chunks) = (Z.of_nat (length L) + n - 1) / n
    ∧ (L = [] → chunks = [])
    ∧ ∀ (i : nat) c, chunks !! i = Some c →
        c = take (Z.to_nat n) (drop (i * Z.to_nat n) L).
Proof.
  intros Hn.
  assert (∃ n', n = Z.of_nat n' ∧ (1 ≤ n')%nat) as (n' & -> & Hn').
  { exists (Z.to_nat n). lia. }
  rewrite divide_positive by done. rewrite Nat2Z.id.
  eexists. split; [done|]. split; [|split].
  - rewrite length_fmap, length_seq. case_bool_decide as Hlen.
    + replace (Z.of_nat (length L) + Z.of_nat n' - 1)
        with (Z.of_nat (length L) - 0 - 1 + 1 * Z.of_nat n') by lia.
      rewrite Z.div_add by lia.
      pose proof (Z.div_pos (Z.of_nat (length L) - 0 - 1) (Z.of_nat n')).
      lia.
    + rewrite Z.div_small by lia. done.
  - intros ->. done.
  - intros i c. rewrite list_lookup_fmap.
    destruct (seq 0 _ !! i) as [k|] eqn:Hk; simpl; [|done].
    apply lookup_seq in Hk as [-> _]. by intros [= <-].
Qed.

Lemma divide_count_witness :
  1 ≤ 100
  ∧ ∃ chunks,
      Seller.divide (replicate 250 "x") 100 = Ok chunks
      ∧ Z.of_nat (length chunks) = 3.
Proof.
  split; [lia|].
  destruct (divide_count (replicate 250 "x") 100) as (chunks & Hdiv & Hlen & _);
    [lia|].
  exists chunks. split; [exact Hdiv|]. rewrite Hlen. reflexivity.
Defined.

(** ** Enumerating the Ozon catalog *)

Section ozon_pages.

Lemma raise_for_status_passes {W : Type} (status : Z) (w : W) :
  Script.passes status → Net.raise_for_status status w = Net.Done tt w.
Proof.
  intros Hpass. unfold Net.raise_for_status.
  by rewrite bool_decide_eq_false_2.
Qed.

(** One turn of the loop on a page that carries its items. *)
Lemma ozon_turn (turns : nat) (cursor : PyVal)
    (acc its : list Ozon.product) (status : Z) (p : Ozon.page)
    (tail : list (Net.reply (option Ozon.page)))
    (log : list Ozon.request) :
  Script.passes status → Ozon.items p = Some its →
  Ozon.get_offer_ids_loop (S turns) cursor acc
    {| Net.replies := Net.Answer status (Some p) :: tail; Net.sent := log |}
  = if Ozon.total_reached (Ozon.total p) (acc ++ its)
    then Net.Done (acc ++ its)
           {| Net.replies := tail;
              Net.sent := log ++ [Ozon.ProductList cursor] |}
    else Ozon.get_offer_ids_loop turns (Ozon.last_id p) (acc ++ its)
           {| Net.replies := tail;
              Net.sent := log ++ [Ozon.ProductList cursor] |}.
Proof.
  intros Hpass Hits. simpl.
  unfold Net.bind, Ozon.get_product_list, Net.bind, Net.send. simpl.
  rewrite raise_for_status_passes by done. simpl. rewrite Hits.
  by destruct (Ozon.total_reached _ _).
Qed.

(** The loop runs through pages that do not end the enumeration. *)
Lemma ozon_loop_going (before : list (Z * Ozon.page)) :
  ∀ (turns : nat) (cursor : PyVal) (acc : list Ozon.product)
    (tail : list (Net.reply (option Ozon.page)))
    (log : list Ozon.request),
    Forall Script.passes before.*1 →
    Script.ozon_going acc before.*2 = true →
    Ozon.get_offer_ids_loop (length before + turns) cursor acc
      {| Net.replies := (Script.ozon_answer <$> before) ++ tail;
         Net.sent := log |}
    = Ozon.get_offer_ids_loop turns (Script.ozon_cursor cursor before.*2)
        (acc ++ Script.ozon_products before.*2)
        {| Net.replies := tail;
           Net.sent := log ++ Script.ozon_requests cursor before.*2 |}.
Proof.
  induction before as [|[status p] before IH];
    intros turns cursor acc tail log Hpass Hgoing.
  - simpl. by rewrite !app_nil_r.
  - rewrite fmap_cons in Hpass. apply Forall_cons in Hpass as [Hp Hpass].
    simpl in Hgoing.
    destruct (Ozon.items p) as [its|] eqn:Hits; [|done].
    apply andb_prop in Hgoing as [Hnot Hgoing].
    apply negb_true_iff in Hnot.
    change (length ((status, p) :: before) + turns)%nat
      with (S (length before + turns)).
    change ((Script.ozon_answer <$> (status, p) :: before) ++ tail)
      with (Net.Answer status (Some p)
              :: ((Script.ozon_answer <$> before) ++ tail)).
    rewrite (ozon_turn _ _ _ its) by done. rewrite Hnot.
    rewrite IH by done. f_equal.
    + unfold Script.ozon_products. simpl. rewrite Hits.
      by rewrite app_assoc.
    + simpl. by rewrite <-app_assoc.
Qed.

End ozon_pages.

Section ozon_enumeration.

Lemma ozon_requests_app (cursor : PyVal) (pages : list Ozon.page)
    (p : Ozon.page) :
  Script.ozon_requests cursor (pages ++ [p])
  = Script.ozon_requests cursor pages
    ++ [Ozon.ProductList (Script.ozon_cursor cursor pages)].
Proof.
  revert cursor. induction pages as [|q pages IH]; intros cursor; [done|].
  simpl. by rewrite IH.
Qed.

(** With a constant total below the number of products already received
    no page ends the enumeration. *)
Lemma ozon_going_overshoot (T : Z) (pages : list Ozon.page) :
  ∀ acc : list Ozon.product,
    T < Z.of_nat (length acc) →
    Forall (λ p, Ozon.total p = VInt T ∧ is_Some (Ozon.items p)) pages →
    Script.ozon_going acc pages = true.
Proof.
  induction pages as [|p pages IH]; intros acc Hacc Hall; [done|].
  apply Forall_cons in Hall as [[Htotal [its Hits]] Hall].
  simpl. rewrite Hits, Htotal. simpl.
  rewrite bool_decide_eq_false_2 by (rewrite length_app; lia). simpl.
  apply IH; [rewrite length_app; lia|done].
Qed.

(** The enumeration goes on as long as no page ends it: when the replies
    run out the client is waiting for the next page. *)
Lemma ozon_get_offer_ids_waits (pages : list (Z * Ozon.page))
    (log : list Ozon.request) :
  Forall Script.passes pages.*1 →
  Script.ozon_going [] pages.*2 = true →
  Ozon.get_offer_ids
    {| Net.replies := Script.ozon_answer <$> pages; Net.sent := log |}
  = Net.Wait
      {| Net.replies := [];
         Net.sent :=
           log ++ Script.ozon_requests (VStr EmptyString) pages.*2
           ++ [Ozon.ProductList
                 (Script.ozon_cursor (VStr EmptyString) pages.*2)] |}.
Proof.
  intros Hpass Hgoing. unfold Ozon.get_offer_ids. unfold Net.bind at 1.
  cbn [Net.replies]. rewrite length_fmap.
  pose proof (ozon_loop_going pages 1 (VStr EmptyString) [] [] log
                Hpass Hgoing) as Hloop.
  rewrite app_nil_r in Hloop.
  replace (S (length pages)) with (length pages + 1)%nat by lia.
  rewrite Hloop. simpl. unfold Net.bind, Ozon.get_product_list, Net.bind.
  simpl. by rewrite <-app_assoc.
Qed.

End ozon_enumeration.

(** X9.  [get_offer_ids] of [seller.py] against a server that answers
    page after page: it asks for the first page with the empty cursor
    and for each next page with the ["last_id"] of the page before; it
    stops at the first page after which ["total"] equals the number of
    products received, and returns the offer ids of all the products
    received, in order, duplicates included; replies that come after
    that page are not consumed. *)
Theorem ozon_get_offer_ids_collects (before : list (Z * Ozon.page))
    (status : Z) (last : Ozon.page) (its : list Ozon.product)
    (tail : list (Net.reply (option Ozon.page)))
    (log : list Ozon.request) :
  Forall Script.passes (status :: before.*1) →
  Script.ozon_going [] before.*2 = true →
  Ozon.items last = Some its →
  Ozon.total_reached (Ozon.total last)
    (Script.ozon_products before.*2 ++ its) = true →
  Ozon.get_offer_ids
    {| Net.replies :=
         (Script.ozon_answer <$> before)
         ++ Net.Answer status (Some last) :: tail;
       Net.sent := log |}
  = Net.Done (Ozon.offer_id <$> (Script.ozon_products before.*2 ++ its))
      {| Net.replies := tail;
         Net.sent :=
           log ++ Script.ozon_requests (VStr EmptyString)
                    (before.*2 ++ [last]) |}.
Proof.
  intros [Hstatus Hpass]%Forall_cons Hgoing Hits Hreached.
  unfold Ozon.get_offer_ids. unfold Net.bind at 1. cbn [Net.replies].
  rewrite length_app, length_fmap. cbn [length].
  replace (S (length before + S (length tail)))
    with (length before + S (S (length tail)))%nat by lia.
  rewrite ozon_loop_going by done.
  rewrite (ozon_turn _ _ _ its) by done. simpl in Hreached |- *.
  rewrite Hreached. unfold Net.ret.
  by rewrite ozon_requests_app, <-app_assoc.
Qed.

Lemma ozon_get_offer_ids_collects_witness :
  Ozon.get_offer_ids
    {| Net.replies :=
         Script.ozon_answer
         <$> [(200, {| Ozon.items := Some [{| Ozon.offer_id := "A" |};
                                           {| Ozon.offer_id := "B" |}];
                       Ozon.total := VInt 3;
                       Ozon.last_id := VStr "b" |});
              (200, {| Ozon.items := Some [{| Ozon.offer_id := "C" |}];
                       Ozon.total := VInt 3;
                       Ozon.last_id := VStr "c" |})];
       Net.sent := [] |}
  = Net.Done ["A"; "B"; "C"]
      {| Net.replies := [];
         Net.sent := [Ozon.ProductList (VStr EmptyString);
                      Ozon.ProductList (VStr "b")] |}.
Proof.
  apply (ozon_get_offer_ids_collects
           [(200, {| Ozon.items := Some [{| Ozon.offer_id := "A" |};
                                         {| Ozon.offer_id := "B" |}];
                     Ozon.total := VInt 3;
                     Ozon.last_id := VStr "b" |})]
           200
           {| Ozon.items := Some [{| Ozon.offer_id := "C" |}];
              Ozon.total := VInt 3;
              Ozon.last_id := VStr "c" |}
           [{| Ozon.offer_id := "C" |}] [] []).
  - simpl. repeat (apply Forall_cons; split; [unfold Script.passes; lia|]).
    by apply Forall_nil.
  - reflexivity.
  - reflexivity.
  - reflexivity.
Defined.

(** X10.  [get_offer_ids] of [seller.py] stops on equality only.  When
    the first page brings more products than the total the server keeps
    announcing, no later page ends the enumeration, whatever it brings:
    the client consumes every reply and is left waiting for one more
    page. *)
Theorem ozon_overshoot_never_stops (T status : Z) (first : Ozon.page)
    (its : list Ozon.product) (later : list (Z * Ozon.page))
    (log : list Ozon.request) :
  Forall Script.passes (status :: later.*1) →
  Ozon.items first = Some its →
  Ozon.total first = VInt T →
  T < Z.of_nat (length its) →
  Forall (λ p, Ozon.total p = VInt T ∧ is_Some (Ozon.items p)) later.*2 →
  Ozon.get_offer_ids
    {| Net.replies := Script.ozon_answer <$> ((status, first) :: later);
       Net.sent := log |}
  = Net.Wait
      {| Net.replies := [];
         Net.sent :=
           log ++ Script.ozon_requests (VStr EmptyString)
                    (first :: later.*2)
           ++ [Ozon.ProductList
                 (Script.ozon_cursor (VStr EmptyString)
                    (first :: later.*2))] |}.
Proof.
  intros Hpass Hits Htotal Hover Hlater.
  apply (ozon_get_offer_ids_waits ((status, first) :: later)); [done|].
  simpl. rewrite Hits, Htotal. simpl.
  rewrite bool_decide_eq_false_2 by lia. simpl.
  by apply (ozon_going_overshoot T).
Qed.

Lemma ozon_overshoot_never_stops_witness :
  Ozon.get_offer_ids
    {| Net.replies :=
         Script.ozon_answer
         <$> [(200, {| Ozon.items := Some [{| Ozon.offer_id := "A" |};
                                           {| Ozon.offer_id := "B" |}];
                       Ozon.total := VInt 1;
                       Ozon.last_id := VStr "b" |});
              (200, {| Ozon.items := Some [];
                       Ozon.total := VInt 1;
                       Ozon.last_id := VStr "b" |})];
       Net.sent := [] |}
  = Net.Wait
      {| Net.replies := [];
         Net.sent := [Ozon.ProductList (VStr EmptyString);
                      Ozon.ProductList (VStr "b");
                      Ozon.ProductList (VStr "b")] |}.
Proof.
  apply (ozon_overshoot_never_stops 1 200
           {| Ozon.items := Some [{| Ozon.offer_id := "A" |};
                                  {| Ozon.offer_id := "B" |}];
              Ozon.total := VInt 1;
              Ozon.last_id := VStr "b" |}
           [{| Ozon.offer_id := "A" |}; {| Ozon.offer_id := "B" |}]
           [(200, {| Ozon.items := Some [];
                     Ozon.total := VInt 1;
                     Ozon.last_id := VStr "b" |})] []).
  - simpl. repeat (apply Forall_cons; split; [unfold Script.passes; lia|]).
    by apply Forall_nil.
  - reflexivity.
  - reflexivity.
  - simpl. lia.
  - simpl. apply Forall_cons. split; [by split; [|eexists]|].
    by apply Forall_nil.
Defined.

Section ozon_stall.

Lemma ozon_going_stall (p : Ozon.page) (T : Z) (n : nat) :
  Ozon.items p = Some [] → Ozon.total p = VInt T → T ≠ 0 →
  Script.ozon_going [] (replicate n p) = true.
Proof.
  intros Hits Htotal HT. induction n as [|n IH]; [done|].
  simpl. rewrite Hits, Htotal. simpl.
  by rewrite bool_decide_eq_false_2.
Qed.

Lemma ozon_requests_stall (p : Ozon.page) (n : nat) :
  ∀ cursor,
    Script.ozon_requests cursor (replicate n p)
    ++ [Ozon.ProductList (Script.ozon_cursor cursor (replicate n p))]
    = Ozon.ProductList cursor
      :: replicate n (Ozon.ProductList (Ozon.last_id p)).
Proof.
  induction n as [|n IH]; intros cursor; [done|].
  simpl. f_equal. apply IH.
Qed.

End ozon_stall.

(** X11.  [get_offer_ids] of [seller.py] has no guard against a server
    that stalls.  If every answer is the same empty page with a total
    other than zero, the client asks again and again with the same
    cursor: after [n] such answers it has made [n + 1] requests and is
    waiting. *)
Theorem ozon_stall_never_stops (n : nat) (status T : Z) (p : Ozon.page)
    (log : list Ozon.request) :
  Script.passes status →
  Ozon.items p = Some [] →
  Ozon.total p = VInt T →
  T ≠ 0 →
  Ozon.get_offer_ids
    {| Net.replies := replicate n (Net.Answer status (Some p));
       Net.sent := log |}
  = Net.Wait
      {| Net.replies := [];
         Net.sent :=
           log ++ Ozon.ProductList (VStr EmptyString)
                  :: replicate n (Ozon.ProductList (Ozon.last_id p)) |}.
Proof.
  intros Hpass Hits Htotal HT.
  pose proof (ozon_get_offer_ids_waits (replicate n (status, p)) log) as Hw.
  rewrite !fmap_replicate in Hw. cbn [fst snd] in Hw.
  change (Net.Answer status (Some p)) with (Script.ozon_answer (status, p)).
  rewrite Hw; [by rewrite ozon_requests_stall| |].
  - by apply Forall_replicate.
  - by apply (ozon_going_stall p T).
Qed.

Lemma ozon_stall_never_stops_witness :
  Ozon.get_offer_ids
    {| Net.replies :=
         replicate 3
           (Net.Answer 200
              (Some {| Ozon.items := Some [];
                       Ozon.total := VInt 7;
                       Ozon.last_id := VStr EmptyString |}));
       Net.sent := [] |}
  = Net.Wait
      {| Net.replies := [];
         Net.sent := replicate 4 (Ozon.ProductList (VStr EmptyString)) |}.
Proof.
  apply (ozon_stall_never_stops 3 200 7
           {| Ozon.items := Some [];
              Ozon.total := VInt 7;
              Ozon.last_id := VStr EmptyString |} []).
  - unfold Script.passes. lia.
  - reflexivity.
  - reflexivity.
  - lia.
Defined.

(** X12.  A failure on any page ends [get_offer_ids] of [seller.py] with
    an exception and no offer ids, those of the pages already received
    included: the exception of the transport when no answer comes,
    [HTTPError] on a status from 400 to 599, [AttributeError] when the
    answer has no ["result"], [TypeError] when the result has no
    ["items"]. *)
Theorem ozon_get_offer_ids_fails (before : list (Z * Ozon.page))
    (tail : list (Net.reply (option Ozon.page)))
    (log : list Ozon.request) :
  Forall Script.passes before.*1 →
  Script.ozon_going [] before.*2 = true →
  let world_with bad :=
    {| Net.replies := (Script.ozon_answer <$> before) ++ bad :: tail;
       Net.sent := log |} in
  let left :=
    {| Net.replies := tail;
       Net.sent :=
         log ++ Script.ozon_requests (VStr EmptyString) before.*2
         ++ [Ozon.ProductList
               (Script.ozon_cursor (VStr EmptyString) before.*2)] |} in
  (∀ f, Ozon.get_offer_ids (world_with (Net.NoAnswer f))
        = Net.Throw (Net.Transport f) left)
  ∧ (∀ status body, 400 ≤ status < 600 →
       Ozon.get_offer_ids (world_with (Net.Answer status body))
       = Net.Throw (Net.HTTPError status) left)
  ∧ (∀ status, Script.passes status →
       Ozon.get_offer_ids (world_with (Net.Answer status None))
       = Net.Throw (Net.Builtin AttributeError) left)
  ∧ (∀ status p, Script.passes status → Ozon.items p = None →
       Ozon.get_offer_ids (world_with (Net.Answer status (Some p)))
       = Net.Throw (Net.Builtin TypeError) left).
Proof.
  intros Hpass Hgoing world_with left.
  assert (∀ bad,
            Ozon.get_offer_ids (world_with bad)
            = (product_list ←$ Ozon.get_offer_ids_loop
                                 (S (S (length tail)))
                                 (Script.ozon_cursor (VStr EmptyString)
                                    before.*2)
                                 (Script.ozon_products before.*2);
               Net.ret (Ozon.offer_id <$> product_list))
                {| Net.replies := bad :: tail;
                   Net.sent :=
                     log ++ Script.ozon_requests (VStr EmptyString)
                              before.*2 |}) as Hrun.
  { intros bad. unfold Ozon.get_offer_ids, world_with.
    unfold Net.bind. cbn [Net.replies].
    rewrite length_app, length_fmap. cbn [length].
    replace (S (length before + S (length tail)))
      with (length before + S (S (length tail)))%nat by lia.
    by rewrite ozon_loop_going. }
  unfold left. rewrite app_assoc.
  split; [|split; [|split]].
  - intros f. by rewrite Hrun.
  - intros status body Hstatus. rewrite Hrun. simpl.
    unfold Net.bind, Ozon.get_product_list, Net.bind, Net.raise_for_status.
    simpl. by rewrite bool_decide_eq_true_2.
  - intros status Hstatus. rewrite Hrun. simpl.
    unfold Net.bind, Ozon.get_product_list, Net.bind. simpl.
    by rewrite raise_for_status_passes.
  - intros status p Hstatus Hitems. rewrite Hrun. simpl.
    unfold Net.bind, Ozon.get_product_list, Net.bind. simpl.
    rewrite raise_for_status_passes by done. simpl. by rewrite Hitems.
Qed.

Lemma ozon_get_offer_ids_fails_witness :
  Ozon.get_offer_ids
    {| Net.replies :=
         [Net.Answer 200
            (Some {| Ozon.items := Some [{| Ozon.offer_id := "A" |}];
                     Ozon.total := VInt 2;
                     Ozon.last_id := VStr "a" |});
          Net.Answer 503 None];
       Net.sent := [] |}
  = Net.Throw (Net.HTTPError 503)
      {| Net.replies := [];
         Net.sent := [Ozon.ProductList (VStr EmptyString);
                      Ozon.ProductList (VStr "a")] |}.
Proof.
  assert (Forall Script.passes [200]) as Hpass.
  { apply Forall_cons. split; [unfold Script.passes; lia|].
    by apply Forall_nil. }
  destruct (ozon_get_offer_ids_fails
              [(200, {| Ozon.items := Some [{| Ozon.offer_id := "A" |}];
                        Ozon.total := VInt 2;
                        Ozon.last_id := VStr "a" |})] [] [] Hpass eq_refl)
    as (_ & Hhttp & _).
  apply (Hhttp 503 None). lia.
Defined.

(** ** Enumerating a Yandex.Market campaign *)

Section yandex_pages.

Lemma yandex_turn (turns : nat) (token : PyVal) (campaign_id : string)
    (acc entries : list Yandex.entry) (status : Z) (p : Yandex.page)
    (paging : Yandex.paging)
    (tail : list (Net.reply (option Yandex.page)))
    (log : list Yandex.request) :
  Script.passes status →
  Yandex.offerMappingEntries p = Some entries →
  Yandex.page_paging p = Some paging →
  Yandex.get_offer_ids_loop (S turns) token campaign_id acc
    {| Net.replies := Net.Answer status (Some p) :: tail; Net.sent := log |}
  = if Yandex.falsy (Yandex.nextPageToken paging)
    then Net.Done (acc ++ entries)
           {| Net.replies := tail;
              Net.sent :=
                log ++ [Yandex.OfferMappingEntries campaign_id token] |}
    else Yandex.get_offer_ids_loop turns (Yandex.nextPageToken paging)
           campaign_id (acc ++ entries)
           {| Net.replies := tail;
              Net.sent :=
                log ++ [Yandex.OfferMappingEntries campaign_id token] |}.
Proof.
  intros Hpass Hentries Hpaging. simpl.
  unfold Net.bind, Yandex.get_product_list, Net.bind, Net.send. simpl.
  rewrite raise_for_status_passes by done. simpl.
  rewrite Hentries, Hpaging.
  by destruct (Yandex.falsy _).
Qed.

Lemma yandex_loop_going (campaign_id : string)
    (before : list (Z * Yandex.page)) :
  ∀ (turns : nat) (token : PyVal) (acc : list Yandex.entry)
    (tail : list (Net.reply (option Yandex.page)))
    (log : list Yandex.request),
    Forall Script.passes before.*1 →
    Script.yandex_going before.*2 = true →
    Yandex.get_offer_ids_loop (length before + turns) token campaign_id acc
      {| Net.replies := (Script.yandex_answer <$> before) ++ tail;
         Net.sent := log |}
    = Yandex.get_offer_ids_loop turns
        (Script.yandex_cursor token before.*2) campaign_id
        (acc ++ Script.yandex_entries before.*2)
        {| Net.replies := tail;
           Net.sent :=
             log ++ Script.yandex_requests campaign_id token before.*2 |}.
Proof.
  induction before as [|[status p] before IH];
    intros turns token acc tail log Hpass Hgoing.
  - simpl. by rewrite !app_nil_r.
  - rewrite fmap_cons in Hpass. apply Forall_cons in Hpass as [Hp Hpass].
    simpl in Hgoing. apply andb_prop in Hgoing as [Hpage Hgoing].
    destruct (Yandex.offerMappingEntries p) as [entries|] eqn:Hentries;
      [|done].
    destruct (Yandex.page_paging p) as [paging|] eqn:Hpaging; [|done].
    apply negb_true_iff in Hpage.
    change (length ((status, p) :: before) + turns)%nat
      with (S (length before + turns)).
    change ((Script.yandex_answer <$> (status, p) :: before) ++ tail)
      with (Net.Answer status (Some p)
              :: ((Script.yandex_answer <$> before) ++ tail)).
    rewrite (yandex_turn _ _ _ _ entries _ _ paging) by done.
    rewrite Hpage, IH by done.
    assert (Script.yandex_token p = Yandex.nextPageToken paging) as Htoken.
    { unfold Script.yandex_token. by rewrite Hpaging. }
    f_equal.
    + simpl. by rewrite Htoken.
    + unfold Script.yandex_entries. simpl. rewrite Hentries.
      by rewrite app_assoc.
    + simpl. by rewrite Htoken, <-app_assoc.
Qed.

Lemma yandex_requests_app (campaign_id : string) (token : PyVal)
    (pages : list Yandex.page) (p : Yandex.page) :
  Script.yandex_requests campaign_id token (pages ++ [p])
  = Script.yandex_requests campaign_id token pages
    ++ [Yandex.OfferMappingEntries campaign_id
          (Script.yandex_cursor token pages)].
Proof.
  revert token. induction pages as [|q pages IH]; intros token; [done|].
  simpl. by rewrite IH.
Qed.

(** The second loop: the ["shopSku"] of every entry, or [AttributeError]
    at the first entry without an ["offer"]. *)
Lemma shop_skus_outcome (entries : list Yandex.entry) :
  ∀ acc,
    Yandex.shop_skus entries acc
    = if forallb (λ e, bool_decide (is_Some (Yandex.entry_offer e))) entries
      then Ok (acc ++ Script.yandex_skus entries)
      else Raise AttributeError.
Proof.
  induction entries as [|e entries IH]; intros acc; simpl.
  - by rewrite app_nil_r.
  - destruct e as [[o|]]; simpl; [|done].
    rewrite IH. by rewrite <-app_assoc.
Qed.

End yandex_pages.

(** X13.  [get_offer_ids] of [market.py] against a server that answers
    page after page: it asks for the first page with the empty token and
    for each next page with the ["nextPageToken"] of the page before; it
    stops at the first page whose token is empty, absent or zero.  Only
    then does it read the entries: it returns the ["shopSku"] of all of
    them, in order, duplicates included, or raises [AttributeError] when
    one of them has no ["offer"], after every page has been fetched. *)
Theorem yandex_get_offer_ids_collects (campaign_id : string)
    (before : list (Z * Yandex.page)) (status : Z) (last : Yandex.page)
    (entries : list Yandex.entry) (paging : Yandex.paging)
    (tail : list (Net.reply (option Yandex.page)))
    (log : list Yandex.request) :
  Forall Script.passes (status :: before.*1) →
  Script.yandex_going before.*2 = true →
  Yandex.offerMappingEntries last = Some entries →
  Yandex.page_paging last = Some paging →
  Yandex.falsy (Yandex.nextPageToken paging) = true →
  Yandex.get_offer_ids campaign_id
    {| Net.replies :=
         (Script.yandex_answer <$> before)
         ++ Net.Answer status (Some last) :: tail;
       Net.sent := log |}
  = (if forallb (λ e, bool_decide (is_Some (Yandex.entry_offer e)))
          (Script.yandex_entries before.*2 ++ entries)
     then Net.Done
            (Script.yandex_skus (Script.yandex_entries before.*2 ++ entries))
     else Net.Throw (Net.Builtin AttributeError))
      {| Net.replies := tail;
         Net.sent :=
           log ++ Script.yandex_requests campaign_id (VStr EmptyString)
                    (before.*2 ++ [last]) |}.
Proof.
  intros [Hstatus Hpass]%Forall_cons Hgoing Hentries Hpaging Hfalsy.
  unfold Yandex.get_offer_ids. unfold Net.bind at 1. cbn [Net.replies].
  rewrite length_app, length_fmap. cbn [length].
  replace (S (length before + S (length tail)))
    with (length before + S (S (length tail)))%nat by lia.
  rewrite yandex_loop_going by done.
  rewrite (yandex_turn _ _ _ _ entries _ _ paging) by done.
  rewrite Hfalsy. rewrite shop_skus_outcome.
  rewrite yandex_requests_app, app_assoc.
  by destruct (forallb _ _).
Qed.

Lemma yandex_get_offer_ids_collects_witness :
  Yandex.get_offer_ids "fbs"
    {| Net.replies :=
         Script.yandex_answer
         <$> [(200, {| Yandex.offerMappingEntries :=
                         Some [{| Yandex.entry_offer :=
                                    Some {| Yandex.shopSku := "A" |} |}];
                       Yandex.page_paging :=
                         Some {| Yandex.nextPageToken := VStr "p2" |} |});
              (200, {| Yandex.offerMappingEntries :=
                         Some [{| Yandex.entry_offer :=
                                    Some {| Yandex.shopSku := "B" |} |}];
                       Yandex.page_paging :=
                         Some {| Yandex.nextPageToken := VNone |} |})];
       Net.sent := [] |}
  = Net.Done ["A"; "B"]
      {| Net.replies := [];
         Net.sent := [Yandex.OfferMappingEntries "fbs" (VStr EmptyString);
                      Yandex.OfferMappingEntries "fbs" (VStr "p2")] |}.
Proof.
  apply (yandex_get_offer_ids_collects "fbs"
           [(200, {| Yandex.offerMappingEntries :=
                       Some [{| Yandex.entry_offer :=
                                  Some {| Yandex.shopSku := "A" |} |}];
                     Yandex.page_paging :=
                       Some {| Yandex.nextPageToken := VStr "p2" |} |})]
           200
           {| Yandex.offerMappingEntries :=
                Some [{| Yandex.entry_offer :=
                           Some {| Yandex.shopSku := "B" |} |}];
              Yandex.page_paging :=
                Some {| Yandex.nextPageToken := VNone |} |}
           [{| Yandex.entry_offer := Some {| Yandex.shopSku := "B" |} |}]
           {| Yandex.nextPageToken := VNone |} [] []).
  - simpl. repeat (apply Forall_cons; split; [unfold Script.passes; lia|]).
    by apply Forall_nil.
  - reflexivity.
  - reflexivity.
  - reflexivity.
  - reflexivity.
Defined.

Section yandex_stall.

Lemma yandex_get_offer_ids_waits (campaign_id : string)
    (pages : list (Z * Yandex.page)) (log : list Yandex.request) :
  Forall Script.passes pages.*1 →
  Script.yandex_going pages.*2 = true →
  Yandex.get_offer_ids campaign_id
    {| Net.replies := Script.yandex_answer <$> pages; Net.sent := log |}
  = Net.Wait
      {| Net.replies := [];
         Net.sent :=
           log ++ Script.yandex_requests campaign_id (VStr EmptyString)
                    pages.*2
           ++ [Yandex.OfferMappingEntries campaign_id
                 (Script.yandex_cursor (VStr EmptyString) pages.*2)] |}.
Proof.
  intros Hpass Hgoing. unfold Yandex.get_offer_ids. unfold Net.bind at 1.
  cbn [Net.replies]. rewrite length_fmap.
  pose proof (yandex_loop_going campaign_id pages 1 (VStr EmptyString) []
                [] log Hpass Hgoing) as Hloop.
  rewrite app_nil_r in Hloop.
  replace (S (length pages)) with (length pages + 1)%nat by lia.
  rewrite Hloop. simpl. unfold Net.bind, Yandex.get_product_list, Net.bind.
  simpl. by rewrite <-app_assoc.
Qed.

Lemma yandex_requests_stall (campaign_id : string) (p : Yandex.page)
    (n : nat) :
  ∀ token,
    Script.yandex_requests campaign_id token (replicate n p)
    ++ [Yandex.OfferMappingEntries campaign_id
          (Script.yandex_cursor token (replicate n p))]
    = Yandex.OfferMappingEntries campaign_id token
      :: replicate n
           (Yandex.OfferMappingEntries campaign_id (Script.yandex_token p)).
Proof.
  induction n as [|n IH]; intros token; [done|].
  simpl. f_equal. apply IH.
Qed.

End yandex_stall.

(** X14.  [get_offer_ids] of [market.py] has no guard against a server
    that repeats itself.  If every answer is the same page, with a token
    that is not false, the client asks again and again with that same
    token: after [n] such answers it has made [n + 1] requests and is
    waiting. *)
Theorem yandex_stall_never_stops (campaign_id : string) (n : nat)
    (status : Z) (p : Yandex.page) (entries : list Yandex.entry)
    (paging : Yandex.paging) (log : list Yandex.request) :
  Script.passes status →
  Yandex.offerMappingEntries p = Some entries →
  Yandex.page_paging p = Some paging →
  Yandex.falsy (Yandex.nextPageToken paging) = false →
  Yandex.get_offer_ids campaign_id
    {| Net.replies := replicate n (Net.Answer status (Some p));
       Net.sent := log |}
  = Net.Wait
      {| Net.replies := [];
         Net.sent :=
           log ++ Yandex.OfferMappingEntries campaign_id (VStr EmptyString)
                  :: replicate n
                       (Yandex.OfferMappingEntries campaign_id
                          (Yandex.nextPageToken paging)) |}.
Proof.
  intros Hpass Hentries Hpaging Htoken.
  pose proof (yandex_get_offer_ids_waits campaign_id
                (replicate n (status, p)) log) as Hw.
  rewrite !fmap_replicate in Hw. cbn [fst snd] in Hw.
  change (Net.Answer status (Some p)) with (Script.yandex_answer (status, p)).
  rewrite Hw.
  - rewrite yandex_requests_stall. unfold Script.yandex_token.
    by rewrite Hpaging.
  - by apply Forall_replicate.
  - unfold Script.yandex_going. apply forallb_forall.
    intros q Hq. apply list_elem_of_In, elem_of_replicate in Hq as [-> _].
    by rewrite Hentries, Hpaging, Htoken.
Qed.

Lemma yandex_stall_never_stops_witness :
  Yandex.get_offer_ids "dbs"
    {| Net.replies :=
         replicate 2
           (Net.Answer 200
              (Some {| Yandex.offerMappingEntries :=
                         Some [{| Yandex.entry_offer :=
                                    Some {| Yandex.shopSku := "A" |} |}];
                       Yandex.page_paging :=
                         Some {| Yandex.nextPageToken := VStr "p2" |} |}));
       Net.sent := [] |}
  = Net.Wait
      {| Net.replies := [];
         Net.sent := [Yandex.OfferMappingEntries "dbs" (VStr EmptyString);
                      Yandex.OfferMappingEntries "dbs" (VStr "p2");
                      Yandex.OfferMappingEntries "dbs" (VStr "p2")] |}.
Proof.
  apply (yandex_stall_never_stops "dbs" 2 200
           {| Yandex.offerMappingEntries :=
                Some [{| Yandex.entry_offer :=
                           Some {| Yandex.shopSku := "A" |} |}];
              Yandex.page_paging :=
                Some {| Yandex.nextPageToken := VStr "p2" |} |}
           [{| Yandex.entry_offer := Some {| Yandex.shopSku := "A" |} |}]
           {| Yandex.nextPageToken := VStr "p2" |} []).
  - unfold Script.passes. lia.
  - reflexivity.
  - reflexivity.
  - reflexivity.
Defined.

(** ** Sending batches *)

Section batches.

Context {A B Q : Type} (mk : A → Q).

(** The shape of the four update functions: one request that carries the
    batch, then [raise_for_status]. *)
Local Abbreviation post :=
  (λ x : A,
     response ←$ Net.send (B := B) (mk x);
     Net.raise_for_status response.1).

Lemma post_accepted (x : A) (r : Net.reply B)
    (tail : list (Net.reply B)) (log : list Q) :
  Net.refusal r = None →
  post x {| Net.replies := r :: tail; Net.sent := log |}
  = Net.Done tt {| Net.replies := tail; Net.sent := log ++ [mk x] |}.
Proof.
  destruct r as [status body|f]; [|done]. unfold Net.refusal.
  case_bool_decide as Hstatus; [done|]. intros _.
  unfold Net.bind, Net.send. simpl. by apply raise_for_status_passes.
Qed.

Lemma post_refused (x : A) (r : Net.reply B) (e : Net.exn)
    (tail : list (Net.reply B)) (log : list Q) :
  Net.refusal r = Some e →
  post x {| Net.replies := r :: tail; Net.sent := log |}
  = Net.Throw e {| Net.replies := tail; Net.sent := log ++ [mk x] |}.
Proof.
  destruct r as [status body|f]; unfold Net.refusal.
  - case_bool_decide as Hstatus; [|done]. intros [= <-].
    unfold Net.bind, Net.send, Net.raise_for_status. simpl.
    by rewrite bool_decide_eq_true_2.
  - by intros [= <-].
Qed.

(** The batches go out in order, one request each, as long as the
    replies are accepted. *)
Lemma for_each_accepted (xs : list A) :
  ∀ (oks tail : list (Net.reply B)) (log : list Q),
    length oks = length xs →
    Forall (λ r, Net.refusal r = None) oks →
    Net.for_each post xs {| Net.replies := oks ++ tail; Net.sent := log |}
    = Net.Done tt
        {| Net.replies := tail; Net.sent := log ++ (mk <$> xs) |}.
Proof.
  induction xs as [|x xs IH]; intros oks tail log Hlen Hoks.
  - destruct oks; [|done]. simpl. by rewrite app_nil_r.
  - destruct oks as [|r oks]; [done|].
    apply Forall_cons in Hoks as [Hr Hoks]. simpl.
    unfold Net.bind at 1. rewrite post_accepted by done.
    rewrite IH by (done || (simpl in Hlen; lia)).
    by rewrite <-app_assoc.
Qed.

(** The first refused request ends the loop: the batches before it and
    the refused one have been sent, the later ones are not. *)
Lemma for_each_refused (xs : list A) :
  ∀ (oks tail : list (Net.reply B)) (bad : Net.reply B) (e : Net.exn)
    (log : list Q),
    (length oks < length xs)%nat →
    Forall (λ r, Net.refusal r = None) oks →
    Net.refusal bad = Some e →
    Net.for_each post xs
      {| Net.replies := oks ++ bad :: tail; Net.sent := log |}
    = Net.Throw e
        {| Net.replies := tail;
           Net.sent := log ++ (mk <$> take (S (length oks)) xs) |}.
Proof.
  induction xs as [|x xs IH]; intros oks tail bad e log Hlen Hoks Hbad.
  - simpl in Hlen. lia.
  - destruct oks as [|r oks]; simpl.
    + unfold Net.bind at 1. by rewrite (post_refused _ _ e).
    + apply Forall_cons in Hoks as [Hr Hoks].
      unfold Net.bind at 1. rewrite post_accepted by done.
      rewrite (IH _ _ _ e) by (done || (simpl in Hlen; lia)).
      by rewrite <-app_assoc.
Qed.

(** Whatever the replies, the loop sends a prefix of the batches and
    nothing else. *)
Lemma for_each_sends (xs : list A) :
  ∀ w : Net.world B Q,
    ∃ k, Net.sent (Net.world_of (Net.for_each post xs w))
         = Net.sent w ++ (mk <$> take k xs).
Proof.
  induction xs as [|x xs IH]; intros w.
  - exists 0%nat. simpl. by rewrite app_nil_r.
  - simpl. unfold Net.bind at 1.
    destruct w as [[|r tail] log].
    + by exists 1%nat.
    + destruct (Net.refusal r) as [e|] eqn:Hr.
      * rewrite (post_refused _ _ e) by done. by exists 1%nat.
      * rewrite post_accepted by done.
        destruct (IH {| Net.replies := tail; Net.sent := log ++ [mk x] |})
          as [k Hk].
        exists (S k). rewrite Hk. simpl. by rewrite <-app_assoc.
Qed.

End batches.

(** ** Uploading the stocks to Ozon *)

Section ozon_upload.

Lemma create_stocks_valid (R : list remnant) (C : list string) :
  (∀ r, r ∈ R → Spec.code_of r ∈ C → Spec.valid_quantity r) →
  ∃ matched C',
    Seller.create_stocks R C
    = (Ok (matched ++
           ((λ id, {| Seller.offer_id := id; Seller.stock := 0 |}) <$> C')),
       C')
    ∧ (Seller.offer_id <$> matched) ++ C' ≡ₚ C
    ∧ Forall (λ e, ∃ r, r ∈ R ∧ Spec.code_of r = Seller.offer_id e
                        ∧ Seller.stock_of r = Ok (Seller.stock e)) matched.
Proof.
  intros Hvalid.
  destruct (stocks_loop_Ok R [] C) as (st & C' & Hloop).
  { intros r Hr Hin.
    destruct (valid_quantity_stock_of r) as (d & q & _ & _ & ->);
      [by apply Hvalid|by exists q]. }
  destruct (stocks_loop_shape R [] C st C' Hloop) as (new & -> & Hperm & Hall).
  exists new, C'. split; [|done].
  unfold Seller.create_stocks. by rewrite Hloop.
Qed.

Lemma bind_Done {W A B : Type} (m : Net.M W A) (k : A → Net.M W B)
    (a : A) (w w' : W) :
  m w = Net.Done a w' → Net.bind m k w = k a w'.
Proof. intros Hm. unfold Net.bind. by rewrite Hm. Qed.

Lemma bind_lift_Ok {W A B : Type} (a : A) (k : A → Net.M W B) (w : W) :
  Net.bind (Net.lift (Ok a)) k w = k a w.
Proof. done. Qed.

Lemma bind_lift_Raise {W A B : Type} (e : PyExc) (k : A → Net.M W B)
    (w : W) :
  Net.bind (Net.lift (Raise e)) k w = Net.Throw (Net.Builtin e) w.
Proof. done. Qed.

Lemma filter_zero_entries (ids : list string) :
  filter (λ stock, Seller.stock stock ≠ 0)
    ((λ id, {| Seller.offer_id := id; Seller.stock := 0 |}) <$> ids) = [].
Proof.
  induction ids as [|id ids IH]; [done|].
  rewrite fmap_cons, filter_cons. by rewrite decide_False by (simpl; lia).
Qed.

End ozon_upload.

(** X15.  [upload_stocks] of [seller.py], once the offer ids [C] are
    fetched, the quantities of the matching remnants being well formed
    and the server accepting the imports: it sends the stock entries in
    batches of 1 to 100, in order, one request per batch, as many as the
    length of [C] divided by 100, rounded up, and returns all the entries
    together with those whose stock is not zero.  The latter all come
    from a remnant: an offer id no remnant carries is never among
    them. *)
Theorem ozon_upload_stocks (R : list remnant) (w w1 : Ozon.world)
    (C : list string) (oks tail : list (Net.reply (option Ozon.page))) :
  Ozon.get_offer_ids w = Net.Done C w1 →
  (∀ r, r ∈ R → Spec.code_of r ∈ C → Spec.valid_quantity r) →
  Net.replies w1 = oks ++ tail →
  Forall (λ r, Net.refusal r = None) oks →
  Z.of_nat (length oks) = (Z.of_nat (length C) + 100 - 1) / 100 →
  ∃ stocks C' batches,
    Seller.create_stocks R C = (Ok stocks, C')
    ∧ Seller.divide stocks 100 = Ok batches
    ∧ Ozon.upload_stocks R w
      = Net.Done (filter (λ stock, Seller.stock stock ≠ 0) stocks, stocks)
          {| Net.replies := tail;
             Net.sent := Net.sent w1 ++ (Ozon.ImportStocks <$> batches) |}
    ∧ concat batches = stocks
    ∧ Forall (λ b, 1 ≤ Z.of_nat (length b) ≤ 100) batches
    ∧ Forall (λ e, ∃ r, r ∈ R ∧ Spec.code_of r = Seller.offer_id e
                        ∧ Seller.stock_of r = Ok (Seller.stock e))
        (filter (λ stock, Seller.stock stock ≠ 0) stocks).
Proof.
  intros Hids Hvalid Hreplies Hoks Hcount.
  destruct (create_stocks_valid R C Hvalid)
    as (matched & C' & Hstocks & Hperm & Hmatched).
  set (stocks := matched ++ _) in Hstocks.
  destruct (divide_batches stocks 100)
    as (batches & Hdivide & Hconcat & Hsizes & Hnumber); [lia|].
  assert (length stocks = length C) as Hlen.
  { unfold stocks. rewrite length_app, length_fmap.
    rewrite <-(Permutation_length Hperm), length_app, length_fmap. done. }
  exists stocks, C', batches.
  split; [done|]. split; [done|]. split; [|split; [done|split; [done|]]].
  - unfold Ozon.upload_stocks. rewrite (bind_Done _ _ _ _ _ Hids).
    rewrite Hstocks. cbn [fst]. rewrite bind_lift_Ok, Hdivide, bind_lift_Ok.
    destruct w1 as [replies1 log1]. simpl in Hreplies. subst replies1.
    assert (Net.for_each Ozon.update_stocks batches
              {| Net.replies := oks ++ tail; Net.sent := log1 |}
            = Net.Done tt
                {| Net.replies := tail;
                   Net.sent := log1 ++ (Ozon.ImportStocks <$> batches) |})
      as Hsent.
    { apply (for_each_accepted Ozon.ImportStocks); [|done].
      apply Nat2Z.inj. by rewrite Hcount, Hnumber, Hlen. }
    by rewrite (bind_Done _ _ _ _ _ Hsent).
  - unfold stocks. rewrite filter_app, filter_zero_entries, app_nil_r.
    apply Forall_forall. intros e [_ He]%list_elem_of_filter.
    by apply (proj1 (Forall_forall _ _) Hmatched).
Qed.

Lemma ozon_upload_stocks_witness :
  ∃ stocks,
    Ozon.upload_stocks Scenario.remnants
      {| Net.replies :=
           [Net.Answer 200
              (Some {| Ozon.items := Some [{| Ozon.offer_id := "A" |};
                                           {| Ozon.offer_id := "B" |};
                                           {| Ozon.offer_id := "C" |}];
                       Ozon.total := VInt 3;
                       Ozon.last_id := VStr "c" |});
            Net.Answer 200 None];
         Net.sent := [] |}
    = Net.Done ([{| Seller.offer_id := "A"; Seller.stock := 100 |}], stocks)
        {| Net.replies := [];
           Net.sent := [Ozon.ProductList (VStr EmptyString);
                        Ozon.ImportStocks stocks] |}.
Proof.
  destruct (ozon_upload_stocks Scenario.remnants
              {| Net.replies :=
                   [Net.Answer 200
                      (Some {| Ozon.items :=
                                 Some [{| Ozon.offer_id := "A" |};
                                       {| Ozon.offer_id := "B" |};
                                       {| Ozon.offer_id := "C" |}];
                               Ozon.total := VInt 3;
                               Ozon.last_id := VStr "c" |});
                    Net.Answer 200 None];
                 Net.sent := [] |}
              {| Net.replies := [Net.Answer 200 None];
                 Net.sent := [Ozon.ProductList (VStr EmptyString)] |}
              Scenario.catalog [Net.Answer 200 None] [])
    as (stocks & C' & batches & Hstocks & Hdivide & Hupload & _).
  - reflexivity.
  - apply scenario_well_formed.
  - reflexivity.
  - apply Forall_cons. split; [reflexivity|]. by apply Forall_nil.
  - reflexivity.
  - exists stocks. rewrite Hupload.
    injection Hstocks as <- <-. injection Hdivide as <-. reflexivity.
Defined.

(** X16.  [upload_stocks] of [seller.py] when the server refuses an
    import: the exception of the refused request, the transport's or
    [HTTPError], ends the upload.  The batches before it stay sent, the
    refused one has been sent, the later ones never are, and nothing is
    returned. *)
Theorem ozon_upload_stocks_interrupted (R : list remnant)
    (w w1 : Ozon.world) (C : list string)
    (oks tail : list (Net.reply (option Ozon.page)))
    (bad : Net.reply (option Ozon.page)) (e : Net.exn) :
  Ozon.get_offer_ids w = Net.Done C w1 →
  (∀ r, r ∈ R → Spec.code_of r ∈ C → Spec.valid_quantity r) →
  Net.replies w1 = oks ++ bad :: tail →
  Forall (λ r, Net.refusal r = None) oks →
  Net.refusal bad = Some e →
  Z.of_nat (length oks) < (Z.of_nat (length C) + 100 - 1) / 100 →
  ∃ stocks C' batches,
    Seller.create_stocks R C = (Ok stocks, C')
    ∧ Seller.divide stocks 100 = Ok batches
    ∧ Ozon.upload_stocks R w
      = Net.Throw e
          {| Net.replies := tail;
             Net.sent :=
               Net.sent w1
               ++ (Ozon.ImportStocks <$> take (S (length oks)) batches) |}
    ∧ (S (length oks) ≤ length batches)%nat.
Proof.
  intros Hids Hvalid Hreplies Hoks Hbad Hcount.
  destruct (create_stocks_valid R C Hvalid)
    as (matched & C' & Hstocks & Hperm & _).
  set (stocks := matched ++ _) in Hstocks.
  destruct (divide_batches stocks 100)
    as (batches & Hdivide & _ & _ & Hnumber); [lia|].
  assert (length stocks = length C) as Hlen.
  { unfold stocks. rewrite length_app, length_fmap.
    rewrite <-(Permutation_length Hperm), length_app, length_fmap. done. }
  assert (length oks < length batches)%nat as Hshort.
  { apply Nat2Z.inj_lt. by rewrite Hnumber, Hlen. }
  exists stocks, C', batches.
  split; [done|]. split; [done|]. split; [|lia].
  unfold Ozon.upload_stocks. rewrite (bind_Done _ _ _ _ _ Hids).
  rewrite Hstocks. cbn [fst]. rewrite bind_lift_Ok, Hdivide, bind_lift_Ok.
  destruct w1 as [replies1 log1]. simpl in Hreplies. subst replies1.
  unfold Net.bind at 1.
  by rewrite (for_each_refused Ozon.ImportStocks batches oks tail bad e).
Qed.

Lemma ozon_upload_stocks_interrupted_witness :
  ∃ stocks,
    Ozon.upload_stocks Scenario.remnants
      {| Net.replies :=
           [Net.Answer 200
              (Some {| Ozon.items := Some [{| Ozon.offer_id := "A" |};
                                           {| Ozon.offer_id := "B" |};
                                           {| Ozon.offer_id := "C" |}];
                       Ozon.total := VInt 3;
                       Ozon.last_id := VStr "c" |});
            Net.Answer 429 None];
         Net.sent := [] |}
    = Net.Throw (Net.HTTPError 429)
        {| Net.replies := [];
           Net.sent := [Ozon.ProductList (VStr EmptyString);
                        Ozon.ImportStocks stocks] |}.
Proof.
  destruct (ozon_upload_stocks_interrupted Scenario.remnants
              {| Net.replies :=
                   [Net.Answer 200
                      (Some {| Ozon.items :=
                                 Some [{| Ozon.offer_id := "A" |};
                                       {| Ozon.offer_id := "B" |};
                                       {| Ozon.offer_id := "C" |}];
                               Ozon.total := VInt 3;
                               Ozon.last_id := VStr "c" |});
                    Net.Answer 429 None];
                 Net.sent := [] |}
              {| Net.replies := [Net.Answer 429 None];
                 Net.sent := [Ozon.ProductList (VStr EmptyString)] |}
              Scenario.catalog [] [] (Net.Answer 429 None)
              (Net.HTTPError 429))
    as (stocks & C' & batches & Hstocks & Hdivide & Hupload & _).
  - reflexivity.
  - apply scenario_well_formed.
  - reflexivity.
  - by apply Forall_nil.
  - reflexivity.
  - reflexivity.
  - exists stocks. rewrite Hupload.
    injection Hstocks as <- <-. injection Hdivide as <-. reflexivity.
Defined.

(** ** What [main] sends *)

Section ozon_main.


End ozon_main.



Section yandex_main.

Lemma yandex_loop_sends (campaign_id : string) (turns : nat) :
  ∀ (token : PyVal) (acc : list Yandex.entry) (w : Yandex.world),
    ∃ new,
      Net.sent (Net.world_of
                  (Yandex.get_offer_ids_loop turns token campaign_id acc w))
      = Net.sent w ++ new
      ∧ Forall (Script.yandex_stock_traffic campaign_id) new.
Proof.
  induction turns as [|turns IH]; intros token acc w.
  - exists []. simpl. by rewrite app_nil_r.
  - assert (Forall (Script.yandex_stock_traffic campaign_id)
              [Yandex.OfferMappingEntries campaign_id token]) as Hone.
    { apply Forall_cons. split; [done|]. by apply Forall_nil. }
    simpl. unfold Net.bind, Yandex.get_product_list, Net.bind, Net.send.
    destruct w as [[|[status body|f] tail] log]; simpl;
      [by eexists| |by eexists].
    unfold Net.raise_for_status. case_bool_decide; simpl; [by eexists|].
    destruct body as [p|]; simpl; [|by eexists].
    destruct (Yandex.offerMappingEntries p) as [entries|]; simpl;
      [|by eexists].
    destruct (Yandex.page_paging p) as [paging|]; simpl; [|by eexists].
    destruct (Yandex.falsy _); simpl; [by eexists|].
    destruct (IH (Yandex.nextPageToken paging) (acc ++ entries)
                {| Net.replies := tail;
                   Net.sent :=
                     log ++ [Yandex.OfferMappingEntries campaign_id token] |})
      as (new & Hnew & Hall).
    eexists (_ :: new). rewrite Hnew. simpl. split.
    + by rewrite <-app_assoc.
    + apply Forall_cons. by split.
Qed.

Lemma yandex_get_offer_ids_sends (campaign_id : string) (w : Yandex.world) :
  ∃ new,
    Net.sent (Net.world_of (Yandex.get_offer_ids campaign_id w))
    = Net.sent w ++ new
    ∧ Forall (Script.yandex_stock_traffic campaign_id) new.
Proof.
  unfold Yandex.get_offer_ids, Net.bind.
  destruct (yandex_loop_sends campaign_id (S (length (Net.replies w)))
              (VStr EmptyString) [] w) as (new & Hnew & Hall).
  exists new. split; [|done].
  destruct (Yandex.get_offer_ids_loop _ _ _ _ w) as [entries w'|e w'|w'];
    [|done..].
  simpl in Hnew. by destruct (Yandex.shop_skus entries []).
Qed.

(** One campaign of [main]: requests of that campaign only, and no
    prices. *)
Lemma yandex_main_campaign_sends (R : list remnant)
    (campaign_id warehouse_id date : string) (w : Yandex.world) :
  ∃ new,
    Net.sent (Net.world_of
                (Yandex.main_campaign R campaign_id warehouse_id date w))
    = Net.sent w ++ new
    ∧ Forall (Script.yandex_stock_traffic campaign_id) new.
Proof.
  unfold Yandex.main_campaign. unfold Net.bind at 1.
  destruct (yandex_get_offer_ids_sends campaign_id w)
    as (new & Hnew & Hall).
  destruct (Yandex.get_offer_ids campaign_id w) as [ids w1|e w1|w1];
    [|by exists new..].
  simpl in Hnew.
  destruct (Market.create_stocks R ids warehouse_id date).1 as [stocks|e];
    [|rewrite bind_lift_Raise; by exists new].
  rewrite bind_lift_Ok.
  destruct (Seller.divide stocks 2000) as [batches|e];
    [|rewrite bind_lift_Raise; by exists new].
  rewrite bind_lift_Ok.
  destruct (for_each_sends (B := option Yandex.page)
              (Yandex.PutStocks campaign_id) batches w1) as [k Hk].
  unfold Net.bind at 1.
  change (Net.for_each _ batches w1)
    with (Net.for_each
            (λ x, response ←$ Net.send (B := option Yandex.page)
                                (Yandex.PutStocks campaign_id x);
                  Net.raise_for_status response.1) batches w1).
  assert (Forall (Script.yandex_stock_traffic campaign_id)
            (new ++ (Yandex.PutStocks campaign_id <$> take k batches)))
    as Hboth.
  { apply Forall_app. split; [done|]. by apply Forall_fmap, Forall_true. }
  exists (new ++ (Yandex.PutStocks campaign_id <$> take k batches)).
  split; [|done]. rewrite app_assoc, <-Hnew, <-Hk.
  by destruct (Net.for_each _ batches w1) as [[] w2|e w2|w2].
Qed.

End yandex_main.

(** X18.  [main] of [market.py] never sends a price: the call of
    [upload_prices] is not awaited.  When the settings and the remnants
    are there, whatever the remnants and the replies, it makes the
    requests of the FBS campaign, then those of the DBS campaign, each
    being a page of offer mapping entries or a batch of stocks; when the
    FBS part does not complete, nothing is sent for DBS; and nothing
    raised inside the [try] leaves [main].  An exception of what comes
    before the [try], the reading of the settings or [download_stock],
    does leave it, and nothing has been sent. *)
Theorem yandex_main_sends_no_price (before : Yandex.prelude)
    (date_fbs date_dbs : string) (w : Yandex.world) :
  match before with
  | Yandex.Raised e =>
      Yandex.main before date_fbs date_dbs w = Net.Throw e w
  | Yandex.Ready env R =>
      (∃ fbs dbs,
         Net.sent
           (Net.world_of (Yandex.main before date_fbs date_dbs w))
         = Net.sent w ++ fbs ++ dbs
         ∧ Forall (Script.yandex_stock_traffic (Yandex.campaign_fbs_id env))
             fbs
         ∧ Forall (Script.yandex_stock_traffic (Yandex.campaign_dbs_id env))
             dbs
         ∧ ((∀ w', Yandex.main_campaign R (Yandex.campaign_fbs_id env)
                     (Yandex.warehouse_fbs_id env) date_fbs w
                   ≠ Net.Done tt w') → dbs = []))
      ∧ ∀ e w', Yandex.main before date_fbs date_dbs w ≠ Net.Throw e w'
  end.
Proof.
  destruct before as [[campaign_fbs_id campaign_dbs_id warehouse_fbs_id
                         warehouse_dbs_id] R|e]; [|done].
  cbn [Yandex.main Yandex.campaign_fbs_id Yandex.campaign_dbs_id
         Yandex.warehouse_fbs_id Yandex.warehouse_dbs_id].
  split; [|unfold Yandex.main_guarded; by repeat case_match].
  assert (Net.sent
            (Net.world_of
               (Yandex.main_guarded R campaign_fbs_id campaign_dbs_id
                  warehouse_fbs_id warehouse_dbs_id date_fbs date_dbs w))
          = Net.sent
              (Net.world_of
                 (Yandex.main_try R campaign_fbs_id campaign_dbs_id
                    warehouse_fbs_id warehouse_dbs_id date_fbs date_dbs w)))
    as ->.
  { unfold Yandex.main_guarded.
    by destruct (Yandex.main_try _ _ _ _ _ _ _ w)
      as [[] w2|[e|status|[|]|name] w2|w2]. }
  unfold Yandex.main_try, Net.bind.
  destruct (yandex_main_campaign_sends R campaign_fbs_id warehouse_fbs_id
              date_fbs w) as (fbs & Hfbs & Hall_fbs).
  destruct (Yandex.main_campaign R campaign_fbs_id warehouse_fbs_id
              date_fbs w) as [[] w1|e w1|w1] eqn:Hrun.
  - destruct (yandex_main_campaign_sends R campaign_dbs_id warehouse_dbs_id
                date_dbs w1) as (dbs & Hdbs & Hall_dbs).
    exists fbs, dbs. simpl in Hfbs. rewrite Hdbs, Hfbs, <-app_assoc.
    split; [done|]. split; [done|]. split; [done|].
    intros Hnot. by destruct (Hnot w1).
  - exists fbs, []. rewrite app_nil_r. done.
  - exists fbs, []. rewrite app_nil_r. done.
Qed.

(** ** Uploading the prices, and the stocks to Yandex.Market *)

Section uploads.

Lemma seller_create_prices_text (R : list remnant) (C : list string) :
  Forall Spec.text_price (Spec.matching R C) →
  Seller.create_prices R C = Ok (Closed.seller_price <$> Spec.matching R C).
Proof.
  intros Htext. unfold Seller.create_prices.
  pose proof (seller_prices_loop_closed R C []) as Hloop.
  destruct (Seller.prices_loop R [] C) as [prices|e].
  - by destruct Hloop as [-> _].
  - destruct Hloop as (_ & r & Hr & Hbad). destruct Hbad.
    by apply (proj1 (Forall_forall _ _) Htext).
Qed.

Lemma market_create_prices_valid (R : list remnant) (C : list string) :
  Forall Spec.valid_price (Spec.matching R C) →
  Market.create_prices R C = Ok (Closed.market_price <$> Spec.matching R C).
Proof.
  intros Hvalid. unfold Market.create_prices.
  pose proof (market_prices_loop_closed R C []) as Hloop.
  destruct (Market.prices_loop R [] C) as [prices|e].
  - by destruct Hloop as [-> _].
  - destruct Hloop as (_ & r & Hr & Hbad & _). destruct Hbad.
    by apply (proj1 (Forall_forall _ _) Hvalid).
Qed.

(** The filter of [market.upload_stocks] on entries made by
    [create_stocks]: each has its one item, the subscript never fails. *)
Lemma not_empty_to_market (wh date : string)
    (stocks : list Seller.stock_entry) :
  Yandex.not_empty (to_market wh date <$> stocks)
  = Ok (to_market wh date
        <$> filter (λ stock, Seller.stock stock ≠ 0) stocks).
Proof.
  induction stocks as [|e stocks IH]; [done|].
  rewrite fmap_cons. simpl. rewrite IH. simpl. rewrite filter_cons.
  destruct (decide (Seller.stock e ≠ 0)) as [Hcount|Hcount].
  - by rewrite bool_decide_eq_true_2.
  - by rewrite bool_decide_eq_false_2.
Qed.

End uploads.

(** X19.  [upload_prices] of [seller.py], once the offer ids [C] are
    fetched, the price cells of the matching remnants being text and the
    server accepting the imports: it returns one price entry for each
    remnant whose code is in [C], in remnant order, and has sent them in
    batches of 1 to 1000, in order, one request per batch, and nothing
    else. *)
Theorem ozon_upload_prices (R : list remnant) (w w1 : Ozon.world)
    (C : list string) (oks tail : list (Net.reply (option Ozon.page))) :
  Ozon.get_offer_ids w = Net.Done C w1 →
  Forall Spec.text_price (Spec.matching R C) →
  Net.replies w1 = oks ++ tail →
  Forall (λ r, Net.refusal r = None) oks →
  Z.of_nat (length oks)
  = (Z.of_nat (length (Spec.matching R C)) + 1000 - 1) / 1000 →
  ∃ batches,
    Seller.divide (Closed.seller_price <$> Spec.matching R C) 1000
    = Ok batches
    ∧ Ozon.upload_prices R w
      = Net.Done (Closed.seller_price <$> Spec.matching R C)
          {| Net.replies := tail;
             Net.sent := Net.sent w1 ++ (Ozon.ImportPrices <$> batches) |}
    ∧ concat batches = Closed.seller_price <$> Spec.matching R C
    ∧ Forall (λ b, 1 ≤ Z.of_nat (length b) ≤ 1000) batches.
Proof.
  intros Hids Htext Hreplies Hoks Hcount.
  set (prices := Closed.seller_price <$> Spec.matching R C).
  destruct (divide_batches prices 1000)
    as (batches & Hdivide & Hconcat & Hsizes & Hnumber); [lia|].
  exists batches. split; [done|]. split; [|done].
  unfold Ozon.upload_prices. rewrite (bind_Done _ _ _ _ _ Hids).
  rewrite seller_create_prices_text by done. fold prices.
  rewrite bind_lift_Ok, Hdivide, bind_lift_Ok.
  destruct w1 as [replies1 log1]. simpl in Hreplies. subst replies1.
  assert (Net.for_each Ozon.update_price batches
            {| Net.replies := oks ++ tail; Net.sent := log1 |}
          = Net.Done tt
              {| Net.replies := tail;
                 Net.sent := log1 ++ (Ozon.ImportPrices <$> batches) |})
    as Hsent.
  { apply (for_each_accepted Ozon.ImportPrices); [|done].
    apply Nat2Z.inj. rewrite Hcount, Hnumber. unfold prices.
    by rewrite length_fmap. }
  by rewrite (bind_Done _ _ _ _ _ Hsent).
Qed.

Lemma ozon_upload_prices_witness :
  Ozon.upload_prices Scenario.remnants
    {| Net.replies :=
         [Net.Answer 200
            (Some {| Ozon.items := Some [{| Ozon.offer_id := "A" |};
                                         {| Ozon.offer_id := "B" |};
                                         {| Ozon.offer_id := "C" |}];
                     Ozon.total := VInt 3;
                     Ozon.last_id := VStr "c" |});
          Net.Answer 200 None];
       Net.sent := [] |}
  = Net.Done (Closed.seller_price <$> Scenario.remnants)
      {| Net.replies := [];
         Net.sent := [Ozon.ProductList (VStr EmptyString);
                      Ozon.ImportPrices
                        (Closed.seller_price <$> Scenario.remnants)] |}.
Proof.
  destruct (ozon_upload_prices Scenario.remnants
              {| Net.replies :=
                   [Net.Answer 200
                      (Some {| Ozon.items :=
                                 Some [{| Ozon.offer_id := "A" |};
                                       {| Ozon.offer_id := "B" |};
                                       {| Ozon.offer_id := "C" |}];
                               Ozon.total := VInt 3;
                               Ozon.last_id := VStr "c" |});
                    Net.Answer 200 None];
                 Net.sent := [] |}
              {| Net.replies := [Net.Answer 200 None];
                 Net.sent := [Ozon.ProductList (VStr EmptyString)] |}
              Scenario.catalog [Net.Answer 200 None] [])
    as (batches & Hdivide & Hupload & _).
  - reflexivity.
  - repeat (apply Forall_cons; split; [by eexists|]). by apply Forall_nil.
  - reflexivity.
  - apply Forall_cons. split; [reflexivity|]. by apply Forall_nil.
  - reflexivity.
  - rewrite Hupload. injection Hdivide as <-. reflexivity.
Defined.

(** X20.  [upload_stocks] of [market.py], once the offer ids [C] of the
    campaign are fetched, the quantities of the matching remnants being
    well formed and the server accepting the updates: it sends the stock
    entries in batches of 1 to 2000, in order, one request per batch, as
    many as the length of [C] divided by 2000, rounded up; the filter
    that follows never fails on its subscript, and the function returns
    the entries whose count is not zero together with all the entries:
    those of [seller.create_stocks], written for the warehouse and the
    date. *)
Theorem yandex_upload_stocks (R : list remnant)
    (campaign_id warehouse_id date : string) (w w1 : Yandex.world)
    (C : list string) (oks tail : list (Net.reply (option Yandex.page))) :
  Yandex.get_offer_ids campaign_id w = Net.Done C w1 →
  (∀ r, r ∈ R → Spec.code_of r ∈ C → Spec.valid_quantity r) →
  Net.replies w1 = oks ++ tail →
  Forall (λ r, Net.refusal r = None) oks →
  Z.of_nat (length oks) = (Z.of_nat (length C) + 2000 - 1) / 2000 →
  ∃ stocks C' batches,
    Seller.create_stocks R C = (Ok stocks, C')
    ∧ Seller.divide (to_market warehouse_id date <$> stocks) 2000
      = Ok batches
    ∧ Yandex.upload_stocks R campaign_id warehouse_id date w
      = Net.Done
          (to_market warehouse_id date
           <$> filter (λ stock, Seller.stock stock ≠ 0) stocks,
           to_market warehouse_id date <$> stocks)
          {| Net.replies := tail;
             Net.sent :=
               Net.sent w1 ++ (Yandex.PutStocks campaign_id <$> batches) |}
    ∧ concat batches = to_market warehouse_id date <$> stocks
    ∧ Forall (λ b, 1 ≤ Z.of_nat (length b) ≤ 2000) batches.
Proof.
  intros Hids Hvalid Hreplies Hoks Hcount.
  destruct (create_stocks_valid R C Hvalid)
    as (matched & C' & Hstocks & Hperm & _).
  set (stocks := matched ++ _) in Hstocks.
  destruct (divide_batches (to_market warehouse_id date <$> stocks) 2000)
    as (batches & Hdivide & Hconcat & Hsizes & Hnumber); [lia|].
  assert (length stocks = length C) as Hlen.
  { unfold stocks. rewrite length_app, length_fmap.
    rewrite <-(Permutation_length Hperm), length_app, length_fmap. done. }
  exists stocks, C', batches.
  split; [done|]. split; [done|]. split; [|done].
  unfold Yandex.upload_stocks. rewrite (bind_Done _ _ _ _ _ Hids).
  rewrite market_create_stocks, Hstocks. cbn [fst result_map bind].
  rewrite bind_lift_Ok, Hdivide, bind_lift_Ok.
  destruct w1 as [replies1 log1]. simpl in Hreplies. subst replies1.
  assert (Net.for_each
            (λ some_stock, Yandex.update_stocks some_stock campaign_id)
            batches {| Net.replies := oks ++ tail; Net.sent := log1 |}
          = Net.Done tt
              {| Net.replies := tail;
                 Net.sent :=
                   log1 ++ (Yandex.PutStocks campaign_id <$> batches) |})
    as Hsent.
  { apply (for_each_accepted (Yandex.PutStocks campaign_id)); [|done].
    apply Nat2Z.inj. by rewrite Hcount, Hnumber, length_fmap, Hlen. }
  rewrite (bind_Done _ _ _ _ _ Hsent).
  by rewrite not_empty_to_market, bind_lift_Ok.
Qed.

Lemma yandex_upload_stocks_witness :
  ∃ stocks,
    Yandex.upload_stocks Scenario.remnants "fbs" "wh" "2024-01-01T00:00:00Z"
      {| Net.replies :=
           [Net.Answer 200
              (Some {| Yandex.offerMappingEntries :=
                         Some [{| Yandex.entry_offer :=
                                    Some {| Yandex.shopSku := "A" |} |};
                               {| Yandex.entry_offer :=
                                    Some {| Yandex.shopSku := "B" |} |};
                               {| Yandex.entry_offer :=
                                    Some {| Yandex.shopSku := "C" |} |}];
                       Yandex.page_paging :=
                         Some {| Yandex.nextPageToken := VNone |} |});
            Net.Answer 200 None];
         Net.sent := [] |}
    = Net.Done
        (to_market "wh" "2024-01-01T00:00:00Z"
         <$> [{| Seller.offer_id := "A"; Seller.stock := 100 |}],
         stocks)
        {| Net.replies := [];
           Net.sent := [Yandex.OfferMappingEntries "fbs" (VStr EmptyString);
                        Yandex.PutStocks "fbs" stocks] |}.
Proof.
  destruct (yandex_upload_stocks Scenario.remnants "fbs" "wh"
              "2024-01-01T00:00:00Z"
              {| Net.replies :=
                   [Net.Answer 200
                      (Some {| Yandex.offerMappingEntries :=
                                 Some [{| Yandex.entry_offer :=
                                            Some {| Yandex.shopSku := "A" |} |};
                                       {| Yandex.entry_offer :=
                                            Some {| Yandex.shopSku := "B" |} |};
                                       {| Yandex.entry_offer :=
                                            Some {| Yandex.shopSku := "C" |} |}];
                               Yandex.page_paging :=
                                 Some {| Yandex.nextPageToken := VNone |} |});
                    Net.Answer 200 None];
                 Net.sent := [] |}
              {| Net.replies := [Net.Answer 200 None];
                 Net.sent :=
                   [Yandex.OfferMappingEntries "fbs" (VStr EmptyString)] |}
              Scenario.catalog [Net.Answer 200 None] [])
    as (stocks & C' & batches & Hstocks & Hdivide & Hupload & _).
  - reflexivity.
  - apply scenario_well_formed.
  - reflexivity.
  - apply Forall_cons. split; [reflexivity|]. by apply Forall_nil.
  - reflexivity.
  - exists (to_market "wh" "2024-01-01T00:00:00Z" <$> stocks).
    rewrite Hupload.
    injection Hstocks as <- <-. injection Hdivide as <-. reflexivity.
Defined.

(** X21.  [upload_prices] of [market.py], the coroutine's body, once the
    offer ids [C] of the campaign are fetched, the price cells of the
    matching remnants being text that converts (a digit before the
    first ['.'], no more than 4300 of them) and the server accepting
    the updates: it returns one price entry for
    each remnant whose code is in [C], in remnant order, and has sent
    them in batches of 1 to 500, in order, one request per batch. *)
Theorem yandex_upload_prices (R : list remnant) (campaign_id : string)
    (w w1 : Yandex.world) (C : list string)
    (oks tail : list (Net.reply (option Yandex.page))) :
  Yandex.get_offer_ids campaign_id w = Net.Done C w1 →
  Forall Spec.valid_price (Spec.matching R C) →
  Net.replies w1 = oks ++ tail →
  Forall (λ r, Net.refusal r = None) oks →
  Z.of_nat (length oks)
  = (Z.of_nat (length (Spec.matching R C)) + 500 - 1) / 500 →
  ∃ batches,
    Seller.divide (Closed.market_price <$> Spec.matching R C) 500
    = Ok batches
    ∧ Yandex.upload_prices R campaign_id w
      = Net.Done (Closed.market_price <$> Spec.matching R C)
          {| Net.replies := tail;
             Net.sent :=
               Net.sent w1 ++ (Yandex.PostPrices campaign_id <$> batches) |}
    ∧ concat batches = Closed.market_price <$> Spec.matching R C
    ∧ Forall (λ b, 1 ≤ Z.of_nat (length b) ≤ 500) batches.
Proof.
  intros Hids Hvalid Hreplies Hoks Hcount.
  set (prices := Closed.market_price <$> Spec.matching R C).
  destruct (divide_batches prices 500)
    as (batches & Hdivide & Hconcat & Hsizes & Hnumber); [lia|].
  exists batches. split; [done|]. split; [|done].
  unfold Yandex.upload_prices. rewrite (bind_Done _ _ _ _ _ Hids).
  rewrite market_create_prices_valid by done. fold prices.
  rewrite bind_lift_Ok, Hdivide, bind_lift_Ok.
  destruct w1 as [replies1 log1]. simpl in Hreplies. subst replies1.
  assert (Net.for_each
            (λ some_prices, Yandex.update_price some_prices campaign_id)
            batches {| Net.replies := oks ++ tail; Net.sent := log1 |}
          = Net.Done tt
              {| Net.replies := tail;
                 Net.sent :=
                   log1 ++ (Yandex.PostPrices campaign_id <$> batches) |})
    as Hsent.
  { apply (for_each_accepted (Yandex.PostPrices campaign_id)); [|done].
    apply Nat2Z.inj. rewrite Hcount, Hnumber. unfold prices.
    by rewrite length_fmap. }
  by rewrite (bind_Done _ _ _ _ _ Hsent).
Qed.

Lemma yandex_upload_prices_witness :
  Yandex.upload_prices Scenario.remnants "fbs"
    {| Net.replies :=
         [Net.Answer 200
            (Some {| Yandex.offerMappingEntries :=
                       Some [{| Yandex.entry_offer :=
                                  Some {| Yandex.shopSku := "A" |} |};
                             {| Yandex.entry_offer :=
                                  Some {| Yandex.shopSku := "B" |} |};
                             {| Yandex.entry_offer :=
                                  Some {| Yandex.shopSku := "C" |} |}];
                     Yandex.page_paging :=
                       Some {| Yandex.nextPageToken := VNone |} |});
          Net.Answer 200 None];
       Net.sent := [] |}
  = Net.Done (Closed.market_price <$> Scenario.remnants)
      {| Net.replies := [];
         Net.sent := [Yandex.OfferMappingEntries "fbs" (VStr EmptyString);
                      Yandex.PostPrices "fbs"
                        (Closed.market_price <$> Scenario.remnants)] |}.
Proof.
  destruct (yandex_upload_prices Scenario.remnants "fbs"
              {| Net.replies :=
                   [Net.Answer 200
                      (Some {| Yandex.offerMappingEntries :=
                                 Some [{| Yandex.entry_offer :=
                                            Some {| Yandex.shopSku := "A" |} |};
                                       {| Yandex.entry_offer :=
                                            Some {| Yandex.shopSku := "B" |} |};
                                       {| Yandex.entry_offer :=
                                            Some {| Yandex.shopSku := "C" |} |}];
                               Yandex.page_paging :=
                                 Some {| Yandex.nextPageToken := VNone |} |});
                    Net.Answer 200 None];
                 Net.sent := [] |}
              {| Net.replies := [Net.Answer 200 None];
                 Net.sent :=
                   [Yandex.OfferMappingEntries "fbs" (VStr EmptyString)] |}
              Scenario.catalog [Net.Answer 200 None] [])
    as (batches & Hdivide & Hupload & _).
  - reflexivity.
  - repeat (apply Forall_cons; split; [by vm_compute; eexists|]).
    by apply Forall_nil.
  - reflexivity.
  - apply Forall_cons. split; [reflexivity|]. by apply Forall_nil.
  - reflexivity.
  - rewrite Hupload. injection Hdivide as <-. reflexivity.
Defined.
